(** * The document Processor of the SSM agent

  A shallow embedding of [agent/framework/processor/processor.go]:
  the [EngineProcessor] with its two worker pools, the on-disk document
  state kept by [docmanager], the result channel, and the job bodies
  [processCommand] and [processCancelCommand].

  Go packages are rendered as modules ([contracts], [model], [appconfig],
  [time], [task], [executer], [docmanager]); the functions of
  [processor.go] live in [Section Processor].  Stateful code threads a
  [World] through a small state-and-panic monad, and every call that
  leaves the processor is also recorded, in order, on the world's trace.

  Granularity: a call of the API ([Start], [Submit], [Cancel]) and the body
  of a job each run to their end in one piece; workers take their steps in
  between.  The two goroutines of [Stop] are interleaved by an explicit
  schedule.  Reading a state directory always succeeds.

  Two users of the plugin interface are embedded besides: the gatherer
  loop of the [inventory] plugin, whose calls are collected in a list, and
  the [updatessmagent] plugin, whose calls outside the agent go through a
  state-passing monad of its own over the state of the outside world. *)

From Stdlib Require Import ZArith Bool Lia.
From stdpp Require Import base option list gmap strings fin_maps.

Local Open Scope Z_scope.
Local Open Scope string_scope.
Local Open Scope list_scope.

(** ** Machine integers: [int], [int64] and [time.Duration] are 64 bits wide *)

(** Two's-complement wrap-around of a 64-bit integer. *)
Definition wrap64 (z : Z) : Z := (z + 2 ^ 63) mod 2 ^ 64 - 2 ^ 63.

(** The values a 64-bit integer can hold. *)
Definition isInt64 (z : Z) : Prop := - 2 ^ 63 <= z < 2 ^ 63.

(** ** Package [contracts] *)
Module contracts.

(** Modelled from the spec: the document status enumeration of §6
    ([contracts.ResultStatus]). *)
Inductive ResultStatus :=
| ResultStatusInProgress
| ResultStatusSuccess
| ResultStatusFailed
| ResultStatusCancelled
| ResultStatusTimedOut
| ResultStatusSuccessAndReboot
| ResultStatusShutdown.

#[global] Instance ResultStatus_eq_dec : EqDecision ResultStatus.
Proof. solve_decision. Defined.

(** Modelled from the spec: [contracts.StopType]. *)
Inductive StopType := StopTypeSoftStop | StopTypeHardStop.

#[global] Instance StopType_eq_dec : EqDecision StopType.
Proof. solve_decision. Defined.

(** Modelled from the spec: a plugin's result slot.  [processor.go]
    reads only [PluginName]. *)
Record PluginResult := {
  PluginName : string;
  Status' : ResultStatus;
  Code : Z;
  StandardOutput : string;
  StandardError : string;
  StartDateTime : Z;
  EndDateTime : Z
}.

(** Modelled from the spec: a result emitted by an executer.
    [LastPlugin] empty means that the whole document is complete. *)
Record DocumentResult := {
  DocumentID : string;
  LastPlugin : string;
  PluginResults : gmap string PluginResult;
  Status : ResultStatus
}.

End contracts.

(** ** Package [docmanager/model] *)
Module model.

Definition DocumentType := string.

(** Modelled from the spec: the identifying attributes of a document (§3),
    under the field names [processor.go] uses. *)
Record DocumentInfo := {
  DocumentID : string;
  InstanceID : string;
  MessageID : string;
  AssociationID : string;
  (** Go [int] *)
  RunCount : Z;
  DocumentStatus : contracts.ResultStatus
}.

(** Modelled from the spec: [cancel_info] of §3. *)
Record CancelCommandInfo := {
  CancelMessageID : string;
  CancelCommandID : string;
  DebugInfo : string
}.

(** Modelled from the spec: a plugin-invocation record of §3. *)
Record PluginState := {
  Name : string;
  Input : string;
  Result : option contracts.PluginResult
}.

(** Modelled from the spec: the document state of §3, with the field
    names [processor.go] uses. *)
Record DocumentState := {
  DocumentInformation : DocumentInfo;
  DocumentType' : DocumentType;
  CancelInformation : CancelCommandInfo;
  InstancePluginsInformation : list PluginState
}.

(** Field updates, as the Go code assigns to fields in place. *)
Definition setRunCount (n : Z) (d : DocumentState) : DocumentState :=
  {| DocumentInformation :=
       {| DocumentID := DocumentID (DocumentInformation d);
          InstanceID := InstanceID (DocumentInformation d);
          MessageID := MessageID (DocumentInformation d);
          AssociationID := AssociationID (DocumentInformation d);
          RunCount := n;
          DocumentStatus := DocumentStatus (DocumentInformation d) |};
     DocumentType' := DocumentType' d;
     CancelInformation := CancelInformation d;
     InstancePluginsInformation := InstancePluginsInformation d |}.

Definition setDocumentStatus (s : contracts.ResultStatus) (d : DocumentState)
  : DocumentState :=
  {| DocumentInformation :=
       {| DocumentID := DocumentID (DocumentInformation d);
          InstanceID := InstanceID (DocumentInformation d);
          MessageID := MessageID (DocumentInformation d);
          AssociationID := AssociationID (DocumentInformation d);
          RunCount := RunCount (DocumentInformation d);
          DocumentStatus := s |};
     DocumentType' := DocumentType' d;
     CancelInformation := CancelInformation d;
     InstancePluginsInformation := InstancePluginsInformation d |}.

Definition setDebugInfo (s : string) (d : DocumentState) : DocumentState :=
  {| DocumentInformation := DocumentInformation d;
     DocumentType' := DocumentType' d;
     CancelInformation :=
       {| CancelMessageID := CancelMessageID (CancelInformation d);
          CancelCommandID := CancelCommandID (CancelInformation d);
          DebugInfo := s |};
     InstancePluginsInformation := InstancePluginsInformation d |}.

(** The zero value of the struct. *)
Definition zeroDocumentState : DocumentState :=
  {| DocumentInformation :=
       {| DocumentID := ""; InstanceID := ""; MessageID := "";
          AssociationID := ""; RunCount := 0;
          DocumentStatus := contracts.ResultStatusInProgress |};
     DocumentType' := "";
     CancelInformation :=
       {| CancelMessageID := ""; CancelCommandID := ""; DebugInfo := "" |};
     InstancePluginsInformation := [] |}.

End model.

(** ** Package [appconfig] *)
Module appconfig.

(** Modelled from the spec: the four locations of a document's interim
    state ([appconfig.DefaultLocationOf...], §3). *)
Inductive Location :=
| DefaultLocationOfPending
| DefaultLocationOfCurrent
| DefaultLocationOfCompleted
| DefaultLocationOfCorrupt.

#[global] Instance Location_eq_dec : EqDecision Location.
Proof. solve_decision. Defined.

(** The fields of [appconfig.SsmagentConfig] that [processor.go] reads. *)
Record MdsCfg := {
  (** [int64] milliseconds *)
  StopTimeoutMillis : Z;
  (** [int] *)
  CommandRetryLimit : Z
}.

Record AgentInfo := { OrchestrationRootDir : string }.

Record SsmagentConfig := { Mds : MdsCfg; Agent : AgentInfo }.

End appconfig.

(** ** Package [time]: durations are [int64] nanoseconds *)
Module time.

Definition Duration := Z.

Definition Millisecond : Duration := 1000000.
Definition Second : Duration := 1000 * Millisecond.

Definition mul (a b : Duration) : Duration := wrap64 (a * b).

End time.

(** ** Package [context] *)
Record context_T := {
  (** the name stack added by [With] *)
  ctxNames : list string;
  AppConfig : appconfig.SsmagentConfig
}.

Definition context_With (name : string) (c : context_T) : context_T :=
  {| ctxNames := ctxNames c ++ [name]; AppConfig := AppConfig c |}.

(** ** Package [task]: the worker pool *)
Module task.

(** Modelled from the spec: [task.CancelFlag], the cancellation token of
    §4.2 with its three observable states. *)
Inductive CancelFlag := Active | Canceled | ShutDown.

#[global] Instance CancelFlag_eq_dec : EqDecision CancelFlag.
Proof. solve_decision. Defined.

(** Modelled from the spec: the errors of [Pool.Submit] in §4.2. *)
Inductive PoolError := DuplicateJobId | PoolShutdown | QueueFull.

#[global] Instance PoolError_eq_dec : EqDecision PoolError.
Proof. solve_decision. Defined.

Section Pool.
(** The job bodies; [processor.go] enqueues closures. *)
Context {Body : Type}.

(** Modelled from the spec: a job of a [task.Pool], keyed by its job-id,
    with its token; it is queued until a worker takes it. *)
Record Job := {
  jobID : string;
  jobBody : Body;
  jobFlag : CancelFlag;
  jobRunning : bool
}.

(** Modelled from the spec: [task.Pool], the jobs in submission order. *)
Record Pool := {
  jobs : list Job;
  isShutdown : bool;
  maxParallel : Z;
  cancelWaitDuration : time.Duration
}.

Definition NewPool (maxParallel : Z) (cancelWait : time.Duration) : Pool :=
  {| jobs := []; isShutdown := false;
     maxParallel := maxParallel; cancelWaitDuration := cancelWait |}.

Definition withJobs (js : list Job) (p : Pool) : Pool :=
  {| jobs := js; isShutdown := isShutdown p;
     maxParallel := maxParallel p;
     cancelWaitDuration := cancelWaitDuration p |}.

Definition hasJob (id : string) (p : Pool) : bool :=
  existsb (fun j => bool_decide (jobID j = id)) (jobs p).

(** Modelled from the spec: [Pool.Submit] of §4.2.  A job-id that is
    queued or running is refused, a pool that is shutting down accepts
    nothing, and otherwise the job is queued behind the others with an
    active token (the source blocks rather than refusing a full queue). *)
Definition Submit (id : string) (b : Body) (p : Pool)
  : option PoolError * Pool :=
  if hasJob id p then (Some DuplicateJobId, p)
  else if isShutdown p then (Some PoolShutdown, p)
  else (None,
        withJobs (jobs p ++ [{| jobID := id; jobBody := b;
                                jobFlag := Active;
                                jobRunning := false |}]) p).

(** Modelled from the spec: setting a token; a token that has reached a
    terminal state keeps it (§4.2). *)
Definition signal (f : CancelFlag) (j : Job) : Job :=
  {| jobID := jobID j; jobBody := jobBody j;
     jobFlag := match jobFlag j with Active => f | s => s end;
     jobRunning := jobRunning j |}.

(** Modelled from the spec: the job list after [Pool.Cancel] of [id]; the
    job with that id is removed when still queued and signalled when
    running. *)
Fixpoint cancelJobs (id : string) (js : list Job) : bool * list Job :=
  match js with
  | [] => (false, [])
  | j :: rest =>
      if bool_decide (jobID j = id)
      then if jobRunning j
           then (true, signal Canceled j :: rest)
           else (true, rest)
      else let '(found, rest') := cancelJobs id rest in
           (found, j :: rest')
  end.

(** Modelled from the spec: [Pool.Cancel] of §4.2. *)
Definition Cancel (id : string) (p : Pool) : bool * Pool :=
  let '(found, js) := cancelJobs id (jobs p) in
  (found, withJobs js p).

(** Modelled from the spec: [Pool.ShutdownAndWait] of §4.2, in two
    steps.  First every token is signalled and new work is refused... *)
Definition shutdownBegin (p : Pool) : Pool :=
  {| jobs := map (signal ShutDown) (jobs p); isShutdown := true;
     maxParallel := maxParallel p;
     cancelWaitDuration := cancelWaitDuration p |}.

(** Modelled from the spec: the end of [Pool.ShutdownAndWait]; when the
    workers have drained or the timeout has passed, what is still
    outstanding is abandoned. *)
Definition shutdownEnd (p : Pool) : Pool := withJobs [] p.

(** Modelled from the spec: the dispatch of §4.2; a worker takes the first
    queued job, in submission order. *)
Fixpoint dispatchJobs (js : list Job) : option string * list Job :=
  match js with
  | [] => (None, [])
  | j :: rest =>
      if jobRunning j
      then let '(r, rest') := dispatchJobs rest in (r, j :: rest')
      else (Some (jobID j),
            {| jobID := jobID j; jobBody := jobBody j;
               jobFlag := jobFlag j; jobRunning := true |} :: rest)
  end.

Definition findJob (id : string) (p : Pool) : option Job :=
  find (fun j => bool_decide (jobID j = id)) (jobs p).

Definition removeJob (id : string) (p : Pool) : Pool :=
  withJobs (filter (fun j => jobID j ≠ id) (jobs p)) p.

End Pool.

Arguments Job : clear implicits.
Arguments Pool : clear implicits.

End task.


(** ** Package [executer] *)
Module executer.

(** Modelled from the spec: [executer.DocumentFileStore], the handle
    through which an executer saves the document it runs (§4.3). *)
Record DocumentFileStore := {
  storeContext : context_T;
  instanceID : string;
  documentID : string;
  location : appconfig.Location;
  state : model.DocumentState
}.

Definition NewDocumentFileStore (ctx : context_T) (instID docID : string)
  (loc : appconfig.Location) (docState : model.DocumentState)
  : DocumentFileStore :=
  {| storeContext := ctx; instanceID := instID; documentID := docID;
     location := loc; state := docState |}.

(** Modelled from the spec: what an executer does that the processor can
    observe, in order (§4.3).  It saves the document through its store
    handle, and it emits results on the channel that [Run] returns.  The
    channel is closed after the last action. *)
Inductive Action :=
| Save (d : model.DocumentState)
| Emit (r : contracts.DocumentResult).

(** Modelled from the spec: the [executer.Executer] interface,
    [Run(token, docStore)] of §4.3. *)
Record Executer := {
  Run : task.CancelFlag -> DocumentFileStore -> list Action
}.

Definition emitted (acts : list Action) : list contracts.DocumentResult :=
  omap (fun a => match a with Emit r => Some r | Save _ => None end) acts.

Definition saved (acts : list Action) : list model.DocumentState :=
  omap (fun a => match a with Save d => Some d | Emit _ => None end) acts.

End executer.

(** ** Package [docmanager]: the on-disk state *)
Module docmanager.

(** One directory [{data_root}/{instance_id}/{location}]: file name to
    content. *)
Abbreviation Dir := (gmap string model.DocumentState).

(** All directories, by instance id and location. *)
Definition Files := string -> appconfig.Location -> Dir.

Definition noFiles : Files := fun _ _ => ∅.

Definition setDir (instID : string) (loc : appconfig.Location) (d : Dir)
  (fs : Files) : Files :=
  fun i l => if decide (i = instID ∧ l = loc) then d else fs i l.

(** Modelled from the spec: [docmanager.PersistData], the [Persist] of
    §4.1.  It writes the file, new or not. *)
Definition PersistData (docID instID : string) (loc : appconfig.Location)
  (d : model.DocumentState) (fs : Files) : Files :=
  setDir instID loc (<[docID := d]> (fs instID loc)) fs.

(** Modelled from the spec: [docmanager.MoveDocumentState], the [Move] of
    §4.1, a rename across sibling directories.  A file that is not in the
    source directory cannot be renamed: the failure is logged and nothing
    changes. *)
Definition MoveDocumentState (docID instID : string)
  (src dst : appconfig.Location) (fs : Files) : Files :=
  match fs instID src !! docID with
  | None => fs
  | Some d =>
      PersistData docID instID dst d
        (setDir instID src (delete docID (fs instID src)) fs)
  end.

(** Modelled from the spec: [docmanager.GetDocumentInterimState], the
    [Load] of §4.1.  The Go function returns a state and no error; for a
    file that cannot be read that is the zero value. *)
Definition GetDocumentInterimState (fileName instID : string)
  (loc : appconfig.Location) (fs : Files) : model.DocumentState :=
  default model.zeroDocumentState (fs instID loc !! fileName).

(** Modelled from the spec: [fileutil.IsDirEmpty] and [ReadDir] on a state
    directory, the [IsEmpty] and [List] of §4.1.  The listing comes in the
    order of the map; no property below relies on it. *)
Definition IsDirEmpty (d : Dir) : bool := bool_decide (d = ∅).

Definition ReadDir (d : Dir) : list string := (map_to_list d).*1.

End docmanager.

(** ** The processor's world *)

(** The two pools of an [EngineProcessor], by reference. *)
Inductive PoolRef := SendCommandPoolRef | CancelCommandPoolRef.

#[global] Instance PoolRef_eq_dec : EqDecision PoolRef.
Proof. solve_decision. Defined.

Definition ExecuterCreator := context_T -> executer.Executer.

(** The closures handed to the pools, with the variables they capture. *)
Inductive JobBody :=
| ProcessCommandJob (ctx : context_T) (creator : ExecuterCreator)
    (docState : model.DocumentState)
| ProcessCancelCommandJob (ctx : context_T) (sendCommandPool : PoolRef)
    (docState : model.DocumentState).

Inductive LogLevel := LDebug | LInfo | LError.

Inductive LogArg :=
| VStr (s : string)
| VErr (e : task.PoolError)
| VDir (instID : string) (loc : appconfig.Location).

(** Every call that leaves the processor, in the order it is made. *)
Inductive Event :=
| EvLog (lvl : LogLevel) (fmt : string) (args : list LogArg)
| EvPersistData (docID instID : string) (loc : appconfig.Location)
    (d : model.DocumentState)
| EvMoveDocumentState (docID instID : string) (src dst : appconfig.Location)
| EvPoolSubmit (pool : PoolRef) (jobID : string) (body : JobBody)
    (err : option task.PoolError)
| EvPoolCancel (pool : PoolRef) (jobID : string) (found : bool)
| EvShutdownBegin (pool : PoolRef) (timeout : time.Duration)
| EvShutdownEnd (pool : PoolRef)
| EvSend (res : contracts.DocumentResult)
| EvClose
| EvLrpmInvoke (pluginID : string) (res : contracts.PluginResult)
    (orchestrationDir : string)
| EvRequestPendingReboot.

Record World := {
  files : docmanager.Files;
  pools : PoolRef -> task.Pool JobBody;
  (** what has been sent on [resChan], oldest first *)
  resChan : list contracts.DocumentResult;
  chanClosed : bool;
  (** the rebooter's latch *)
  pendingReboot : bool;
  trace : list Event
}.

Definition setFiles (fs : docmanager.Files) (w : World) : World :=
  {| files := fs; pools := pools w; resChan := resChan w;
     chanClosed := chanClosed w; pendingReboot := pendingReboot w;
     trace := trace w |}.

Definition setPool (r : PoolRef) (p : task.Pool JobBody) (w : World) : World :=
  {| files := files w;
     pools := fun r' => if decide (r' = r) then p else pools w r';
     resChan := resChan w;
     chanClosed := chanClosed w; pendingReboot := pendingReboot w;
     trace := trace w |}.

Definition record (e : Event) (w : World) : World :=
  {| files := files w; pools := pools w; resChan := resChan w;
     chanClosed := chanClosed w; pendingReboot := pendingReboot w;
     trace := trace w ++ [e] |}.

(** State passing, with [None] for a run-time panic (a nil dereference, a
    send on or a second close of a closed channel). *)
Definition M (A : Type) : Type := World -> option (A * World).

Definition ret {A} (a : A) : M A := fun w => Some (a, w).

Definition bind {A B} (m : M A) (k : A -> M B) : M B :=
  fun w => match m w with
           | Some (a, w') => k a w'
           | None => None
           end.

Definition panic {A} : M A := fun _ => None.

Definition modify (f : World -> World) : M unit := fun w => Some (tt, f w).

Definition gets {A} (f : World -> A) : M A := fun w => Some (f w, w).

Notation "'let*' x ':=' m 'in' k" := (bind m (fun x => k))
  (at level 10, x name, m at level 100, k at level 200).
Notation "m >> k" := (bind m (fun _ => k))
  (at level 90, right associativity).

(** [for _, x := range xs { body x }] *)
Fixpoint forEach {A} (xs : list A) (body : A -> M unit) : M unit :=
  match xs with
  | [] => ret tt
  | x :: rest => body x >> forEach rest body
  end.

(** Dereferencing a pointer or interface that may be nil. *)
Definition deref {A} (o : option A) : M A :=
  match o with Some a => ret a | None => panic end.

Definition logf (lvl : LogLevel) (fmt : string) (args : list LogArg) : M unit :=
  modify (record (EvLog lvl fmt args)).

(** The stateful faces of [docmanager], [task.Pool], the channel and the
    rebooter. *)
Definition PersistData (docID instID : string) (loc : appconfig.Location)
  (d : model.DocumentState) : M unit :=
  modify (fun w =>
    record (EvPersistData docID instID loc d)
      (setFiles (docmanager.PersistData docID instID loc d (files w)) w)).

Definition MoveDocumentState (docID instID : string)
  (src dst : appconfig.Location) : M unit :=
  modify (fun w =>
    record (EvMoveDocumentState docID instID src dst)
      (setFiles (docmanager.MoveDocumentState docID instID src dst (files w)) w)).

Definition poolSubmit (r : PoolRef) (id : string) (b : JobBody)
  : M (option task.PoolError) :=
  fun w =>
    let '(err, p) := task.Submit id b (pools w r) in
    Some (err, record (EvPoolSubmit r id b err) (setPool r p w)).

Definition poolCancel (r : PoolRef) (id : string) : M bool :=
  fun w =>
    let '(found, p) := task.Cancel id (pools w r) in
    Some (found, record (EvPoolCancel r id found) (setPool r p w)).

(** [resChan <- res]; the consumer is taken to be receiving. *)
Definition send (res : contracts.DocumentResult) : M unit :=
  fun w =>
    if chanClosed w then None
    else Some (tt, record (EvSend res)
                     {| files := files w; pools := pools w;
                        resChan := resChan w ++ [res];
                        chanClosed := false;
                        pendingReboot := pendingReboot w;
                        trace := trace w |}).

(** [close(resChan)] *)
Definition closeChan : M unit :=
  fun w =>
    if chanClosed w then None
    else Some (tt, record EvClose
                     {| files := files w; pools := pools w;
                        resChan := resChan w;
                        chanClosed := true;
                        pendingReboot := pendingReboot w;
                        trace := trace w |}).

(** Modelled from the spec: [rebooter.RequestPendingReboot], the
    idempotent latch of §4.5. *)
Definition RequestPendingReboot : M unit :=
  modify (fun w =>
    record EvRequestPendingReboot
      {| files := files w; pools := pools w; resChan := resChan w;
         chanClosed := chanClosed w; pendingReboot := true;
         trace := trace w |}).

(** Two goroutines, each a sequence of atomic steps, merged by a schedule:
    [true] lets the first one step, [false] the second; a goroutine that
    has finished leaves the floor to the other. *)
Fixpoint interleave {A} (sched : list bool) (g1 g2 : list A) : list A :=
  match sched with
  | [] => g1 ++ g2
  | c :: s =>
      match g1, g2 with
      | [], _ => g2
      | _, [] => g1
      | a :: g1', b :: g2' =>
          if c then a :: interleave s g1' g2 else b :: interleave s g1 g2'
      end
  end.

Fixpoint runSteps (steps : list (M unit)) : M unit :=
  match steps with
  | [] => ret tt
  | s :: rest => s >> runSteps rest
  end.

(** ** Package [processor]: types *)

Record EngineProcessor := {
  context : option context_T;
  executerCreator : ExecuterCreator;
  sendCommandPool : PoolRef;
  cancelCommandPool : PoolRef;
  supportedDocTypes : list model.DocumentType
  (** [resChan] is the channel of the [World] *)
}.

Inductive StartError :=
| ErrNotInitialized
| ErrInstanceID (msg : string).

(** ** Sample documents, executers and worlds *)
Module Samples.

Definition mkDoc (id msg assoc : string) (runCount : Z) (type : string)
  (cancelMsg cancelCmd : string) : model.DocumentState :=
  {| model.DocumentInformation :=
       {| model.DocumentID := id; model.InstanceID := "i-0abc";
          model.MessageID := msg; model.AssociationID := assoc;
          model.RunCount := runCount;
          model.DocumentStatus := contracts.ResultStatusInProgress |};
     model.DocumentType' := type;
     model.CancelInformation :=
       {| model.CancelMessageID := cancelMsg;
          model.CancelCommandID := cancelCmd; model.DebugInfo := "" |};
     model.InstancePluginsInformation := [] |}.

Definition config : appconfig.SsmagentConfig :=
  {| appconfig.Mds :=
       {| appconfig.StopTimeoutMillis := 20000;
          appconfig.CommandRetryLimit := 3 |};
     appconfig.Agent := {| appconfig.OrchestrationRootDir := "orchestration" |} |}.

Definition ctx : context_T := {| ctxNames := []; AppConfig := config |}.

Definition isAssociation (d : model.DocumentState) : bool :=
  bool_decide (model.DocumentType' d = "Association").

Definition result (lastPlugin : string) (status : contracts.ResultStatus)
  : contracts.DocumentResult :=
  {| contracts.DocumentID := "d2"; contracts.LastPlugin := lastPlugin;
     contracts.PluginResults := ∅; contracts.Status := status |}.

(** An executer with nothing to run. *)
Definition idle : ExecuterCreator :=
  fun _ => {| executer.Run := fun _ _ => [] |}.

(** Plugin [A] asks for a reboot; the aggregate says so too. *)
Definition rebooting : ExecuterCreator :=
  fun _ => {| executer.Run := fun _ store =>
    [ executer.Save (executer.state store);
      executer.Emit (result "A" contracts.ResultStatusSuccessAndReboot);
      executer.Emit (result "" contracts.ResultStatusSuccessAndReboot) ] |}.

(** A reboot status in the middle of the stream, success at its end. *)
Definition rebootThenSuccess : ExecuterCreator :=
  fun _ => {| executer.Run := fun _ _ =>
    [ executer.Emit (result "A" contracts.ResultStatusSuccessAndReboot);
      executer.Emit (result "" contracts.ResultStatusSuccess) ] |}.

(** Two plugins that succeed. *)
Definition succeeding : ExecuterCreator :=
  fun _ => {| executer.Run := fun _ store =>
    [ executer.Save (executer.state store);
      executer.Emit (result "A" contracts.ResultStatusSuccess);
      executer.Save (executer.state store);
      executer.Emit (result "B" contracts.ResultStatusSuccess);
      executer.Emit (result "" contracts.ResultStatusSuccess) ] |}.

Definition processor (creator : ExecuterCreator) : EngineProcessor :=
  {| context := Some ctx; executerCreator := creator;
     sendCommandPool := SendCommandPoolRef;
     cancelCommandPool := CancelCommandPoolRef;
     supportedDocTypes := ["SendCommand"; "CancelCommand"; "Association"] |}.

(** Nothing on disk, two empty pools, an open channel. *)
Definition emptyWorld : World :=
  {| files := docmanager.noFiles;
     pools := fun _ => task.NewPool 1 (time.mul 10000 time.Millisecond);
     resChan := []; chanClosed := false; pendingReboot := false;
     trace := [] |}.

Definition d1 := mkDoc "d1" "m-d1" "" 0 "SendCommand" "" "".
Definition d2 := mkDoc "d2" "m-d2" "" 0 "SendCommand" "" "".
(** a cancel document aimed at [d1] *)
Definition c3 := mkDoc "c3" "m-c3" "" 0 "CancelCommand" "m-d1" "cmd-d1".
(** a document that has used up its retries *)
Definition d5 := mkDoc "d5" "m-d5" "" 3 "SendCommand" "" "".
(** a document of a type this processor does not support *)
Definition d6 := mkDoc "d6" "m-d6" "" 0 "Inventory" "" "".

(** The surroundings: the instance, the plugin name and the paths. *)
Definition platform : string + string := inl "i-0abc".
Definition cloudWatch : string := "aws:cloudWatch".
Definition dataStore : string := "/var/lib/amazon/ssm".
Definition documentRoot : string := "document".
Definition join (parts : list string) : string := String.concat "/" parts.
Definition buildPath (root : string) (parts : list string) : string :=
  String.concat "/" (root :: parts).

(** a crash remnant that has run once *)
Definition d4 := mkDoc "d4" "m-d4" "" 1 "SendCommand" "" "".

Definition withFile (loc : appconfig.Location) (d : model.DocumentState)
  (w : World) : World :=
  setFiles (docmanager.PersistData
              (model.DocumentID (model.DocumentInformation d))
              (model.InstanceID (model.DocumentInformation d)) loc d
              (files w)) w.

Definition withJob (r : PoolRef) (id : string) (b : JobBody) (w : World)
  : World :=
  setPool r (snd (task.Submit id b (pools w r))) w.

(** [d1] (or [d2]) waits in pending. *)
Definition pendingD1 : World :=
  withFile appconfig.DefaultLocationOfPending d1 emptyWorld.
Definition pendingD2 : World :=
  withFile appconfig.DefaultLocationOfPending d2 emptyWorld.

(** The command pool already holds a job under [d1]'s message id. *)
Definition busyD1 : World :=
  withJob SendCommandPoolRef "m-d1" (ProcessCommandJob ctx idle d1)
    emptyWorld.

(** The cancel pool already holds a job under [c3]'s message id. *)
Definition busyC3 : World :=
  withJob CancelCommandPoolRef "m-c3"
    (ProcessCancelCommandJob ctx SendCommandPoolRef c3) emptyWorld.

(** After a crash: [d4] and [d5] were in progress. *)
Definition crashed : World :=
  withFile appconfig.DefaultLocationOfCurrent d5
    (withFile appconfig.DefaultLocationOfCurrent d4 emptyWorld).

(** A document of another processor's domain, in current or in pending. *)
Definition foreignCurrent : World :=
  withFile appconfig.DefaultLocationOfCurrent d6 emptyWorld.
Definition foreignPending : World :=
  withFile appconfig.DefaultLocationOfPending d6 emptyWorld.

(** After a restart: [d4] was in progress, [d1] was still waiting. *)
Definition restarted : World :=
  withFile appconfig.DefaultLocationOfPending d1
    (withFile appconfig.DefaultLocationOfCurrent d4 emptyWorld).


End Samples.

(** ** Package [inventory] *)
Module inventory.

(** The conversion [float32(n)] of an [int]: the nearest number with a
    significand of 24 bits, ties going to the even significand.  The result
    is an integer again, and far from the largest [float32]. *)
Definition float32 (n : Z) : Z :=
  let a := Z.abs n in
  let e := Z.log2 a in
  if (e <? 24)%Z then n
  else
    let sh := e - 23 in
    let q := Z.shiftr a sh in
    let r := Z.land a (Z.ones sh) in
    let half := Z.shiftl 1 (sh - 1) in
    let q' :=
      if ((half <? r) || ((r =? half) && Z.odd q))%Z then q + 1 else q in
    Z.sgn n * Z.shiftl q' sh.

(** Errors made with [fmt.Errorf] and [log.Errorf], by their message. *)
Definition error := string.

Inductive LogArg :=
| AStr (s : string)
| AFloat32 (x : Z).

(** [model.Policy] *)
Record Policy (Config : Type) := { InventoryPolicy : gmap string Config }.
Arguments InventoryPolicy {Config} _.

Section Plugin.
Context {T : Type} `{Countable T} {Config Item SsmItem : Type}.

(** What the plugin calls outside of its file: the gatherers (an
    interface), the JSON encoder, the file system, the uploader and the
    limits of package [inventory/model]. *)
Variable gatherer_Name : T -> string.
Variable gatherer_Run : T -> Config -> list Item * option error.
Variable item_Name : Item -> string.
Variable json_Marshal_item : Item -> string.
Variable json_Marshal_items : list Item -> string.
Variables SizeLimitKBPerInventoryType TotalSizeLimitKB : Z.
Variable InventoryPolicyDocName : string.
Variable path_Join : list string -> string.
Variable fileutil_Exists : string -> bool.
Variable fileutil_ReadAllText : string -> string * option error.
Variable json_Unmarshal : string -> Policy Config * option error.
Variable ConvertToSsmInventoryItems : list Item -> list SsmItem * option error.

(** The order in which a [range] statement goes through a map is not
    fixed by the language: it is given by these two functions. *)
Variable rangePolicy : gmap string Config -> list (string * Config).
Variable rangeGatherers : gmap T Config -> list (T * Config).

(** The fields of [Plugin] that the functions below read. *)
Record Plugin := {
  location : string;
  supportedGatherers : gmap string T;
  installedGathereres : gmap string T }.

(** Every call that leaves the plugin, in the order it is made. *)
Inductive Event :=
| Log (lvl : LogLevel) (fmt : string) (args : list LogArg)
| GathererRun (gatherer : T) (config : Config)
| SendDataToSSM (items : list SsmItem).

Fixpoint ValidateGatherers_range (p : Plugin) (policy : list (string * Config))
  (executors : gmap T Config)
  : (gmap T Config * option error) * list Event :=
  match policy with
  | [] => ((executors, None), [])
  | (name, config) :: rest =>
      match supportedGatherers p !! name with
      | None =>
          match installedGathereres p !! name with
          | Some _ =>
              let '(r, t) := ValidateGatherers_range p rest executors in
              (r, Log LInfo
                    "Installed but unsupported gatherer on this platform - %v"
                    [AStr name] :: t)
          | None =>
              ((executors,
                Some ("Unrecognized inventory gatherer - " +:+ name +:+ " ")),
               [])
          end
      | Some gatherer =>
          ValidateGatherers_range p rest (<[gatherer := config]> executors)
      end
  end.

Definition ValidateGatherers (p : Plugin) (policy : Policy Config)
  : (gmap T Config * option error) * list Event :=
  ValidateGatherers_range p (rangePolicy (InventoryPolicy policy)) ∅.

Definition VerifyInventoryDataSize (item : Item) (items : list Item)
  : bool * list Event :=
  let itemSize := float32 (Z.of_nat (String.length (json_Marshal_item item))) in
  let itemsSize :=
    float32 (Z.of_nat (String.length (json_Marshal_items items))) in
  (* a division by 1024 is exact in binary floating point *)
  (negb ((1024 * float32 SizeLimitKBPerInventoryType <? itemSize)%Z
         || (1024 * float32 TotalSizeLimitKB <? itemsSize)%Z),
   [ Log LDebug "Size (Bytes) of %v - %v"
       [AStr (item_Name item); AFloat32 itemSize];
     Log LDebug
       "Total size (Bytes) of inventory items after including %v - %v"
       [AStr (item_Name item); AFloat32 itemsSize] ]).

(** The inner loop of [RunGatherers], over the items of one gatherer. *)
Fixpoint RunGatherers_sizes (gItems items : list Item) (err : option error)
  : option error * list Event :=
  match gItems with
  | [] => (err, [])
  | v :: rest =>
      let '(ok, t) := VerifyInventoryDataSize v items in
      if ok
      then let '(err', t') := RunGatherers_sizes rest items err in
           (err', t ++ t')
      else (Some "Size limit exceeded for collected data.",
            t ++ [Log LError "Size limit exceeded for collected data." []])
  end.

Fixpoint RunGatherers_range (gatherers : list (T * Config))
  (items : list Item) (err : option error)
  : (list Item * option error) * list Event :=
  match gatherers with
  | [] => ((items, err), [])
  | (gatherer, config) :: rest =>
      let name := gatherer_Name gatherer in
      let t0 := [ Log LInfo "Invoking gatherer - %v" [AStr name];
                  GathererRun gatherer config ] in
      match gatherer_Run gatherer config with
      | (_, Some e) =>
          ((items,
            Some ("Encountered error while executing " +:+ name
                  +:+ ". Error - " +:+ e)), t0)
      | (gItems, None) =>
          let items := items ++ gItems in
          let '(err', t1) := RunGatherers_sizes gItems items None in
          let '(r, t2) := RunGatherers_range rest items err' in
          (r, t0 ++ t1 ++ t2)
      end
  end.

Definition RunGatherers (gatherers : gmap T Config)
  : (list Item * option error) * list Event :=
  RunGatherers_range (rangeGatherers gatherers) [] None.

Definition ApplyInventoryPolicy (p : Plugin) : list Event :=
  let t0 := [Log LInfo "Looking for SSM Inventory policy in %v"
               [AStr (location p)]] in
  let doc := path_Join [location p; InventoryPolicyDocName] in
  if fileutil_Exists doc then
    let t1 := t0 ++ [Log LInfo "Applying Inventory policy" []] in
    match fileutil_ReadAllText doc with
    | (content, None) =>
        match json_Unmarshal content with
        | (_, Some e) =>
            t1 ++
            [ Log LInfo
                "Encountered error while reading Inventory policy at %v. Error - %v"
                [AStr doc; AStr e];
              Log LInfo "Skipping execution of inventory policy doc." [] ]
        | (policy, None) =>
            match ValidateGatherers p policy with
            | ((_, Some e), t2) => t1 ++ t2 ++ [Log LInfo e []]
            | ((gatherers, None), t2) =>
                match RunGatherers gatherers with
                | ((_, Some e), t3) => t1 ++ t2 ++ t3 ++ [Log LInfo e []]
                | ((items, None), t3) =>
                    let t4 :=
                      t1 ++ t2 ++ t3 ++
                      [Log LInfo "Collected Inventory data: %v"
                         [AStr (json_Marshal_items items)]] in
                    let '(inventoryItems, err) :=
                      ConvertToSsmInventoryItems items in
                    t4 ++
                    match err with
                    | Some e =>
                        [Log LInfo
                           "Encountered error in converting data to SSM InventoryItems - %v. Skipping upload to SSM"
                           [AStr e]]
                    | None => []
                    end ++
                    [SendDataToSSM inventoryItems]
                end
            end
        end
    | (_, Some e) =>
        t1 ++
        [Log LInfo
           "Unable to read inventory policy from : %v because of error - %v"
           [AStr doc; AStr e]]
    end
  else t0 ++ [Log LInfo "No inventory policy to apply" []].

(** The runs of gatherers in a sequence of calls, and the uploads, each in
    the order of the calls. *)
Definition gathererRuns (t : list Event) : list (T * Config) :=
  omap (fun ev => match ev with
                  | GathererRun gatherer config => Some (gatherer, config)
                  | _ => None
                  end) t.

Definition uploads (t : list Event) : list (list SsmItem) :=
  omap (fun ev => match ev with
                  | SendDataToSSM items => Some items
                  | _ => None
                  end) t.

End Plugin.

End inventory.


(** Sample gatherers: each is known by its name, the application gatherer
    returns two items, the network gatherer fails. *)
Module InventorySamples.

Definition Name (g : string) : string := g.

Definition Run (g config : string) : list string * option inventory.error :=
  if String.eqb g "AWS:Application" then ([config; "app"], None)
  else if String.eqb g "AWS:Network" then ([], Some "no interface")
  else ([g], None).

Definition marshalItem (item : string) : string := item.
Definition marshalItems (items : list string) : string :=
  String.concat "," items.

(** A map gone through in the order of a given list of keys. *)
Definition inOrder (order : list string) (m : gmap string string)
  : list (string * string) :=
  omap (fun g => (fun c => (g, c)) <$> m !! g) order.

Definition plugin : inventory.Plugin :=
  {| inventory.location := "/var/lib/amazon/ssm/inventory";
     inventory.supportedGatherers :=
       <["AWS:Application" := "AWS:Application"]>
         (<["AWS:Network" := "AWS:Network"]>
            {["AWS:InstanceInformation" := "AWS:InstanceInformation"]});
     inventory.installedGathereres :=
       <["AWS:WindowsUpdate" := "AWS:WindowsUpdate"]>
         {["AWS:Application" := "AWS:Application"]} |}.

Definition policy : inventory.Policy string :=
  {| inventory.InventoryPolicy :=
       <["AWS:Application" := "all"]> {["AWS:WindowsUpdate" := "all"]} |}.

Definition gatherers : gmap string string :=
  <["AWS:Application" := "all"]>
    (<["AWS:Network" := "all"]> {["AWS:InstanceInformation" := "all"]}).

End InventorySamples.


(** ** Package [updatessmagent] *)
Module updatessmagent.

(** The [error] values of this package: those made by [errors.New] and
    [fmt.Errorf], and the [*strconv.NumError] of [strconv.ParseBool]. *)
Inductive error :=
| errorString (s : string)
| NumError (Func Num : string) (Err : error).

Definition ErrSyntax : error := errorString "invalid syntax".

(** [strconv.ParseBool] *)
Definition ParseBool (str : string) : bool * option error :=
  if bool_decide (str ∈ ["1"; "t"; "T"; "TRUE"; "true"; "True"])
  then (true, None)
  else if bool_decide (str ∈ ["0"; "f"; "F"; "FALSE"; "false"; "False"])
  then (false, None)
  else (false, Some (NumError "ParseBool" str ErrSyntax)).

Record UpdatePluginInput := {
  AgentName : string;
  AllowDowngrade : string;
  TargetVersion : string;
  Source : string;
  UpdaterName : string }.

Definition setTargetVersion (v : string) (i : UpdatePluginInput)
  : UpdatePluginInput :=
  {| AgentName := AgentName i; AllowDowngrade := AllowDowngrade i;
     TargetVersion := v; Source := Source i; UpdaterName := UpdaterName i |}.

Definition setSource (v : string) (i : UpdatePluginInput)
  : UpdatePluginInput :=
  {| AgentName := AgentName i; AllowDowngrade := AllowDowngrade i;
     TargetVersion := TargetVersion i; Source := v;
     UpdaterName := UpdaterName i |}.

Definition setUpdaterName (v : string) (i : UpdatePluginInput)
  : UpdatePluginInput :=
  {| AgentName := AgentName i; AllowDowngrade := AllowDowngrade i;
     TargetVersion := TargetVersion i; Source := Source i;
     UpdaterName := v |}.

(** The fields of [Plugin] and of [contracts.Configuration] that
    [runUpdateAgent] reads. *)
Record Plugin := {
  ManifestLocation : string;
  StdoutFileName : string;
  StderrFileName : string }.

Record Configuration := { MessageId : string; PluginID : string }.

(** [artifact.DownloadInput] and [artifact.DownloadOutput] *)
Record DownloadInput := {
  SourceURL : string;
  SourceChecksums : gmap string string;
  DestinationDirectory : string }.

Record DownloadOutput := {
  LocalFilePath : string;
  IsUpdated : bool;
  IsHashMatched : bool }.

(** The calls on [out *contracts.PluginOutput]. *)
Inductive OutCall :=
| AppendInfof (fmt : string) (args : list string)
| MarkAsFailed (err : error)
| MarkAsSucceeded
| MarkAsInProgress.

Section Update.
(** [Ext] is the state of all that lies outside the agent's memory: the
    file system, the network, the processes. *)
Context {Ext InstanceContext Manifest Raw Time : Type}.

Variable Region : InstanceContext -> string.
Variable version_Version : string.
Variable strconv_Quote : string -> string.
Variable strings_Replace : string -> string -> string -> Z -> string.
Variable Remarshal : Raw -> UpdatePluginInput * option error.
Variable Sprint_raw : Raw -> string.

(** Package [updateutil]: constants and path builders. *)
Variables RegionHolder UpdaterPackageNamePrefix HashType : string.
Variables SourceVersionCmd SourceLocationCmd SourceHashCmd : string.
Variables TargetVersionCmd TargetLocationCmd TargetHashCmd : string.
Variables PackageNameCmd MessageIDCmd : string.
Variables updateutil_StdoutFileName updateutil_StderrFileName : string.
Variables OutputKeyPrefixCmd OutputBucketNameCmd : string.
Variable UpdaterArtifactsRoot : string.
Variable BuildUpdateCommand : string -> string -> string -> string.
Variable UpdaterFilePath : string -> string -> string -> string.
Variable UpdateArtifactFolder : string -> string -> string -> string.
Variable BuildS3Path : string -> string -> string.

(** The manifest of this package is parsed and queried in another file.
    Its methods go through the packages of their receiver, a [*Manifest]
    that is not nil; see [onManifest] for a nil one.  A [*InstanceContext]
    may be nil. *)
Variable LatestVersion :
  Manifest -> option InstanceContext -> string -> string * option error.
Variable HasVersion :
  Manifest -> option InstanceContext -> string -> string -> bool.
Variable DownloadURLAndHash :
  Manifest -> option InstanceContext -> string -> string ->
  (string * string) * option error.
Variable ParseManifest :
  string -> option InstanceContext -> string -> Ext ->
  (option Manifest * option error) * Ext.

(** The package variables [fileDownload] and [fileUncompress]. *)
Variable fileDownload : DownloadInput -> Ext -> (DownloadOutput * option error) * Ext.
Variable fileUncompress : string -> string -> Ext -> option error * Ext.

(** What [out.Stdout] holds after the given calls on [out]. *)
Variable Stdout : list OutCall -> string.

(** [updateutil.UpdatePluginResult] *)
Record UpdatePluginResult := { StandOut : string; StartDateTime : Time }.

(** The interface [updateutil.T]. *)
Record updateutil_T := {
  CreateInstanceContext : Ext -> (option InstanceContext * option error) * Ext;
  CreateUpdateDownloadFolder : Ext -> (string * option error) * Ext;
  SaveUpdatePluginResult :
    string -> UpdatePluginResult -> Ext -> option error * Ext;
  IsDiskSpaceSufficientForUpdate : Ext -> (bool * option error) * Ext;
  ExeCommand :
    string -> string -> string -> string -> string -> bool -> Ext ->
    option error * Ext }.

(** Every call that leaves the package, in the order it is made. *)
Inductive Event :=
| CallOut (c : OutCall)
| CallLog (lvl : LogLevel) (fmt : string) (args : list string)
| CallCreateInstanceContext
| CallCreateUpdateDownloadFolder
| CallDownload (input : DownloadInput)
| CallUncompress (src dst : string)
| CallParseManifest (path agentName : string)
| CallSaveUpdatePluginResult (root : string) (result : UpdatePluginResult)
| CallIsDiskSpaceSufficientForUpdate
| CallExeCommand (cmd workDir updaterRoot stdout stderr : string)
    (isAsync : bool).

Record State := { ext : Ext; calls : list Event }.

(** State passing, with [None] for a nil dereference. *)
Definition U (A : Type) : Type := State -> option (A * State).

Definition ret {A} (a : A) : U A := fun s => Some (a, s).

Definition bind {A B} (m : U A) (k : A -> U B) : U B :=
  fun s => match m s with
           | Some (a, s') => k a s'
           | None => None
           end.

Definition panic {A} : U A := fun _ => None.

Definition deref {A} (o : option A) : U A :=
  match o with Some a => ret a | None => panic end.

(** A call of something outside, noted down together with its effect. *)
Definition call {A} (e : Event) (f : Ext -> A * Ext) : U A :=
  fun s => let '(a, x) := f (ext s) in
           Some (a, {| ext := x; calls := calls s ++ [e] |}).

Definition note (e : Event) : U unit :=
  fun s => Some (tt, {| ext := ext s; calls := calls s ++ [e] |}).

Definition out (c : OutCall) : U unit := note (CallOut c).

Definition outCalls (t : list Event) : list OutCall :=
  omap (fun e => match e with CallOut c => Some c | _ => None end) t.

Local Notation "'do' x '<-' m 'in' k" := (bind m (fun x => k))
  (at level 10, x pattern, m at level 100, k at level 200).

(** A method of [*Manifest] called on [manifest]: it reads the fields of
    its receiver first, so that on a nil manifest the call is a nil
    dereference. *)
Definition onManifest {A} (manifest : option Manifest)
  (method : Manifest -> A) : U A :=
  do m <- deref manifest in ret (method m).

(** [err.Error()] *)
Fixpoint Error (e : error) : string :=
  match e with
  | errorString s => s
  | NumError fn num err =>
      "strconv." +:+ fn +:+ ": parsing " +:+ strconv_Quote num +:+ ": "
      +:+ Error err
  end.

(** The interface [pluginHelper]; a [*UpdatePluginInput] goes in and comes
    back. *)
Record pluginHelper := {
  helper_generateUpdateCmd :
    option Manifest -> UpdatePluginInput -> option InstanceContext ->
    string -> string -> string -> string -> string -> string ->
    U (UpdatePluginInput * (string * option error));
  helper_downloadManifest :
    updateutil_T -> UpdatePluginInput -> option InstanceContext ->
    U (UpdatePluginInput * (option Manifest * option error));
  helper_downloadUpdater :
    updateutil_T -> string -> option Manifest -> option InstanceContext ->
    U (string * option error);
  helper_validateUpdate :
    UpdatePluginInput -> option InstanceContext -> option Manifest ->
    U (UpdatePluginInput * (bool * option error)) }.

Definition generateUpdateCmd (manifest : option Manifest)
  (pluginInput : UpdatePluginInput) (context : option InstanceContext)
  (updaterPath messageID stdout stderr keyPrefix bucketName : string)
  : U (UpdatePluginInput * (string * option error)) :=
  let cmd := updaterPath +:+ " -update" in
  do r <-
    onManifest manifest (fun m =>
      DownloadURLAndHash m context (AgentName pluginInput) version_Version) in
  match r with
  | (_, Some err) => ret (pluginInput, (cmd, Some err))
  | ((source, hash), None) =>
      let cmd := BuildUpdateCommand cmd SourceVersionCmd version_Version in
      let cmd := BuildUpdateCommand cmd SourceLocationCmd source in
      let cmd := BuildUpdateCommand cmd SourceHashCmd hash in
      do r <-
        onManifest manifest (fun m =>
          DownloadURLAndHash m context (AgentName pluginInput)
            (TargetVersion pluginInput)) in
      match r with
      | (_, Some err) => ret (pluginInput, (cmd, Some err))
      | ((source, hash), None) =>
          let cmd :=
            BuildUpdateCommand cmd TargetVersionCmd (TargetVersion pluginInput) in
          let cmd := BuildUpdateCommand cmd TargetLocationCmd source in
          let cmd := BuildUpdateCommand cmd TargetHashCmd hash in
          let cmd :=
            BuildUpdateCommand cmd PackageNameCmd (AgentName pluginInput) in
          let cmd := BuildUpdateCommand cmd MessageIDCmd messageID in
          let cmd := BuildUpdateCommand cmd updateutil_StdoutFileName stdout in
          let cmd := BuildUpdateCommand cmd updateutil_StderrFileName stderr in
          let cmd := BuildUpdateCommand cmd OutputKeyPrefixCmd keyPrefix in
          let cmd := BuildUpdateCommand cmd OutputBucketNameCmd bucketName in
          ret (pluginInput, (cmd, None))
      end
  end.

Definition unreliable (downloadOutput : DownloadOutput)
  (downloadErr : option error) : bool :=
  bool_decide (downloadErr <> None)
  || negb (IsHashMatched downloadOutput)
  || bool_decide (LocalFilePath downloadOutput = "").

Definition downloadManifest (util : updateutil_T)
  (pluginInput : UpdatePluginInput) (context : option InstanceContext)
  : U (UpdatePluginInput * (option Manifest * option error)) :=
  do (updateDownload, err) <-
    call CallCreateUpdateDownloadFolder (CreateUpdateDownloadFolder util) in
  match err with
  | Some e => ret (pluginInput, (None, Some e))
  | None =>
      let downloadInput :=
        {| SourceURL := Source pluginInput; SourceChecksums := ∅;
           DestinationDirectory := updateDownload |} in
      do (downloadOutput, downloadErr) <-
        call (CallDownload downloadInput) (fileDownload downloadInput) in
      if unreliable downloadOutput downloadErr
      then ret (pluginInput, (None, downloadErr))
      else
        do _ <- out (AppendInfof "Successfully downloaded %v"
               [SourceURL downloadInput]) in
        do r <-
          call (CallParseManifest (LocalFilePath downloadOutput)
                  (AgentName pluginInput))
            (ParseManifest (LocalFilePath downloadOutput) context
               (AgentName pluginInput)) in
        ret (pluginInput, r)
  end.

Definition downloadUpdater (util : updateutil_T) (updaterPackageName : string)
  (manifest : option Manifest) (context : option InstanceContext)
  : U (string * option error) :=
  do r <-
    onManifest manifest (fun m =>
      LatestVersion m context updaterPackageName) in
  match r with
  | (version, Some err) => ret (version, Some err)
  | (version, None) =>
      do r <-
        onManifest manifest (fun m =>
          DownloadURLAndHash m context updaterPackageName version) in
      match r with
      | (_, Some err) => ret (version, Some err)
      | ((source, hash), None) =>
          do (updateDownloadFolder, err) <-
            call CallCreateUpdateDownloadFolder
              (CreateUpdateDownloadFolder util) in
          match err with
          | Some e => ret (version, Some e)
          | None =>
              let downloadInput :=
                {| SourceURL := source;
                   SourceChecksums := {[ HashType := hash ]};
                   DestinationDirectory := updateDownloadFolder |} in
              do (downloadOutput, downloadErr) <-
                call (CallDownload downloadInput)
                  (fileDownload downloadInput) in
              if unreliable downloadOutput downloadErr
              then
                let errMessage :=
                  "failed to download file reliably, "
                  +:+ SourceURL downloadInput in
                let errMessage :=
                  match downloadErr with
                  | Some e => errMessage +:+ ", " +:+ Error e
                  | None => errMessage
                  end in
                ret (version, Some (errorString errMessage))
              else
                do _ <- out (AppendInfof "Successfully downloaded %v"
                       [SourceURL downloadInput]) in
                let dst :=
                  UpdateArtifactFolder UpdaterArtifactsRoot
                    updaterPackageName version in
                do uncompressErr <-
                  call (CallUncompress (LocalFilePath downloadOutput) dst)
                    (fileUncompress (LocalFilePath downloadOutput) dst) in
                match uncompressErr with
                | Some e =>
                    ret (version,
                         Some (errorString
                                 ("failed to uncompress updater package, "
                                  +:+ LocalFilePath downloadOutput +:+ ", "
                                  +:+ Error e)))
                | None => ret (version, None)
                end
          end
      end
  end.

Definition validateUpdate (pluginInput : UpdatePluginInput)
  (context : option InstanceContext) (manifest : option Manifest)
  : U (UpdatePluginInput * (bool * option error)) :=
  let currentVersion := version_Version in
  do (pluginInput, err) <-
    (if (String.length (TargetVersion pluginInput) =? 0)%nat
     then
       do r <-
         onManifest manifest (fun m =>
           LatestVersion m context (AgentName pluginInput)) in
       ret (setTargetVersion r.1 pluginInput, r.2)
     else ret (pluginInput, None)) in
  match err with
  | Some e => ret (pluginInput, (true, Some e))
  | None =>
      match ParseBool (AllowDowngrade pluginInput) with
      | (_, Some e) => ret (pluginInput, (true, Some e))
      | (allowDowngrade, None) =>
          if String.eqb (TargetVersion pluginInput) currentVersion then
            do _ <- out (AppendInfof "%v %v has already been installed, update skipped"
                   [AgentName pluginInput; currentVersion]) in
            do _ <- out MarkAsSucceeded in
            ret (pluginInput, (true, None))
          else if String.ltb (TargetVersion pluginInput) currentVersion
                  && negb allowDowngrade then
            ret (pluginInput,
                 (true,
                  Some (errorString
                          ("updating " +:+ AgentName pluginInput
                           +:+ " to an older version, please enable allow downgrade to proceed"))))
          else
            do hasTarget <-
              onManifest manifest (fun m =>
                HasVersion m context (AgentName pluginInput)
                  (TargetVersion pluginInput)) in
            if negb hasTarget then
              ret (pluginInput,
                   (true,
                    Some (errorString
                            (AgentName pluginInput +:+ " version "
                             +:+ TargetVersion pluginInput
                             +:+ " is unsupported"))))
            else
              do hasCurrent <-
                onManifest manifest (fun m =>
                  HasVersion m context (AgentName pluginInput)
                    currentVersion) in
              if negb hasCurrent then
                ret (pluginInput,
                     (true,
                      Some (errorString
                              (AgentName pluginInput +:+ " current version "
                               +:+ currentVersion
                               +:+ " is unsupported on current platform"))))
              else ret (pluginInput, (false, None))
      end
  end.

(** [new(updateManager)] as a [pluginHelper]. *)
Definition updateManager : pluginHelper :=
  {| helper_generateUpdateCmd := generateUpdateCmd;
     helper_downloadManifest := downloadManifest;
     helper_downloadUpdater := downloadUpdater;
     helper_validateUpdate := validateUpdate |}.

Definition runUpdateAgent (p : Plugin) (config : Configuration)
  (manager : pluginHelper) (util : updateutil_T) (rawPluginInput : Raw)
  (outputS3BucketName outputS3KeyPrefix : string) (startTime : Time)
  : U unit := fun s0 =>
  (* [out] is a result of this call: what it holds comes from the calls
     made on it from here on *)
  let start := length (calls s0) in
  (match Remarshal rawPluginInput with
  | (_, Some err) =>
      out (MarkAsFailed
             (errorString
                ("invalid format in plugin properties "
                 +:+ Sprint_raw rawPluginInput +:+ ";" +:+ String (Ascii.ascii_of_nat 10) "error "
                 +:+ Error err)))
  | (pluginInput, None) =>
      do (context, err) <-
        call CallCreateInstanceContext (CreateInstanceContext util) in
      match err with
      | Some e => out (MarkAsFailed e)
      | None =>
          let pluginInput :=
            if (String.length (Source pluginInput) =? 0)%nat
            then setSource (ManifestLocation p) pluginInput
            else pluginInput in
          do instanceContext <- deref context in
          let pluginInput :=
            setSource (strings_Replace (Source pluginInput) RegionHolder
                         (Region instanceContext) (-1)) pluginInput in
          let pluginInput :=
            setUpdaterName (AgentName pluginInput +:+ UpdaterPackageNamePrefix)
              pluginInput in
          let targetVersion :=
            if (String.length (TargetVersion pluginInput) =? 0)%nat
            then "latest" else TargetVersion pluginInput in
          do _ <- out (AppendInfof "Updating %v from %v to %v"
                 [AgentName pluginInput; version_Version; targetVersion]) in
          do (pluginInput, (manifest, downloadErr)) <-
            helper_downloadManifest manager util pluginInput context in
          match downloadErr with
          | Some e => out (MarkAsFailed e)
          | None =>
              do (pluginInput, (noNeedToUpdate, err)) <-
                helper_validateUpdate manager pluginInput context manifest in
              if noNeedToUpdate : bool then
                match err with
                | Some e => out (MarkAsFailed e)
                | None => ret tt
                end
              else
                do (updaterVersion, err) <-
                  helper_downloadUpdater manager util
                    (UpdaterName pluginInput) manifest context in
                match err with
                | Some e => out (MarkAsFailed e)
                | None =>
                    do (pluginInput, (cmd, err)) <-
                      helper_generateUpdateCmd manager manifest pluginInput
                        context
                        (UpdaterFilePath UpdaterArtifactsRoot
                           (UpdaterName pluginInput) updaterVersion)
                        (MessageId config) (StdoutFileName p)
                        (StderrFileName p)
                        (BuildS3Path outputS3KeyPrefix (PluginID config))
                        outputS3BucketName in
                    match err with
                    | Some e => out (MarkAsFailed e)
                    | None =>
                        do _ <- note (CallLog LDebug "Update command %v" [cmd]) in
                        do updatePluginResult <-
                          (fun s =>
                             Some ({| StandOut :=
                                        Stdout
                                          (outCalls (drop start (calls s)));
                                      StartDateTime := startTime |}, s)) in
                        do err <-
                          call (CallSaveUpdatePluginResult UpdaterArtifactsRoot
                                  updatePluginResult)
                            (SaveUpdatePluginResult util UpdaterArtifactsRoot
                               updatePluginResult) in
                        match err with
                        | Some e => out (MarkAsFailed e)
                        | None =>
                            do _ <- note (CallLog LInfo
                                    "Checking available disk space ..." []) in
                            do (isDiskSpaceSufficient, err) <-
                              call CallIsDiskSpaceSufficientForUpdate
                                (IsDiskSpaceSufficientForUpdate util) in
                            if bool_decide (err = None)
                               && negb isDiskSpaceSufficient
                            then
                              out (MarkAsFailed
                                     (errorString
                                        "Insufficient available disk space"))
                            else
                              do _ <- note (CallLog LInfo "Start Installation" []) in
                              do _ <- note (CallLog LInfo
                                      "Hand over update process to %v"
                                      [UpdaterName pluginInput]) in
                              let workDir :=
                                UpdateArtifactFolder UpdaterArtifactsRoot
                                  (UpdaterName pluginInput) updaterVersion in
                              do err <-
                                call (CallExeCommand cmd workDir
                                        UpdaterArtifactsRoot (StdoutFileName p)
                                        (StderrFileName p) true)
                                  (ExeCommand util cmd workDir
                                     UpdaterArtifactsRoot (StdoutFileName p)
                                     (StderrFileName p) true) in
                              match err with
                              | Some e => out (MarkAsFailed e)
                              | None => out MarkAsInProgress
                              end
                        end
                    end
                end
          end
      end
  end) s0.

(** *** Vocabulary of the properties *)

(** The calls that settle the status of the output. *)
Definition isMark (c : OutCall) : bool :=
  match c with
  | AppendInfof _ _ => false
  | MarkAsFailed _ | MarkAsSucceeded | MarkAsInProgress => true
  end.

(** The calls that neither settle the status nor start the updater. *)
Definition silent (e : Event) : bool :=
  match e with
  | CallOut c => negb (isMark c)
  | CallExeCommand _ _ _ _ _ _ => false
  | _ => true
  end.

(** A run that has settled the status of the output: one status call, as
    the last call of all; before it nothing but silent calls, except that
    the updater may have been started right before a status other than
    success, which then is in-progress or the error of that start. *)
Definition endsWithStatus (util : updateutil_T) (p : Plugin)
  (new : list Event) : Prop :=
  exists pre mark,
    new = pre ++ [CallOut mark] /\ isMark mark = true /\
    ((forallb silent pre = true /\ mark <> MarkAsInProgress)
     \/ exists pre0 cmd workDir x,
          pre = pre0 ++
                [CallExeCommand cmd workDir UpdaterArtifactsRoot
                   (StdoutFileName p) (StderrFileName p) true] /\
          forallb silent pre0 = true /\
          mark <> MarkAsSucceeded /\
          (ExeCommand util cmd workDir UpdaterArtifactsRoot
             (StdoutFileName p) (StderrFileName p) true x).1
          = match mark with MarkAsFailed e => Some e | _ => None end).

(** A computation that does not panic and makes silent calls only, with
    a result in [Q]... *)
Definition quiet {A} (m : U A) (Q : A -> Prop) : Prop :=
  forall s, exists a s' new,
    m s = Some (a, s') /\ calls s' = calls s ++ new /\
    forallb silent new = true /\ Q a.

(** ... and one that does not panic and settles the status. *)
Definition settles (util : updateutil_T) (p : Plugin) (m : U unit) : Prop :=
  forall s, exists s' new,
    m s = Some (tt, s') /\ calls s' = calls s ++ new /\
    endsWithStatus util p new.

(** The plugin input with which [runUpdateAgent] downloads the manifest:
    the source defaulted and its region filled in, the updater named. *)
Definition prepared (p : Plugin) (pluginInput : UpdatePluginInput)
  (instanceContext : InstanceContext) : UpdatePluginInput :=
  let source :=
    if (String.length (Source pluginInput) =? 0)%nat
    then ManifestLocation p else Source pluginInput in
  setUpdaterName (AgentName pluginInput +:+ UpdaterPackageNamePrefix)
    (setSource (strings_Replace source RegionHolder (Region instanceContext)
                  (-1))
       pluginInput).

(** The state in which it does so, having started in [s]: the instance
    context made, which left [x] outside, and the update announced. *)
Definition announced (pluginInput : UpdatePluginInput) (x : Ext) (s : State)
  : State :=
  {| ext := x;
     calls :=
       calls s ++
       [ CallCreateInstanceContext;
         CallOut
           (AppendInfof "Updating %v from %v to %v"
              [ AgentName pluginInput; version_Version;
                (if (String.length (TargetVersion pluginInput) =? 0)%nat
                 then "latest" else TargetVersion pluginInput) ]) ] |}.

(** The two nil pointers that [runUpdateAgent] may follow, started in [s]:
    an instance context that comes back nil without an error, and a
    manifest that comes back nil without an error and that [validateUpdate]
    has to consult. *)
Definition nilDereference (p : Plugin) (util : updateutil_T)
  (rawPluginInput : Raw) (s : State) : Prop :=
  exists pluginInput context x,
    Remarshal rawPluginInput = (pluginInput, None) /\
    CreateInstanceContext util (ext s) = ((context, None), x) /\
    match context with
    | None => True
    | Some instanceContext =>
        let pluginInput := prepared p pluginInput instanceContext in
        exists s',
          downloadManifest util pluginInput context
            (announced pluginInput x s)
          = Some ((pluginInput, (None, None)), s') /\
          validateUpdate pluginInput context None s' = None
    end.

End Update.

End updatessmagent.


(** A sample surrounding for the update plugin: nothing outside changes,
    the download folder can be made, and what is downloaded comes without
    an error but does not match its hash. *)
Module UpdateSamples.

Definition util : updatessmagent.updateutil_T (Time:=unit) :=
  {| updatessmagent.CreateInstanceContext :=
       fun x : unit => ((Some "us-east-1", None), x);
     updatessmagent.CreateUpdateDownloadFolder :=
       fun x => (("/var/lib/amazon/ssm/update", None), x);
     updatessmagent.SaveUpdatePluginResult := fun _ _ x => (None, x);
     updatessmagent.IsDiskSpaceSufficientForUpdate := fun x => ((true, None), x);
     updatessmagent.ExeCommand := fun _ _ _ _ _ _ x => (None, x) |}.

Definition fileDownload (input : updatessmagent.DownloadInput) (x : unit)
  : (updatessmagent.DownloadOutput * option updatessmagent.error) * unit :=
  (({| updatessmagent.LocalFilePath :=
         updatessmagent.DestinationDirectory input +:+ "/download";
       updatessmagent.IsUpdated := true;
       updatessmagent.IsHashMatched := false |}, None), x).

Definition ParseManifest (path : string) (context : option string)
  (agentName : string) (x : unit)
  : (option (list string) * option updatessmagent.error) * unit :=
  ((Some ["1.0.0.0"; "2.0.0.0"], None), x).

Definition LatestVersion (manifest : list string)
  (context : option string) (name : string)
  : string * option updatessmagent.error :=
  ("2.0.0.0", None).

Definition DownloadURLAndHash (manifest : list string)
  (context : option string) (name version : string)
  : (string * string) * option updatessmagent.error :=
  (("https://s3.us-east-1.amazonaws.com/" +:+ name +:+ "/" +:+ version,
    "6b86b273"), None).

Definition UpdateArtifactFolder (root name version : string) : string :=
  root +:+ "/" +:+ name +:+ "/" +:+ version.

Definition pluginInput : updatessmagent.UpdatePluginInput :=
  {| updatessmagent.AgentName := "amazon-ssm-agent";
     updatessmagent.AllowDowngrade := "false";
     updatessmagent.TargetVersion := "";
     updatessmagent.Source := "https://s3.us-east-1.amazonaws.com/manifest.json";
     updatessmagent.UpdaterName := "amazon-ssm-agent-updater" |}.

Definition start : updatessmagent.State (Ext:=unit) (Time:=unit) :=
  {| updatessmagent.ext := tt; updatessmagent.calls := [] |}.

End UpdateSamples.


(** ** Package [processor] *)
Section Processor.

Set Default Proof Using "Type".

(** What [processor.go] imports from the rest of the agent. *)

(** [model.DocumentState.IsAssociation] *)
Variable IsAssociation : model.DocumentState -> bool.
(** [platform.InstanceID()]: the instance id, or an error *)
Variable platform_InstanceID : string + string.
(** [basicexecuter.NewBasicExecuter] *)
Variable NewBasicExecuter : ExecuterCreator.
(** [appconfig.PluginNameCloudWatch] and the pieces of the orchestration
    directory *)
Variable PluginNameCloudWatch : string.
Variable DefaultDataStorePath : string.
Variable DefaultDocumentRootDirName : string.
Variable filepath_Join : list string -> string.
Variable fileutil_BuildPath : string -> list string -> string.

(** [hardStopTimeout = time.Second * 4] *)
Definition hardStopTimeout : time.Duration := time.mul time.Second 4.

Definition NewEngineProcessor (ctx : context_T)
  (commandWorkerLimit cancelWorkerLimit : Z)
  (supportedDocs : list model.DocumentType) : M EngineProcessor :=
  let cancelWaitDuration := time.mul 10000 time.Millisecond in
  modify (setPool SendCommandPoolRef
            (task.NewPool commandWorkerLimit cancelWaitDuration)) >>
  modify (setPool CancelCommandPoolRef
            (task.NewPool cancelWorkerLimit cancelWaitDuration)) >>
  modify (fun w =>
    {| files := files w; pools := pools w; resChan := [];
       chanClosed := false; pendingReboot := pendingReboot w;
       trace := trace w |}) >>
  ret {| context := Some (context_With "[EngineProcessor]" ctx);
         executerCreator := fun ctx => NewBasicExecuter ctx;
         sendCommandPool := SendCommandPoolRef;
         cancelCommandPool := CancelCommandPoolRef;
         supportedDocTypes := supportedDocs |}.

Definition isSupportedDocumentType (p : EngineProcessor)
  (documentType : model.DocumentType) : bool :=
  existsb (fun d => bool_decide (documentType = d)) (supportedDocTypes p).

(** The job-id under which [submit] and [Cancel] enqueue a document. *)
Definition jobIDOf (docState : model.DocumentState) : string :=
  if IsAssociation docState
  then model.AssociationID (model.DocumentInformation docState)
  else model.MessageID (model.DocumentInformation docState).

Definition handleCloudwatchPlugin (ctx : context_T)
  (pluginResults : gmap string contracts.PluginResult) (documentID : string)
  : M unit :=
  let instanceID :=
    match platform_InstanceID with inl i => i | inr _ => "" end in
  forEach (map_to_list pluginResults) (fun '(ID, pluginRes) =>
    if bool_decide (contracts.PluginName pluginRes = PluginNameCloudWatch)
    then
      logf LInfo "Found %v to invoke lrpm invoker"
        [VStr (contracts.PluginName pluginRes)] >>
      let orchestrationRootDir :=
        filepath_Join
          [DefaultDataStorePath; instanceID; DefaultDocumentRootDirName;
           appconfig.OrchestrationRootDir
             (appconfig.Agent (AppConfig ctx))] in
      let orchestrationDir :=
        fileutil_BuildPath orchestrationRootDir
          [documentID; contracts.PluginName pluginRes] in
      modify (record (EvLrpmInvoke ID pluginRes orchestrationDir))
    else ret tt).

(** The loop [for res := range statusChan] of [processCommand], together
    with what the executer does on the other side of the channel. *)
Fixpoint drain (ctx : context_T) (docStore : executer.DocumentFileStore)
  (documentID : string) (acts : list executer.Action) (isReboot : bool)
  : M bool :=
  match acts with
  | [] => ret isReboot
  | executer.Save d :: rest =>
      PersistData (executer.documentID docStore)
        (executer.instanceID docStore) (executer.location docStore) d >>
      drain ctx docStore documentID rest isReboot
  | executer.Emit res :: rest =>
      (if bool_decide (contracts.LastPlugin res = "")
       then logf LInfo "sending document: %v complete response"
              [VStr documentID]
       else logf LInfo "sending reply for plugin update: %v"
              [VStr (contracts.LastPlugin res)]) >>
      handleCloudwatchPlugin ctx (contracts.PluginResults res) documentID >>
      send res >>
      drain ctx docStore documentID rest
        (bool_decide (contracts.Status res
                      = contracts.ResultStatusSuccessAndReboot))
  end.

Definition processCommand (ctx : context_T)
  (executerCreator : ExecuterCreator) (cancelFlag : task.CancelFlag)
  (docState : model.DocumentState) : M unit :=
  MoveDocumentState
    (model.DocumentID (model.DocumentInformation docState))
    (model.InstanceID (model.DocumentInformation docState))
    appconfig.DefaultLocationOfPending
    appconfig.DefaultLocationOfCurrent >>
  logf LDebug "Running executer..." [] >>
  let documentID := model.DocumentID (model.DocumentInformation docState) in
  let instanceID := model.InstanceID (model.DocumentInformation docState) in
  let messageID := model.MessageID (model.DocumentInformation docState) in
  let e := executerCreator ctx in
  let docStore :=
    executer.NewDocumentFileStore ctx instanceID documentID
      appconfig.DefaultLocationOfCurrent docState in
  let statusChan := executer.Run e cancelFlag docStore in
  let* isReboot := drain ctx docStore documentID statusChan false in
  if isReboot : bool then
    logf LInfo "document %v requested reboot, need to resume"
      [VStr messageID] >>
    RequestPendingReboot
  else
    logf LDebug
      "execution of %v is over. Moving interimState file from Current to Completed folder"
      [VStr messageID] >>
    MoveDocumentState documentID instanceID
      appconfig.DefaultLocationOfCurrent
      appconfig.DefaultLocationOfCompleted.

(** [fmt.Sprintf] of a string argument at [%v] is the string itself. *)
Definition processCancelCommand (ctx : context_T) (sendCommandPool : PoolRef)
  (docState : model.DocumentState) : M unit :=
  let cancelInfo := model.CancelInformation docState in
  logf LDebug "Canceling job with id %v..."
    [VStr (model.CancelMessageID cancelInfo)] >>
  let* found := poolCancel sendCommandPool (model.CancelMessageID cancelInfo) in
  let* docState :=
    if negb found then
      logf LDebug "Job with id %v not found (possibly completed)"
        [VStr (model.CancelMessageID cancelInfo)] >>
      ret (model.setDocumentStatus contracts.ResultStatusFailed
             (model.setDebugInfo
                ("Command " +:+ model.CancelCommandID cancelInfo
                 +:+ " couldn't be cancelled") docState))
    else
      ret (model.setDocumentStatus contracts.ResultStatusSuccess
             (model.setDebugInfo
                ("Command " +:+ model.CancelCommandID cancelInfo
                 +:+ " cancelled") docState)) in
  PersistData
    (model.DocumentID (model.DocumentInformation docState))
    (model.InstanceID (model.DocumentInformation docState))
    appconfig.DefaultLocationOfCurrent docState >>
  logf LDebug
    "Execution of %v is over. Moving interimState file from Current to Completed folder"
    [VStr (model.MessageID (model.DocumentInformation docState))] >>
  MoveDocumentState
    (model.DocumentID (model.DocumentInformation docState))
    (model.InstanceID (model.DocumentInformation docState))
    appconfig.DefaultLocationOfCurrent
    appconfig.DefaultLocationOfCompleted.

Definition submit (p : EngineProcessor) (docState : model.DocumentState)
  : M (option task.PoolError) :=
  let* ctx := deref (context p) in
  let jobID := jobIDOf docState in
  poolSubmit (sendCommandPool p) jobID
    (ProcessCommandJob ctx (executerCreator p) docState).

Definition Submit (p : EngineProcessor) (docState : model.DocumentState)
  : M unit :=
  let* _ := deref (context p) in
  PersistData
    (model.DocumentID (model.DocumentInformation docState))
    (model.InstanceID (model.DocumentInformation docState))
    appconfig.DefaultLocationOfPending docState >>
  let* err := submit p docState in
  match err with
  | Some e =>
      logf LError "Document Submission failed" [VErr e] >>
      MoveDocumentState
        (model.DocumentID (model.DocumentInformation docState))
        (model.InstanceID (model.DocumentInformation docState))
        appconfig.DefaultLocationOfPending
        appconfig.DefaultLocationOfCorrupt >>
      ret tt
  | None => ret tt
  end.

Definition Cancel (p : EngineProcessor) (docState : model.DocumentState)
  : M unit :=
  let* ctx := deref (context p) in
  let jobID := jobIDOf docState in
  PersistData
    (model.DocumentID (model.DocumentInformation docState))
    (model.InstanceID (model.DocumentInformation docState))
    appconfig.DefaultLocationOfPending docState >>
  let* err :=
    poolSubmit (cancelCommandPool p) jobID
      (ProcessCancelCommandJob ctx (sendCommandPool p) docState) in
  match err with
  | Some e => logf LError "CancelCommand failed" [VErr e] >> ret tt
  | None => ret tt
  end.

(** The two goroutines of [Stop], each calling [ShutdownAndWait]. *)
Definition shutdownAndWait (r : PoolRef) (timeout : time.Duration)
  : list (M unit) :=
  [ modify (fun w =>
      record (EvShutdownBegin r timeout)
        (setPool r (task.shutdownBegin (pools w r)) w));
    modify (fun w =>
      record (EvShutdownEnd r)
        (setPool r (task.shutdownEnd (pools w r)) w)) ].

Definition Stop (sched : list bool) (p : EngineProcessor)
  (stopType : contracts.StopType) : M unit :=
  let* waitTimeout :=
    if bool_decide (stopType = contracts.StopTypeSoftStop) then
      let* ctx := deref (context p) in
      ret (time.mul
             (appconfig.StopTimeoutMillis (appconfig.Mds (AppConfig ctx)))
             time.Millisecond)
    else ret hardStopTimeout in
  runSteps (interleave sched
              (shutdownAndWait (sendCommandPool p) waitTimeout)
              (shutdownAndWait (cancelCommandPool p) waitTimeout)) >>
  closeChan.

Definition processPendingDocuments (p : EngineProcessor) (instanceID : string)
  : M unit :=
  let* ctx := deref (context p) in
  let* pendingDocs :=
    gets (fun w => files w instanceID appconfig.DefaultLocationOfPending) in
  if docmanager.IsDirEmpty pendingDocs then
    logf LDebug "No documents to process from %v"
      [VDir instanceID appconfig.DefaultLocationOfPending]
  else
    forEach (docmanager.ReadDir pendingDocs) (fun f =>
      logf LDebug "Processing an older document - %v" [VStr f] >>
      let* docState :=
        gets (fun w =>
          docmanager.GetDocumentInterimState f instanceID
            appconfig.DefaultLocationOfPending (files w)) in
      if isSupportedDocumentType p (model.DocumentType' docState) then
        logf LDebug "processor processing pending document %v"
          [VStr (model.DocumentID (model.DocumentInformation docState))] >>
        Submit p docState
      else ret tt).

(** The body of the loop of [processInProgressDocuments]. *)
Definition processInProgressDocument (p : EngineProcessor)
  (config : appconfig.SsmagentConfig) (instanceID : string) (f : string)
  : M unit :=
  logf LDebug "processing previously unexecuted document - %v" [VStr f] >>
  let* docState :=
    gets (fun w =>
      docmanager.GetDocumentInterimState f instanceID
        appconfig.DefaultLocationOfCurrent (files w)) in
  let retryLimit := appconfig.CommandRetryLimit (appconfig.Mds config) in
  if bool_decide
       (model.RunCount (model.DocumentInformation docState) >= retryLimit)
  then
    MoveDocumentState f instanceID
      appconfig.DefaultLocationOfCurrent
      appconfig.DefaultLocationOfCorrupt
  else
    let docState :=
      model.setRunCount
        (wrap64 (model.RunCount (model.DocumentInformation docState) + 1))
        docState in
    PersistData
      (model.DocumentID (model.DocumentInformation docState))
      instanceID appconfig.DefaultLocationOfCurrent docState >>
    if isSupportedDocumentType p (model.DocumentType' docState) then
      logf LDebug "processor processing in-progress document %v"
        [VStr (model.DocumentID (model.DocumentInformation docState))] >>
      let* err := submit p docState in
      match err with
      | Some e =>
          logf LError "failed to submit in progress document %v : %v"
            [VStr (model.DocumentID
                     (model.DocumentInformation docState)); VErr e] >>
          MoveDocumentState f instanceID
            appconfig.DefaultLocationOfCurrent
            appconfig.DefaultLocationOfCorrupt
      | None => ret tt
      end
    else ret tt.

Definition processInProgressDocuments (p : EngineProcessor)
  (instanceID : string) : M unit :=
  let* ctx := deref (context p) in
  let config := AppConfig ctx in
  let* currentDocs :=
    gets (fun w => files w instanceID appconfig.DefaultLocationOfCurrent) in
  if docmanager.IsDirEmpty currentDocs then
    logf LDebug "no older document to process from %v"
      [VDir instanceID appconfig.DefaultLocationOfCurrent]
  else
    forEach (docmanager.ReadDir currentDocs)
      (processInProgressDocument p config instanceID).

Definition Start (p : EngineProcessor) : M (bool * option StartError) :=
  match context p with
  | None => ret (false, Some ErrNotInitialized)
  | Some ctx =>
      match platform_InstanceID with
      | inr msg =>
          logf LError "no instanceID provided, %v" [VStr msg] >>
          ret (false, Some (ErrInstanceID msg))
      | inl instanceID =>
          processInProgressDocuments p instanceID >>
          processPendingDocuments p instanceID >>
          ret (true, None)
      end
  end.

(** Modelled from the spec: what a worker of a pool does (§4.2, §5).  It
    takes the oldest queued job of its pool... *)
Definition runJobBody (b : JobBody) (cancelFlag : task.CancelFlag) : M unit :=
  match b with
  | ProcessCommandJob ctx creator docState =>
      processCommand ctx creator cancelFlag docState
  | ProcessCancelCommandJob ctx sendPool docState =>
      processCancelCommand ctx sendPool docState
  end.

Definition workerDispatch (r : PoolRef) : M (option string) :=
  fun w =>
    let '(id, js) := task.dispatchJobs (task.jobs (pools w r)) in
    Some (id, setPool r (task.withJobs js (pools w r)) w).

(** ... and runs its body with the job's token; the job leaves the pool
    when the body returns. *)
Definition workerComplete (r : PoolRef) (id : string) : M unit :=
  let* job := gets (fun w => task.findJob id (pools w r)) in
  match job with
  | Some j =>
      if task.jobRunning j then
        runJobBody (task.jobBody j) (task.jobFlag j) >>
        modify (fun w => setPool r (task.removeJob id (pools w r)) w)
      else ret tt
  | None => ret tt
  end.

(** A worker running the next job of a pool from start to end. *)
Definition workerRun (r : PoolRef) : M unit :=
  let* next := workerDispatch r in
  match next with
  | Some id => workerComplete r id
  | None => ret tt
  end.


(** ** Vocabulary of the properties *)

(** A world with more calls on its trace. *)
Definition addTrace (t : list Event) (w : World) : World :=
  {| files := files w; pools := pools w; resChan := resChan w;
     chanClosed := chanClosed w; pendingReboot := pendingReboot w;
     trace := trace w ++ t |}.

(** The calls that touch the document store, the pools, the channel or the
    rebooter: everything but logging and the hand-off to the long-running
    plugin manager. *)
Definition isCore (e : Event) : bool :=
  match e with
  | EvLog _ _ _ | EvLrpmInvoke _ _ _ => false
  | _ => true
  end.

Definition coreEvents (t : list Event) : list Event := filter isCore t.

Definition bodyDocument (b : JobBody) : model.DocumentState :=
  match b with
  | ProcessCommandJob _ _ d => d
  | ProcessCancelCommandJob _ _ d => d
  end.

(** The calls made on behalf of the document [docID]: writes and moves of
    its file, and the submission of a job for it. *)
Definition concerns (docID : string) (e : Event) : bool :=
  match e with
  | EvPersistData f _ _ _ => bool_decide (f = docID)
  | EvMoveDocumentState f _ _ _ => bool_decide (f = docID)
  | EvPoolSubmit _ _ b _ =>
      bool_decide
        (model.DocumentID (model.DocumentInformation (bodyDocument b)) = docID)
  | _ => false
  end.

(** What an executer's action looks like from outside. *)
Definition actionEvent (store : executer.DocumentFileStore)
  (a : executer.Action) : Event :=
  match a with
  | executer.Save d =>
      EvPersistData (executer.documentID store) (executer.instanceID store)
        (executer.location store) d
  | executer.Emit r => EvSend r
  end.

Definition applySaves (store : executer.DocumentFileStore)
  (acts : list executer.Action) (fs : docmanager.Files) : docmanager.Files :=
  foldl (fun fs a =>
           match a with
           | executer.Save d =>
               docmanager.PersistData (executer.documentID store)
                 (executer.instanceID store) (executer.location store) d fs
           | executer.Emit _ => fs
           end) fs acts.

Definition isRebootResult (r : contracts.DocumentResult) : bool :=
  bool_decide (contracts.Status r = contracts.ResultStatusSuccessAndReboot).

(** Whether the stream of results ends on a request to reboot. *)
Definition endsInReboot (b : bool) (acts : list executer.Action) : bool :=
  match last (executer.emitted acts) with
  | Some r => isRebootResult r
  | None => b
  end.

(** The world a command job leaves behind, but for its trace. *)
Definition afterCommand (store : executer.DocumentFileStore)
  (acts : list executer.Action) (t : list Event) (w : World) : World :=
  let docID := executer.documentID store in
  let instID := executer.instanceID store in
  let running :=
    applySaves store acts
      (docmanager.MoveDocumentState docID instID
         appconfig.DefaultLocationOfPending
         appconfig.DefaultLocationOfCurrent (files w)) in
  {| files :=
       if endsInReboot false acts then running
       else docmanager.MoveDocumentState docID instID
              appconfig.DefaultLocationOfCurrent
              appconfig.DefaultLocationOfCompleted running;
     pools := pools w;
     resChan := resChan w ++ executer.emitted acts;
     chanClosed := false;
     pendingReboot := endsInReboot false acts || pendingReboot w;
     trace := trace w ++ t |}.

(** Every file of a directory carries its own name as document id. *)
Definition namedByID (d : docmanager.Dir) : Prop :=
  map_Forall
    (fun f doc => model.DocumentID (model.DocumentInformation doc) = f) d.

#[global] Instance namedByID_dec (d : docmanager.Dir) : Decision (namedByID d).
Proof. unfold namedByID. apply _. Defined.

(** Calls on a pool. *)
Definition isPoolEvent (e : Event) : bool :=
  match e with
  | EvPoolSubmit _ _ _ _ | EvPoolCancel _ _ _
  | EvShutdownBegin _ _ | EvShutdownEnd _ => true
  | _ => false
  end.

(** The merges of two sequences that keep the order of each. *)
Inductive Interleaving {A} : list A -> list A -> list A -> Prop :=
| Interleaving_nil : Interleaving [] [] []
| Interleaving_left a g1 g2 l :
    Interleaving g1 g2 l -> Interleaving (a :: g1) g2 (a :: l)
| Interleaving_right b g1 g2 l :
    Interleaving g1 g2 l -> Interleaving g1 (b :: g2) (b :: l).

(** What the recovery of the in-progress documents does to [doc], found
    in current under the name [f]: [t] is what it added to the trace and
    [fs] the store it left.  A document at its retry limit goes to corrupt
    as it is.  Another one is persisted with one more run; if its type is
    supported it is then offered to the command pool, and goes to corrupt
    when the pool refuses it. *)
Definition inProgressOutcome (p : EngineProcessor) (ctx : context_T)
  (instID f : string) (doc : model.DocumentState) (t : list Event)
  (fs : docmanager.Files) : Prop :=
  let doc' :=
    model.setRunCount
      (wrap64 (model.RunCount (model.DocumentInformation doc) + 1)) doc in
  let toCorrupt :=
    EvMoveDocumentState f instID appconfig.DefaultLocationOfCurrent
      appconfig.DefaultLocationOfCorrupt in
  let persisted :=
    EvPersistData f instID appconfig.DefaultLocationOfCurrent doc' in
  if bool_decide (model.RunCount (model.DocumentInformation doc)
                  >= appconfig.CommandRetryLimit
                       (appconfig.Mds (AppConfig ctx)))
  then
    filter (concerns f) t = [toCorrupt] /\
    fs instID appconfig.DefaultLocationOfCurrent !! f = None /\
    fs instID appconfig.DefaultLocationOfCorrupt !! f = Some doc
  else if isSupportedDocumentType p (model.DocumentType' doc) then
    exists err,
      filter (concerns f) t =
        persisted
        :: EvPoolSubmit (sendCommandPool p) (jobIDOf doc')
             (ProcessCommandJob ctx (executerCreator p) doc') err
        :: match err with Some _ => [toCorrupt] | None => [] end /\
      match err with
      | None =>
          fs instID appconfig.DefaultLocationOfCurrent !! f = Some doc'
      | Some _ =>
          fs instID appconfig.DefaultLocationOfCurrent !! f = None /\
          fs instID appconfig.DefaultLocationOfCorrupt !! f = Some doc'
      end
  else
    filter (concerns f) t = [persisted] /\
    fs instID appconfig.DefaultLocationOfCurrent !! f = Some doc'.

(** The trace of a pool's [ShutdownAndWait]. *)
Definition shutdownEvents (r : PoolRef) (timeout : time.Duration)
  : list Event :=
  [EvShutdownBegin r timeout; EvShutdownEnd r].

(** The calls a recovery may make: logging, writes and moves of document
    files, and submissions to the pool [sp]. *)
Definition isRecoveryEvent (sp : PoolRef) (e : Event) : bool :=
  match e with
  | EvLog _ _ _ | EvPersistData _ _ _ _ | EvMoveDocumentState _ _ _ _ => true
  | EvPoolSubmit r _ _ _ => bool_decide (r = sp)
  | _ => false
  end.

(** [w'] comes from [w] by such calls only: the channel, the rebooter and
    every pool but [sp] are as they were. *)
Definition recoveredFrom (sp : PoolRef) (w w' : World) : Prop :=
  resChan w' = resChan w /\
  chanClosed w' = chanClosed w /\
  pendingReboot w' = pendingReboot w /\
  (forall r, r <> sp -> pools w' r = pools w r) /\
  exists t, trace w' = trace w ++ t /\ Forall (fun e => isRecoveryEvent sp e = true) t.

(** The hand-offs to the long-running plugin manager on a trace. *)
Definition lrpmInvocations (t : list Event)
  : list (string * contracts.PluginResult * string) :=
  omap (fun e => match e with
                 | EvLrpmInvoke ID res dir => Some (ID, res, dir)
                 | _ => None
                 end) t.


(** A computation that cannot panic and makes recovery calls only. *)
Definition recovers {A} (sp : PoolRef) (m : M A) : Prop :=
  forall w, exists a w', m w = Some (a, w') /\ recoveredFrom sp w w'.


(** The body of the loop of [processPendingDocuments]. *)
Definition processPendingDocument (p : EngineProcessor) (instanceID : string)
  (f : string) : M unit :=
  logf LDebug "Processing an older document - %v" [VStr f] >>
  let* docState :=
    gets (fun w =>
      docmanager.GetDocumentInterimState f instanceID
        appconfig.DefaultLocationOfPending (files w)) in
  if isSupportedDocumentType p (model.DocumentType' docState) then
    logf LDebug "processor processing pending document %v"
      [VStr (model.DocumentID (model.DocumentInformation docState))] >>
    Submit p docState
  else ret tt.

(** What the recovery of the pending documents does to [doc], found in
    pending under the name [f]: [t] is what it added to the trace, [fs] the
    store before and [fs'] the store after.  A document of a supported type
    goes through [Submit]; any other is not touched. *)
Definition pendingOutcome (p : EngineProcessor) (ctx : context_T)
  (f : string) (doc : model.DocumentState) (t : list Event)
  (fs fs' : docmanager.Files) : Prop :=
  let instID := model.InstanceID (model.DocumentInformation doc) in
  let toCorrupt :=
    EvMoveDocumentState f instID appconfig.DefaultLocationOfPending
      appconfig.DefaultLocationOfCorrupt in
  if isSupportedDocumentType p (model.DocumentType' doc) then
    exists err,
      filter (concerns f) t =
        EvPersistData f instID appconfig.DefaultLocationOfPending doc
        :: EvPoolSubmit (sendCommandPool p) (jobIDOf doc)
             (ProcessCommandJob ctx (executerCreator p) doc) err
        :: match err with Some _ => [toCorrupt] | None => [] end /\
      match err with
      | None =>
          fs' instID appconfig.DefaultLocationOfPending !! f = Some doc
      | Some _ =>
          fs' instID appconfig.DefaultLocationOfPending !! f = None /\
          fs' instID appconfig.DefaultLocationOfCorrupt !! f = Some doc
      end
  else
    filter (concerns f) t = [] /\
    forall i l, fs' i l !! f = fs i l !! f.


(** The world [Submit] leaves behind. *)
Definition afterSubmit (p : EngineProcessor) (ctx : context_T)
  (d : model.DocumentState) (w : World) : World :=
  let docID := model.DocumentID (model.DocumentInformation d) in
  let instID := model.InstanceID (model.DocumentInformation d) in
  let body := ProcessCommandJob ctx (executerCreator p) d in
  let verdict := task.Submit (jobIDOf d) body (pools w (sendCommandPool p)) in
  let w1 :=
    record (EvPoolSubmit (sendCommandPool p) (jobIDOf d) body verdict.1)
      (setPool (sendCommandPool p) verdict.2
         (record (EvPersistData docID instID
                    appconfig.DefaultLocationOfPending d)
            (setFiles
               (docmanager.PersistData docID instID
                  appconfig.DefaultLocationOfPending d (files w)) w))) in
  match verdict.1 with
  | None => w1
  | Some e =>
      record (EvMoveDocumentState docID instID
                appconfig.DefaultLocationOfPending
                appconfig.DefaultLocationOfCorrupt)
        (setFiles
           (docmanager.MoveDocumentState docID instID
              appconfig.DefaultLocationOfPending
              appconfig.DefaultLocationOfCorrupt (files w1))
           (record (EvLog LError "Document Submission failed" [VErr e]) w1))
  end.


(** A computation that leaves the directories of location [loc] as they
    are. *)
Definition keeps {A} (loc : appconfig.Location) (m : M A) : Prop :=
  forall w a w', m w = Some (a, w') ->
    forall i k, files w' i loc !! k = files w i loc !! k.


(** The agent coming up again after a crash: a new processor, with new
    pools and a new channel, is started on the store as the last run has
    left it. *)
Definition restart (ctx : context_T)
  (commandWorkerLimit cancelWorkerLimit : Z)
  (supportedDocs : list model.DocumentType) : M (bool * option StartError) :=
  let* p :=
    NewEngineProcessor ctx commandWorkerLimit cancelWorkerLimit
      supportedDocs in
  Start p.

(** [n] restarts in a row, no job getting to its end in between. *)
Fixpoint restarts (n : nat) (ctx : context_T)
  (commandWorkerLimit cancelWorkerLimit : Z)
  (supportedDocs : list model.DocumentType) : M unit :=
  match n with
  | O => ret tt
  | S n' =>
      restart ctx commandWorkerLimit cancelWorkerLimit supportedDocs >>
      restarts n' ctx commandWorkerLimit cancelWorkerLimit supportedDocs
  end.


(** ** Properties *)

(** *** The document store *)

Lemma setDir_apply instID loc d fs i l :
  docmanager.setDir instID loc d fs i l
  = if decide (i = instID ∧ l = loc) then d else fs i l.
Proof. reflexivity. Qed.

Lemma PersistData_lookup docID instID loc d fs i l k :
  docmanager.PersistData docID instID loc d fs i l !! k
  = if decide (i = instID ∧ l = loc ∧ k = docID) then Some d
    else fs i l !! k.
Proof.
  unfold docmanager.PersistData. rewrite setDir_apply.
  destruct (decide (i = instID ∧ l = loc)) as [[-> ->]|Hne].
  - destruct (decide (k = docID)) as [->|Hk].
    + rewrite lookup_insert_eq. now rewrite decide_True.
    + rewrite lookup_insert_ne by (intros ->; now apply Hk).
      rewrite decide_False; [reflexivity | now intros (_ & _ & ?)].
  - rewrite decide_False; [reflexivity|].
    intros (? & ? & _). apply Hne. now split.
Qed.

Lemma MoveDocumentState_absent docID instID src dst fs :
  fs instID src !! docID = None ->
  docmanager.MoveDocumentState docID instID src dst fs = fs.
Proof. intros H. unfold docmanager.MoveDocumentState. now rewrite H. Qed.

Lemma MoveDocumentState_lookup docID instID src dst fs d i l k :
  fs instID src !! docID = Some d ->
  docmanager.MoveDocumentState docID instID src dst fs i l !! k
  = if decide (i = instID ∧ l = dst ∧ k = docID) then Some d
    else if decide (i = instID ∧ l = src ∧ k = docID) then None
    else fs i l !! k.
Proof.
  intros H. unfold docmanager.MoveDocumentState. rewrite H.
  rewrite PersistData_lookup.
  destruct (decide (i = instID ∧ l = dst ∧ k = docID)); [reflexivity|].
  rewrite setDir_apply.
  destruct (decide (i = instID ∧ l = src)) as [[-> ->]|Hne].
  - destruct (decide (k = docID)) as [->|Hk].
    + rewrite lookup_delete_eq. now rewrite decide_True.
    + rewrite lookup_delete_ne by (intros ->; now apply Hk).
      rewrite decide_False; [reflexivity | now intros (_ & _ & ?)].
  - rewrite decide_False; [reflexivity|].
    intros (? & ? & _). apply Hne. now split.
Qed.

(** After a move the file is no longer in the directory it left. *)
Lemma MoveDocumentState_source docID instID src dst fs :
  src <> dst ->
  docmanager.MoveDocumentState docID instID src dst fs instID src !! docID
  = None.
Proof.
  intros Hne. destruct (fs instID src !! docID) as [d|] eqn:E.
  - rewrite (MoveDocumentState_lookup _ _ _ _ _ d) by assumption.
    rewrite decide_False by (intros (_ & ? & _); congruence).
    rewrite decide_True; auto.
  - rewrite MoveDocumentState_absent; assumption.
Qed.

(** ... and it is in the directory it went to, if it was there to move. *)
Lemma MoveDocumentState_target docID instID src dst fs d :
  fs instID src !! docID = Some d ->
  docmanager.MoveDocumentState docID instID src dst fs instID dst !! docID
  = Some d.
Proof.
  intros H. rewrite (MoveDocumentState_lookup _ _ _ _ _ d) by assumption.
  rewrite decide_True; auto.
Qed.

(** A move leaves every other file, and every other directory, alone. *)
Lemma MoveDocumentState_other docID instID src dst fs i l k :
  (i, k) <> (instID, docID) \/ (l <> src /\ l <> dst) ->
  docmanager.MoveDocumentState docID instID src dst fs i l !! k
  = fs i l !! k.
Proof.
  intros Hne. destruct (fs instID src !! docID) as [d|] eqn:E.
  - rewrite (MoveDocumentState_lookup _ _ _ _ _ d) by assumption.
    rewrite !decide_False; [reflexivity | |];
      intros (-> & -> & ->); destruct Hne as [?|[? ?]]; congruence.
  - rewrite MoveDocumentState_absent; auto.
Qed.

Lemma ReadDir_elem (d : docmanager.Dir) f :
  f ∈ docmanager.ReadDir d <-> is_Some (d !! f).
Proof.
  unfold docmanager.ReadDir. rewrite list_elem_of_fmap. split.
  - intros ([k v] & -> & Hin). apply elem_of_map_to_list in Hin. eauto.
  - intros [v Hv]. exists (f, v). split; [reflexivity|].
    now apply elem_of_map_to_list.
Qed.

Lemma ReadDir_NoDup (d : docmanager.Dir) : NoDup (docmanager.ReadDir d).
Proof. apply NoDup_fst_map_to_list. Qed.

Lemma IsDirEmpty_false (d : docmanager.Dir) f doc :
  d !! f = Some doc -> docmanager.IsDirEmpty d = false.
Proof.
  intros H. unfold docmanager.IsDirEmpty. apply bool_decide_eq_false.
  intros ->. now rewrite lookup_empty in H.
Qed.

(** *** The pools, as the processor calls them *)

Lemma poolCancel_run r id w :
  poolCancel r id w
  = Some ((task.Cancel id (pools w r)).1,
          record (EvPoolCancel r id (task.Cancel id (pools w r)).1)
            (setPool r (task.Cancel id (pools w r)).2 w)).
Proof. unfold poolCancel. now destruct (task.Cancel id (pools w r)). Qed.

Lemma poolSubmit_run r id b w :
  poolSubmit r id b w
  = Some ((task.Submit id b (pools w r)).1,
          record (EvPoolSubmit r id b (task.Submit id b (pools w r)).1)
            (setPool r (task.Submit id b (pools w r)).2 w)).
Proof. unfold poolSubmit. now destruct (task.Submit id b (pools w r)). Qed.

Lemma Submit_rejected_unchanged (id : string) (b : JobBody)
  (p : task.Pool JobBody) e :
  (task.Submit id b p).1 = Some e -> (task.Submit id b p).2 = p.
Proof.
  unfold task.Submit. destruct (task.hasJob id p); [reflexivity|].
  destruct (task.isShutdown p); [reflexivity | discriminate].
Qed.

Lemma Submit_accepted_jobs (id : string) (b : JobBody)
  (p : task.Pool JobBody) :
  (task.Submit id b p).1 = None ->
  task.jobs (task.Submit id b p).2
  = task.jobs p ++ [{| task.jobID := id; task.jobBody := b;
                       task.jobFlag := task.Active;
                       task.jobRunning := false |}].
Proof.
  unfold task.Submit. destruct (task.hasJob id p); [discriminate|].
  destruct (task.isShutdown p); [discriminate | reflexivity].
Qed.

Lemma setPool_same r p w : pools (setPool r p w) r = p.
Proof. cbn. now rewrite decide_True. Qed.

Lemma setPool_other r r' p w : r' <> r -> pools (setPool r p w) r' = pools w r'.
Proof. intros. cbn. now rewrite decide_False. Qed.

Lemma setPool_id r w r' : pools (setPool r (pools w r) w) r' = pools w r'.
Proof. cbn. destruct (decide (r' = r)); congruence. Qed.

(** Cancelling a job-id touches the first job that carries it, and only
    that one: queued, it leaves the pool; running, its token is set. *)
Lemma cancelJobs_spec (id : string) (js : list (task.Job JobBody)) :
  (task.cancelJobs id js = (false, js)
   /\ Forall (fun j => task.jobID j <> id) js)
  \/ exists l1 j l2,
       js = l1 ++ j :: l2 /\ task.jobID j = id
       /\ Forall (fun j' => task.jobID j' <> id) l1
       /\ task.cancelJobs id js
          = (true, if task.jobRunning j
                   then l1 ++ task.signal task.Canceled j :: l2
                   else l1 ++ l2).
Proof.
  induction js as [|j js IH]; cbn.
  - left. split; [reflexivity | constructor].
  - destruct (bool_decide (task.jobID j = id)) eqn:E.
    + apply bool_decide_eq_true in E. right. exists [], j, js.
      repeat split; auto. destruct (task.jobRunning j); reflexivity.
    + apply bool_decide_eq_false in E.
      destruct IH as [[-> Hall] | (l1 & j' & l2 & -> & Hid & Hall & ->)].
      * left. split; [reflexivity | now constructor].
      * right. exists (j :: l1), j', l2. repeat split; auto.
        destruct (task.jobRunning j'); reflexivity.
Qed.

(** *** The cancel job *)

(** C5: a cancel job that finds its target writes "Command {id} cancelled"
    and [Success] into the cancel document, one that does not writes
    "Command {id} couldn't be cancelled" and [Failed]; either way the
    document is then persisted in current and moved from current to
    completed.  The document [d'] that is persisted and ends in completed
    has that debug information and that status, and every other field as
    the cancel document had it. *)
Theorem processCancelCommand_records_outcome
  (ctx : context_T) (sendPool : PoolRef) (d : model.DocumentState) (w : World) :
  let cancelInfo := model.CancelInformation d in
  let docID := model.DocumentID (model.DocumentInformation d) in
  let instID := model.InstanceID (model.DocumentInformation d) in
  let found := fst (task.Cancel (model.CancelMessageID cancelInfo)
                      (pools w sendPool)) in
  let d' :=
    if found
    then model.setDocumentStatus contracts.ResultStatusSuccess
           (model.setDebugInfo
              ("Command " +:+ model.CancelCommandID cancelInfo +:+ " cancelled")
              d)
    else model.setDocumentStatus contracts.ResultStatusFailed
           (model.setDebugInfo
              ("Command " +:+ model.CancelCommandID cancelInfo
               +:+ " couldn't be cancelled") d) in
  exists w' t,
    processCancelCommand ctx sendPool d w = Some (tt, w') /\
    trace w' = trace w ++ t /\
    coreEvents t =
      [ EvPoolCancel sendPool (model.CancelMessageID cancelInfo) found;
        EvPersistData docID instID appconfig.DefaultLocationOfCurrent d';
        EvMoveDocumentState docID instID appconfig.DefaultLocationOfCurrent
          appconfig.DefaultLocationOfCompleted ] /\
    files w' instID appconfig.DefaultLocationOfCompleted !! docID = Some d' /\
    files w' instID appconfig.DefaultLocationOfCurrent !! docID = None /\
    model.DebugInfo (model.CancelInformation d')
    = (if found
       then "Command " +:+ model.CancelCommandID cancelInfo +:+ " cancelled"
       else "Command " +:+ model.CancelCommandID cancelInfo
            +:+ " couldn't be cancelled") /\
    model.DocumentStatus (model.DocumentInformation d')
    = (if found then contracts.ResultStatusSuccess
       else contracts.ResultStatusFailed) /\
    model.CancelMessageID (model.CancelInformation d')
    = model.CancelMessageID cancelInfo /\
    model.CancelCommandID (model.CancelInformation d')
    = model.CancelCommandID cancelInfo /\
    model.DocumentID (model.DocumentInformation d') = docID /\
    model.InstanceID (model.DocumentInformation d') = instID /\
    model.MessageID (model.DocumentInformation d')
    = model.MessageID (model.DocumentInformation d) /\
    model.AssociationID (model.DocumentInformation d')
    = model.AssociationID (model.DocumentInformation d) /\
    model.RunCount (model.DocumentInformation d')
    = model.RunCount (model.DocumentInformation d) /\
    model.DocumentType' d' = model.DocumentType' d /\
    model.InstancePluginsInformation d'
    = model.InstancePluginsInformation d.
Proof.
  intros cancelInfo docID instID found d'.
  assert (Hfields :
    model.DebugInfo (model.CancelInformation d')
    = (if found
       then "Command " +:+ model.CancelCommandID cancelInfo +:+ " cancelled"
       else "Command " +:+ model.CancelCommandID cancelInfo
            +:+ " couldn't be cancelled") /\
    model.DocumentStatus (model.DocumentInformation d')
    = (if found then contracts.ResultStatusSuccess
       else contracts.ResultStatusFailed) /\
    model.CancelMessageID (model.CancelInformation d')
    = model.CancelMessageID cancelInfo /\
    model.CancelCommandID (model.CancelInformation d')
    = model.CancelCommandID cancelInfo /\
    model.DocumentID (model.DocumentInformation d') = docID /\
    model.InstanceID (model.DocumentInformation d') = instID /\
    model.MessageID (model.DocumentInformation d')
    = model.MessageID (model.DocumentInformation d) /\
    model.AssociationID (model.DocumentInformation d')
    = model.AssociationID (model.DocumentInformation d) /\
    model.RunCount (model.DocumentInformation d')
    = model.RunCount (model.DocumentInformation d) /\
    model.DocumentType' d' = model.DocumentType' d /\
    model.InstancePluginsInformation d'
    = model.InstancePluginsInformation d).
  { subst d'. destruct found; repeat split; reflexivity. }
  revert Hfields.
  unfold processCancelCommand, bind, logf, modify, PersistData,
    MoveDocumentState, ret.
  rewrite poolCancel_run. subst found d'. fold cancelInfo.
  cbn -[docmanager.MoveDocumentState docmanager.PersistData String.append
        task.Cancel].
  destruct (task.Cancel (model.CancelMessageID cancelInfo) (pools w sendPool)).1;
    cbn -[docmanager.MoveDocumentState docmanager.PersistData String.append
          task.Cancel].
  all: intros Hfields.
  all: eexists; eexists; split; [reflexivity|].
  all: cbn -[docmanager.MoveDocumentState docmanager.PersistData
             String.append].
  all: split; [rewrite <- !app_assoc; reflexivity|].
  all: split; [reflexivity|].
  all: split;
    [ apply MoveDocumentState_target; rewrite PersistData_lookup;
      rewrite decide_True; auto |].
  all: split; [apply MoveDocumentState_source; discriminate | exact Hfields].
Qed.

(** *** [Submit] and [Cancel] *)

(** C10: when the cancel pool refuses the job, [Cancel] logs the error and
    returns; the cancel document stays in pending as it was persisted, and
    nothing else changes: no move to corrupt, pools, channel and rebooter as
    before. *)
Theorem Cancel_rejected_stays_pending
  (p : EngineProcessor) (ctx : context_T) (d : model.DocumentState)
  (w : World) (e : task.PoolError) :
  let docID := model.DocumentID (model.DocumentInformation d) in
  let instID := model.InstanceID (model.DocumentInformation d) in
  let body := ProcessCancelCommandJob ctx (sendCommandPool p) d in
  context p = Some ctx ->
  (task.Submit (jobIDOf d) body (pools w (cancelCommandPool p))).1 = Some e ->
  exists w',
    Cancel p d w = Some (tt, w') /\
    trace w' =
      trace w ++
      [ EvPersistData docID instID appconfig.DefaultLocationOfPending d;
        EvPoolSubmit (cancelCommandPool p) (jobIDOf d) body (Some e);
        EvLog LError "CancelCommand failed" [VErr e] ] /\
    files w' =
      docmanager.PersistData docID instID appconfig.DefaultLocationOfPending d
        (files w) /\
    files w' instID appconfig.DefaultLocationOfPending !! docID = Some d /\
    (forall i k, files w' i appconfig.DefaultLocationOfCorrupt !! k
                 = files w i appconfig.DefaultLocationOfCorrupt !! k) /\
    (forall r, pools w' r = pools w r) /\
    resChan w' = resChan w /\ chanClosed w' = chanClosed w /\
    pendingReboot w' = pendingReboot w.
Proof.
  intros docID instID body Hctx Hrej.
  unfold Cancel, bind, logf, modify, PersistData, ret, deref.
  rewrite Hctx. cbn -[docmanager.PersistData task.Submit].
  rewrite poolSubmit_run. cbn -[docmanager.PersistData task.Submit].
  fold body docID instID. rewrite Hrej.
  rewrite (Submit_rejected_unchanged _ _ _ _ Hrej).
  cbn -[docmanager.PersistData task.Submit].
  eexists. split; [reflexivity|].
  cbn -[docmanager.PersistData task.Submit].
  repeat split.
  - now rewrite <- !app_assoc.
  - rewrite PersistData_lookup. now rewrite decide_True.
  - intros i k. rewrite PersistData_lookup.
    now rewrite decide_False by (intros (_ & ? & _); discriminate).
  - intros r. destruct (decide (r = cancelCommandPool p)); congruence.
Qed.

(** C4, as the code has it: [Submit] persists the document in pending and
    offers it to the command pool under its job-id.  When the pool takes
    it, that is all.  When the pool refuses it, [Submit] logs the pool's
    error and moves the document from pending to corrupt.  [Submit] has no
    result: the error reaches the log, not the caller. *)
Theorem Submit_persists_then_enqueues_or_quarantines
  (p : EngineProcessor) (ctx : context_T) (d : model.DocumentState)
  (w : World) :
  let docID := model.DocumentID (model.DocumentInformation d) in
  let instID := model.InstanceID (model.DocumentInformation d) in
  let body := ProcessCommandJob ctx (executerCreator p) d in
  let verdict :=
    task.Submit (jobIDOf d) body (pools w (sendCommandPool p)) in
  context p = Some ctx ->
  exists w',
    Submit p d w = Some (tt, w') /\
    pools w' (sendCommandPool p) = verdict.2 /\
    match verdict.1 with
    | None =>
        trace w' =
          trace w ++
          [ EvPersistData docID instID appconfig.DefaultLocationOfPending d;
            EvPoolSubmit (sendCommandPool p) (jobIDOf d) body None ] /\
        files w' instID appconfig.DefaultLocationOfPending !! docID = Some d /\
        task.jobs (pools w' (sendCommandPool p)) =
          task.jobs (pools w (sendCommandPool p)) ++
          [ {| task.jobID := jobIDOf d; task.jobBody := body;
               task.jobFlag := task.Active; task.jobRunning := false |} ]
    | Some e =>
        trace w' =
          trace w ++
          [ EvPersistData docID instID appconfig.DefaultLocationOfPending d;
            EvPoolSubmit (sendCommandPool p) (jobIDOf d) body (Some e);
            EvLog LError "Document Submission failed" [VErr e];
            EvMoveDocumentState docID instID
              appconfig.DefaultLocationOfPending
              appconfig.DefaultLocationOfCorrupt ] /\
        files w' instID appconfig.DefaultLocationOfPending !! docID = None /\
        files w' instID appconfig.DefaultLocationOfCorrupt !! docID = Some d /\
        pools w' (sendCommandPool p) = pools w (sendCommandPool p)
    end.
Proof.
  intros docID instID body verdict Hctx.
  unfold Submit, submit, bind, logf, modify, PersistData, MoveDocumentState,
    ret, deref.
  rewrite Hctx.
  cbn -[docmanager.PersistData docmanager.MoveDocumentState task.Submit].
  rewrite poolSubmit_run.
  cbn -[docmanager.PersistData docmanager.MoveDocumentState task.Submit].
  fold body docID instID verdict.
  destruct verdict.1 as [e|] eqn:Hv;
    cbn -[docmanager.PersistData docmanager.MoveDocumentState task.Submit];
    (eexists; split; [reflexivity|]);
    cbn -[docmanager.PersistData docmanager.MoveDocumentState task.Submit];
    rewrite decide_True by reflexivity; (split; [reflexivity|]).
  - repeat split.
    + now rewrite <- !app_assoc.
    + apply MoveDocumentState_source. discriminate.
    + apply MoveDocumentState_target. rewrite PersistData_lookup.
      now rewrite decide_True.
    + apply (Submit_rejected_unchanged _ _ _ _ Hv).
  - repeat split.
    + now rewrite <- !app_assoc.
    + rewrite PersistData_lookup. now rewrite decide_True.
    + apply Submit_accepted_jobs. exact Hv.
Qed.

(** C8: [Submit] and [Cancel] enqueue a document under its association id
    when it is an association and under its message id otherwise; a cancel
    job reaches the pools only through [Cancel] of the command pool at the
    cancel document's [CancelMessageID], which removes or signals at most
    the one job with that job-id and leaves every other job, and the other
    pool, as they were. *)
Theorem job_id_and_targeted_cancel
  (p : EngineProcessor) (ctx : context_T) (d : model.DocumentState)
  (w : World) :
  context p = Some ctx ->
  jobIDOf d =
    (if IsAssociation d
     then model.AssociationID (model.DocumentInformation d)
     else model.MessageID (model.DocumentInformation d)) /\
  (exists w' t err,
      Submit p d w = Some (tt, w') /\ trace w' = trace w ++ t /\
      filter isPoolEvent t =
        [ EvPoolSubmit (sendCommandPool p) (jobIDOf d)
            (ProcessCommandJob ctx (executerCreator p) d) err ]) /\
  (exists w' t err,
      Cancel p d w = Some (tt, w') /\ trace w' = trace w ++ t /\
      filter isPoolEvent t =
        [ EvPoolSubmit (cancelCommandPool p) (jobIDOf d)
            (ProcessCancelCommandJob ctx (sendCommandPool p) d) err ]) /\
  (forall sendPool : PoolRef,
      let target := model.CancelMessageID (model.CancelInformation d) in
      exists w' t found js',
        processCancelCommand ctx sendPool d w = Some (tt, w') /\
        trace w' = trace w ++ t /\
        filter isPoolEvent t = [ EvPoolCancel sendPool target found ] /\
        (forall r, r <> sendPool -> pools w' r = pools w r) /\
        pools w' sendPool = task.withJobs js' (pools w sendPool) /\
        (js' = task.jobs (pools w sendPool) \/
         exists l1 j l2,
           task.jobs (pools w sendPool) = l1 ++ j :: l2 /\
           task.jobID j = target /\
           (js' = l1 ++ l2 \/ js' = l1 ++ task.signal task.Canceled j :: l2))).
Proof.
  intros Hctx. split; [reflexivity|]. split; [|split].
  - unfold Submit, submit, bind, logf, modify, PersistData, MoveDocumentState,
      ret, deref.
    rewrite Hctx.
    cbn -[docmanager.PersistData docmanager.MoveDocumentState task.Submit].
    rewrite poolSubmit_run.
    cbn -[docmanager.PersistData docmanager.MoveDocumentState task.Submit].
    destruct (task.Submit _ _ _).1 as [e|];
      cbn -[docmanager.PersistData docmanager.MoveDocumentState task.Submit];
      do 3 eexists; (split; [reflexivity|]);
      cbn -[docmanager.PersistData docmanager.MoveDocumentState task.Submit];
      (split; [rewrite <- !app_assoc; reflexivity | reflexivity]).
  - unfold Cancel, bind, logf, modify, PersistData, ret, deref.
    rewrite Hctx. cbn -[docmanager.PersistData task.Submit].
    rewrite poolSubmit_run. cbn -[docmanager.PersistData task.Submit].
    destruct (task.Submit _ _ _).1 as [e|];
      cbn -[docmanager.PersistData task.Submit];
      do 3 eexists; (split; [reflexivity|]);
      cbn -[docmanager.PersistData task.Submit];
      (split; [rewrite <- !app_assoc; reflexivity | reflexivity]).
  - intros sendPool target.
    unfold processCancelCommand, bind, logf, modify, PersistData,
      MoveDocumentState, ret.
    rewrite poolCancel_run. fold target.
    cbn -[docmanager.MoveDocumentState docmanager.PersistData String.append
          task.Cancel].
    assert (Hjobs : exists js',
      (task.Cancel target (pools w sendPool)).2
        = task.withJobs js' (pools w sendPool) /\
      (js' = task.jobs (pools w sendPool) \/
       exists l1 j l2,
         task.jobs (pools w sendPool) = l1 ++ j :: l2 /\
         task.jobID j = target /\
         (js' = l1 ++ l2 \/ js' = l1 ++ task.signal task.Canceled j :: l2))).
    { unfold task.Cancel.
      destruct (cancelJobs_spec target (task.jobs (pools w sendPool)))
        as [[-> _] | (l1 & j & l2 & Hjs & Hid & _ & ->)].
      - eexists. split; [reflexivity | now left].
      - eexists. split; [reflexivity|]. right. exists l1, j, l2.
        repeat split; auto. destruct (task.jobRunning j); auto. }
    destruct Hjobs as (js' & Hpool & Hjs').
    destruct (task.Cancel target (pools w sendPool)).1 eqn:Hfound;
      cbn -[docmanager.MoveDocumentState docmanager.PersistData String.append
            task.Cancel];
      eexists; eexists; eexists; exists js';
      (split; [reflexivity|]);
      cbn -[docmanager.MoveDocumentState docmanager.PersistData String.append
            task.Cancel];
      (split; [rewrite <- !app_assoc; reflexivity|]);
      (split; [reflexivity|]);
      (split; [intros r Hr; now rewrite decide_False|]);
      rewrite decide_True by reflexivity; (split; [exact Hpool | exact Hjs']).
Qed.

(** *** The command job *)

Lemma addTrace_nil w : addTrace [] w = w.
Proof. destruct w. unfold addTrace. cbn. now rewrite app_nil_r. Qed.

Lemma addTrace_addTrace t1 t2 w :
  addTrace t2 (addTrace t1 w) = addTrace (t1 ++ t2) w.
Proof. unfold addTrace. cbn. now rewrite app_assoc. Qed.

Lemma coreEvents_app t1 t2 :
  coreEvents (t1 ++ t2) = coreEvents t1 ++ coreEvents t2.
Proof. apply filter_app. Qed.

(** A loop whose body only adds to the trace only adds to the trace. *)
Lemma forEach_addTrace {A} (P : list Event -> Prop) (body : A -> M unit) l :
  P [] -> (forall t1 t2, P t1 -> P t2 -> P (t1 ++ t2)) ->
  (forall x w, exists t, body x w = Some (tt, addTrace t w) /\ P t) ->
  forall w, exists t, forEach l body w = Some (tt, addTrace t w) /\ P t.
Proof.
  intros Hnil Happ Hbody. induction l as [|x l IH]; intros w.
  - exists []. cbn. unfold ret. now rewrite addTrace_nil.
  - cbn [forEach]. unfold bind.
    destruct (Hbody x w) as (t1 & -> & H1).
    destruct (IH (addTrace t1 w)) as (t2 & -> & H2).
    exists (t1 ++ t2). rewrite addTrace_addTrace. auto.
Qed.

(** The hand-off to the long-running plugin manager only logs and invokes
    the manager. *)
Lemma handleCloudwatchPlugin_run ctx prs docID w :
  exists t,
    handleCloudwatchPlugin ctx prs docID w = Some (tt, addTrace t w)
    /\ coreEvents t = [].
Proof.
  unfold handleCloudwatchPlugin.
  apply (forEach_addTrace (fun t => coreEvents t = [])).
  - reflexivity.
  - intros t1 t2 H1 H2. now rewrite coreEvents_app, H1, H2.
  - intros [ID res] w0.
    destruct (bool_decide (contracts.PluginName res = PluginNameCloudWatch)).
    + eexists [_; _]. split.
      * unfold bind, logf, modify, record, addTrace. cbn.
        rewrite <- !app_assoc. reflexivity.
      * reflexivity.
    + exists []. unfold ret. now rewrite addTrace_nil.
Qed.

Lemma endsInReboot_cons_save b d acts :
  endsInReboot b (executer.Save d :: acts) = endsInReboot b acts.
Proof. reflexivity. Qed.

Lemma endsInReboot_cons_emit b r acts :
  endsInReboot b (executer.Emit r :: acts)
  = endsInReboot (isRebootResult r) acts.
Proof.
  unfold endsInReboot.
  change (executer.emitted (executer.Emit r :: acts))
    with (r :: executer.emitted acts).
  rewrite last_cons. now destruct (last (executer.emitted acts)).
Qed.

(** Draining the executer's stream: every save lands in the store, every
    result goes out on the channel, in the order of the stream, and the
    flag that comes back is the one of the last result. *)
Lemma drain_run ctx store docID acts b w :
  chanClosed w = false ->
  exists t,
    drain ctx store docID acts b w
    = Some (endsInReboot b acts,
            {| files := applySaves store acts (files w);
               pools := pools w;
               resChan := resChan w ++ executer.emitted acts;
               chanClosed := false;
               pendingReboot := pendingReboot w;
               trace := trace w ++ t |})
    /\ coreEvents t = map (actionEvent store) acts.
Proof.
  revert b w. induction acts as [|[d|r] acts IH]; intros b w Hopen.
  - exists []. cbn. unfold ret. destruct w. cbn in *. subst.
    now rewrite !app_nil_r.
  - cbn [drain]. unfold bind at 1, PersistData at 1, modify.
    match goal with
    | |- context [drain _ _ _ acts b ?w1] =>
        destruct (IH b w1) as (t & -> & Ht); [exact Hopen|]
    end.
    eexists (_ :: t). split.
    + cbn. rewrite <- !app_assoc. reflexivity.
    + cbn. now rewrite <- Ht.
  - cbn [drain]. rewrite endsInReboot_cons_emit.
    unfold bind at 1.
    assert (Hlog : exists e, isCore e = false /\
      (if bool_decide (contracts.LastPlugin r = "")
       then logf LInfo "sending document: %v complete response" [VStr docID]
       else logf LInfo "sending reply for plugin update: %v"
              [VStr (contracts.LastPlugin r)]) w
      = Some (tt, addTrace [e] w)).
    { destruct (bool_decide (contracts.LastPlugin r = ""));
        eexists (EvLog _ _ _); (split; [reflexivity|]); reflexivity. }
    destruct Hlog as (e & He & ->).
    unfold bind at 1.
    destruct (handleCloudwatchPlugin_run ctx (contracts.PluginResults r)
                docID (addTrace [e] w)) as (t1 & -> & Ht1).
    rewrite addTrace_addTrace.
    unfold bind at 1, send at 1. cbn [chanClosed addTrace]. rewrite Hopen.
    match goal with
    | |- context [drain _ _ _ acts ?b1 ?w1] =>
        destruct (IH b1 w1) as (t & -> & Ht); [reflexivity|]
    end.
    exists (([e] ++ t1) ++ EvSend r :: t). split.
    + cbn. rewrite <- !app_assoc. reflexivity.
    + rewrite !coreEvents_app, Ht1. cbn. rewrite He. cbn.
      now rewrite <- Ht.
Qed.

Lemma processCommand_run ctx creator flag d w :
  let docID := model.DocumentID (model.DocumentInformation d) in
  let instID := model.InstanceID (model.DocumentInformation d) in
  let store :=
    executer.NewDocumentFileStore ctx instID docID
      appconfig.DefaultLocationOfCurrent d in
  let acts := executer.Run (creator ctx) flag store in
  chanClosed w = false ->
  exists t,
    processCommand ctx creator flag d w
    = Some (tt, afterCommand store acts t w)
    /\ coreEvents t =
         EvMoveDocumentState docID instID appconfig.DefaultLocationOfPending
           appconfig.DefaultLocationOfCurrent
         :: map (actionEvent store) acts
         ++ [ if endsInReboot false acts then EvRequestPendingReboot
              else EvMoveDocumentState docID instID
                     appconfig.DefaultLocationOfCurrent
                     appconfig.DefaultLocationOfCompleted ].
Proof.
  intros docID instID store acts Hopen.
  unfold processCommand. fold docID instID store acts.
  unfold bind at 1, MoveDocumentState at 1, modify.
  unfold bind at 1, logf at 1, modify.
  unfold bind at 1.
  match goal with
  | |- context [drain _ _ _ acts false ?w1] =>
      destruct (drain_run ctx store docID acts false w1) as (t & -> & Ht);
        [exact Hopen|]
  end.
  unfold afterCommand.
  destruct (endsInReboot false acts) eqn:Hre.
  - unfold bind, logf, RequestPendingReboot, modify.
    eexists (_ :: _ :: t ++ [_; _]). split.
    + unfold record. cbn -[docmanager.MoveDocumentState].
      rewrite <- !app_assoc. reflexivity.
    + cbn -[docmanager.MoveDocumentState]. rewrite coreEvents_app, Ht.
      reflexivity.
  - unfold bind, logf, MoveDocumentState, modify.
    eexists (_ :: _ :: t ++ [_; _]). split.
    + unfold record. cbn -[docmanager.MoveDocumentState].
      rewrite <- !app_assoc. reflexivity.
    + cbn -[docmanager.MoveDocumentState]. rewrite coreEvents_app, Ht.
      reflexivity.
Qed.

Lemma applySaves_lookup store acts fs i l k :
  applySaves store acts fs i l !! k
  = if decide (i = executer.instanceID store
               ∧ l = executer.location store
               ∧ k = executer.documentID store)
    then match last (executer.saved acts) with
         | Some d => Some d
         | None => fs i l !! k
         end
    else fs i l !! k.
Proof.
  revert fs. induction acts as [|[d|r] acts IH]; intros fs.
  - cbn. now destruct (decide _).
  - change (applySaves store (executer.Save d :: acts) fs)
      with (applySaves store acts
              (docmanager.PersistData (executer.documentID store)
                 (executer.instanceID store) (executer.location store) d fs)).
    rewrite IH.
    change (executer.saved (executer.Save d :: acts))
      with (d :: executer.saved acts).
    rewrite last_cons, PersistData_lookup.
    destruct (decide _); [|reflexivity].
    now destruct (last (executer.saved acts)).
  - apply IH.
Qed.

Lemma endsInReboot_none acts :
  Forall (fun r => contracts.Status r
                   <> contracts.ResultStatusSuccessAndReboot)
    (executer.emitted acts) ->
  endsInReboot false acts = false.
Proof.
  intros Hall. unfold endsInReboot.
  destruct (last (executer.emitted acts)) as [r|] eqn:E; [|reflexivity].
  apply last_Some in E as [l' E]. rewrite E in Hall.
  apply Forall_app in Hall as [_ Hr]. inversion Hr; subst.
  now apply bool_decide_eq_false.
Qed.

(** C1: the body of a command job first moves the document from pending
    to current, then forwards every result of the executer, in order, on
    the output channel, and, when no result carried the success-and-reboot
    status, finally moves the document from current to completed. *)
Theorem processCommand_moves_forwards_completes
  (ctx : context_T) (creator : ExecuterCreator) (flag : task.CancelFlag)
  (d : model.DocumentState) (w : World) :
  let docID := model.DocumentID (model.DocumentInformation d) in
  let instID := model.InstanceID (model.DocumentInformation d) in
  let store :=
    executer.NewDocumentFileStore ctx instID docID
      appconfig.DefaultLocationOfCurrent d in
  let acts := executer.Run (creator ctx) flag store in
  let noReboot :=
    Forall (fun r => contracts.Status r
                     <> contracts.ResultStatusSuccessAndReboot)
      (executer.emitted acts) in
  chanClosed w = false ->
  exists w' t final,
    processCommand ctx creator flag d w = Some (tt, w') /\
    trace w' = trace w ++ t /\
    coreEvents t =
      EvMoveDocumentState docID instID appconfig.DefaultLocationOfPending
        appconfig.DefaultLocationOfCurrent
      :: map (actionEvent store) acts ++ [final] /\
    resChan w' = resChan w ++ executer.emitted acts /\
    (noReboot ->
     final = EvMoveDocumentState docID instID
               appconfig.DefaultLocationOfCurrent
               appconfig.DefaultLocationOfCompleted /\
     files w' instID appconfig.DefaultLocationOfPending !! docID = None /\
     files w' instID appconfig.DefaultLocationOfCurrent !! docID = None /\
     forall d0,
       files w instID appconfig.DefaultLocationOfPending !! docID = Some d0 ->
       files w' instID appconfig.DefaultLocationOfCompleted !! docID
       = Some (default d0 (last (executer.saved acts)))).
Proof.
  intros docID instID store acts noReboot Hopen.
  destruct (processCommand_run ctx creator flag d w Hopen) as (t & Hrun & Ht).
  fold docID instID store acts in Hrun, Ht.
  eexists; exists t; eexists. split; [exact Hrun|].
  split; [reflexivity|]. split; [exact Ht|]. split; [reflexivity|].
  intros Hno. rewrite (endsInReboot_none acts Hno).
  split; [reflexivity|].
  unfold afterCommand. rewrite (endsInReboot_none acts Hno).
  cbn [files executer.documentID executer.instanceID store
       executer.NewDocumentFileStore].
  split; [|split].
  - rewrite MoveDocumentState_other by (right; split; discriminate).
    rewrite applySaves_lookup.
    rewrite decide_False by (intros (_ & ? & _); discriminate).
    apply MoveDocumentState_source. discriminate.
  - apply MoveDocumentState_source. discriminate.
  - intros d0 Hd0. apply MoveDocumentState_target.
    rewrite applySaves_lookup. rewrite decide_True by auto.
    rewrite (MoveDocumentState_target _ _ _ _ _ d0 Hd0).
    now destruct (last (executer.saved acts)).
Qed.


(** *** [Stop] *)

Lemma interleave_nil_r {A} sched (g : list A) : interleave sched g [] = g.
Proof. destruct sched, g; cbn; try reflexivity. now rewrite app_nil_r. Qed.

Lemma interleave_nil_l {A} sched (g : list A) : interleave sched [] g = g.
Proof. destruct sched, g; reflexivity. Qed.

Lemma interleave_sound {A} sched (g1 g2 : list A) :
  Interleaving g1 g2 (interleave sched g1 g2).
Proof.
  assert (Hl : forall g : list A, Interleaving g [] g)
    by (intros g; induction g; now constructor).
  assert (Hr : forall g : list A, Interleaving [] g g)
    by (intros g; induction g; now constructor).
  assert (Happ : forall h1 h2 : list A, Interleaving h1 h2 (h1 ++ h2)).
  { intros h1. induction h1; intros; cbn; [apply Hr | now constructor]. }
  revert g1 g2. induction sched as [|c sched IH]; intros g1 g2; cbn.
  - apply Happ.
  - destruct g1 as [|a g1]; [apply Hr|].
    destruct g2 as [|b g2]; [apply Hl|].
    destruct c; constructor; apply IH.
Qed.

(** Every interleaving of two goroutines is the one of some schedule. *)
Lemma interleave_complete {A} (g1 g2 l : list A) :
  Interleaving g1 g2 l -> exists sched, interleave sched g1 g2 = l.
Proof.
  induction 1 as [|a g1 g2 l _ [sched IH]|b g1 g2 l _ [sched IH]].
  - now exists [].
  - exists (true :: sched). cbn. destruct g2.
    + now rewrite interleave_nil_r in IH; subst.
    + now rewrite IH.
  - exists (false :: sched). cbn. destruct g1.
    + now rewrite interleave_nil_l in IH; subst.
    + now rewrite IH.
Qed.

Lemma hardStopTimeout_value : hardStopTimeout = 4 * 1000000000.
Proof. reflexivity. Qed.

(** A product that fits in an [int64] is not wrapped. *)
Lemma time_mul_exact a b :
  - 2 ^ 63 <= a * b < 2 ^ 63 -> time.mul a b = a * b.
Proof.
  intros H. unfold time.mul, wrap64.
  rewrite Z.mod_small; lia.
Qed.

(** C7: [Stop] takes the configured soft-stop timeout for a soft stop and
    four seconds otherwise, shuts down the command pool and the cancel pool
    with that timeout, and closes the output channel only when both
    shutdowns have returned, however the two goroutines interleave. *)
Theorem Stop_shuts_both_pools_then_closes
  (sched : list bool) (p : EngineProcessor) (ctx : context_T)
  (stopType : contracts.StopType) (w : World) :
  let waitTimeout :=
    match stopType with
    | contracts.StopTypeSoftStop =>
        time.mul (appconfig.StopTimeoutMillis (appconfig.Mds (AppConfig ctx)))
          time.Millisecond
    | contracts.StopTypeHardStop => 4 * time.Second
    end in
  context p = Some ctx ->
  chanClosed w = false ->
  exists w' shutdowns,
    Stop sched p stopType w = Some (tt, w') /\
    trace w' = trace w ++ shutdowns ++ [EvClose] /\
    Interleaving (shutdownEvents (sendCommandPool p) waitTimeout)
      (shutdownEvents (cancelCommandPool p) waitTimeout) shutdowns /\
    chanClosed w' = true /\
    resChan w' = resChan w /\
    task.isShutdown (pools w' (sendCommandPool p)) = true /\
    task.isShutdown (pools w' (cancelCommandPool p)) = true.
Proof.
  intros waitTimeout Hctx Hopen.
  assert (Hwait : forall w0,
    (if bool_decide (stopType = contracts.StopTypeSoftStop)
     then let* ctx := deref (context p) in
          ret (time.mul
                 (appconfig.StopTimeoutMillis (appconfig.Mds (AppConfig ctx)))
                 time.Millisecond)
     else ret hardStopTimeout) w0 = Some (waitTimeout, w0)).
  { intros w0. rewrite Hctx. subst waitTimeout. now destruct stopType. }
  unfold Stop. unfold bind at 1. rewrite Hwait. clear Hwait.
  assert (Hrun : exists w',
    (runSteps
       (interleave sched (shutdownAndWait (sendCommandPool p) waitTimeout)
          (shutdownAndWait (cancelCommandPool p) waitTimeout)) >> closeChan) w
    = Some (tt, w') /\
    trace w' = trace w ++
               interleave sched
                 (shutdownEvents (sendCommandPool p) waitTimeout)
                 (shutdownEvents (cancelCommandPool p) waitTimeout)
               ++ [EvClose] /\
    chanClosed w' = true /\
    resChan w' = resChan w /\
    task.isShutdown (pools w' (sendCommandPool p)) = true /\
    task.isShutdown (pools w' (cancelCommandPool p)) = true).
  { generalize waitTimeout. intros t.
    destruct (sendCommandPool p), (cancelCommandPool p);
      destruct sched as [|[] [|[] [|[] sched]]];
      cbn [interleave shutdownAndWait shutdownEvents app];
      rewrite ?interleave_nil_l, ?interleave_nil_r;
      unfold bind, closeChan, modify, record;
      cbn -[task.shutdownBegin task.shutdownEnd];
      rewrite Hopen; (eexists; split; [reflexivity|]);
      cbn; rewrite <- ?app_assoc; repeat split. }
  destruct Hrun as (w' & Hrun & Htrace & Hclosed & Hchan & Hs & Hc).
  exists w'. eexists. split; [exact Hrun|]. split; [exact Htrace|].
  split; [apply interleave_sound|]. auto.
Qed.

(** *** Recovery of the in-progress documents *)

Lemma filter_concerns_true k e t :
  concerns k e = true ->
  filter (concerns k) (e :: t) = e :: filter (concerns k) t.
Proof. intros H. rewrite filter_cons, H. reflexivity. Qed.

Lemma filter_concerns_false k e t :
  concerns k e = false ->
  filter (concerns k) (e :: t) = filter (concerns k) t.
Proof. intros H. rewrite filter_cons, H. reflexivity. Qed.

Ltac concerns_filter :=
  cbn [app];
  repeat first
    [ rewrite filter_nil
    | rewrite filter_concerns_true
        by (cbn; apply bool_decide_eq_true_2; congruence)
    | rewrite filter_concerns_false
        by (cbn; try reflexivity; apply bool_decide_eq_false_2; congruence) ].

Lemma processInProgressDocument_run p ctx instID f doc w :
  context p = Some ctx ->
  files w instID appconfig.DefaultLocationOfCurrent !! f = Some doc ->
  model.DocumentID (model.DocumentInformation doc) = f ->
  exists w' t,
    processInProgressDocument p (AppConfig ctx) instID f w = Some (tt, w') /\
    trace w' = trace w ++ t /\
    resChan w' = resChan w /\
    (forall k, k <> f -> filter (concerns k) t = []) /\
    (forall i l k, k <> f -> files w' i l !! k = files w i l !! k) /\
    inProgressOutcome p ctx instID f doc t (files w').
Proof.
  intros Hctx Hfile Hid.
  unfold processInProgressDocument, inProgressOutcome, submit, bind, logf,
    gets, modify, MoveDocumentState, PersistData, deref, ret,
    docmanager.GetDocumentInterimState, modify.
  rewrite Hctx.
  cbn -[docmanager.MoveDocumentState docmanager.PersistData task.Submit
        filter poolSubmit].
  rewrite Hfile.
  cbn -[docmanager.MoveDocumentState docmanager.PersistData task.Submit
        filter poolSubmit].
  rewrite ?Hid.
  remember (model.setRunCount
              (wrap64 (model.RunCount (model.DocumentInformation doc) + 1))
              doc)
    as doc' eqn:Hdoc'.
  assert (Hid' : model.DocumentID (model.DocumentInformation doc') = f)
    by (subst doc'; exact Hid).
  destruct (bool_decide (model.RunCount (model.DocumentInformation doc)
                         >= appconfig.CommandRetryLimit
                              (appconfig.Mds (AppConfig ctx)))).
  - eexists; eexists. split; [reflexivity|].
    cbn -[docmanager.MoveDocumentState filter].
    split; [rewrite <- app_assoc; reflexivity|].
    split; [reflexivity|].
    split; [intros k Hk; now concerns_filter|].
    split; [intros i l k Hk; apply MoveDocumentState_other; left; congruence|].
    split; [now concerns_filter|].
    split; [apply MoveDocumentState_source; discriminate|].
    now apply MoveDocumentState_target.
  - destruct (isSupportedDocumentType p (model.DocumentType' doc)).
    + rewrite poolSubmit_run.
      cbn -[docmanager.MoveDocumentState docmanager.PersistData task.Submit
            filter].
      destruct (task.Submit _ _ _).1 as [e|] eqn:Hv.
      * eexists; eexists. split; [reflexivity|].
        cbn -[docmanager.MoveDocumentState docmanager.PersistData filter].
        split; [rewrite <- !app_assoc; reflexivity|].
        split; [reflexivity|].
        split; [intros k Hk; now concerns_filter|].
        split.
        { intros i l k Hk.
          rewrite MoveDocumentState_other by (left; congruence).
          rewrite PersistData_lookup.
          now rewrite decide_False by (intros (_ & _ & ?); congruence). }
        exists (Some e). split; [now concerns_filter|].
        split; [apply MoveDocumentState_source; discriminate|].
        apply MoveDocumentState_target. rewrite PersistData_lookup.
        now rewrite decide_True.
      * eexists; eexists. split; [reflexivity|].
        cbn -[docmanager.MoveDocumentState docmanager.PersistData filter].
        split; [rewrite <- !app_assoc; reflexivity|].
        split; [reflexivity|].
        split; [intros k Hk; now concerns_filter|].
        split.
        { intros i l k Hk. rewrite PersistData_lookup.
          now rewrite decide_False by (intros (_ & _ & ?); congruence). }
        exists None. split; [now concerns_filter|].
        rewrite PersistData_lookup. now rewrite decide_True.
    + eexists; eexists. split; [reflexivity|].
      cbn -[docmanager.MoveDocumentState docmanager.PersistData filter].
      split; [rewrite <- !app_assoc; reflexivity|].
      split; [reflexivity|].
      split; [intros k Hk; now concerns_filter|].
      split.
      { intros i l k Hk. rewrite PersistData_lookup.
        now rewrite decide_False by (intros (_ & _ & ?); congruence). }
      split; [now concerns_filter|].
      rewrite PersistData_lookup. now rewrite decide_True.
Qed.

(** The outcome for [f] looks at the calls that concern [f] and at the
    files named [f], and at nothing else. *)
Lemma inProgressOutcome_ext p ctx instID f doc t t' fs fs' :
  filter (concerns f) t = filter (concerns f) t' ->
  (forall l, fs instID l !! f = fs' instID l !! f) ->
  inProgressOutcome p ctx instID f doc t fs ->
  inProgressOutcome p ctx instID f doc t' fs'.
Proof.
  intros Ht Hfs. unfold inProgressOutcome. rewrite <- Ht, <- !Hfs. auto.
Qed.

Lemma forEach_processInProgressDocument p ctx instID l :
  context p = Some ctx ->
  NoDup l ->
  forall w,
  (forall g, g ∈ l ->
     exists doc,
       files w instID appconfig.DefaultLocationOfCurrent !! g = Some doc /\
       model.DocumentID (model.DocumentInformation doc) = g) ->
  exists w' t,
    forEach l (processInProgressDocument p (AppConfig ctx) instID) w
    = Some (tt, w') /\
    trace w' = trace w ++ t /\
    resChan w' = resChan w /\
    (forall k, k ∉ l -> filter (concerns k) t = []) /\
    (forall i loc k, k ∉ l -> files w' i loc !! k = files w i loc !! k) /\
    (forall f doc,
       f ∈ l ->
       files w instID appconfig.DefaultLocationOfCurrent !! f = Some doc ->
       inProgressOutcome p ctx instID f doc t (files w')).
Proof.
  intros Hctx Hnodup. induction Hnodup as [|g l Hg Hnodup IH]; intros w Hpre.
  - exists w, []. cbn. unfold ret. rewrite app_nil_r.
    repeat split; auto. intros f doc Hf. inversion Hf.
  - destruct (Hpre g) as (docg & Hdocg & Hidg); [left|].
    destruct (processInProgressDocument_run p ctx instID g docg w
                Hctx Hdocg Hidg)
      as (w1 & t1 & Hrun1 & Htr1 & Hch1 & Hquiet1 & Hframe1 & Hout1).
    destruct (IH w1) as (w' & t2 & Hrun & Htr & Hch & Hquiet & Hframe & Hout).
    { intros k Hk. destruct (Hpre k) as (dk & Hdk & Hidk); [now right|].
      exists dk. split; [|exact Hidk].
      rewrite Hframe1; [exact Hdk | intros ->; contradiction]. }
    exists w', (t1 ++ t2). cbn [forEach]. unfold bind. rewrite Hrun1.
    split; [exact Hrun|].
    split; [rewrite Htr, Htr1; now rewrite app_assoc|].
    split; [congruence|].
    split; [|split].
    + intros k Hk. apply not_elem_of_cons in Hk as [Hkg Hkl].
      now rewrite filter_app, Hquiet1, Hquiet.
    + intros i loc k Hk. apply not_elem_of_cons in Hk as [Hkg Hkl].
      now rewrite Hframe, Hframe1.
    + intros f doc Hf Hdoc. destruct (decide (f = g)) as [->|Hne].
      * assert (doc = docg) by congruence. subst doc.
        apply (inProgressOutcome_ext _ _ _ _ _ t1 _ (files w1)); auto.
        -- now rewrite filter_app, (Hquiet g Hg), app_nil_r.
        -- intros loc. now rewrite Hframe.
      * apply elem_of_cons in Hf as [Hf|Hf]; [contradiction|].
        apply (inProgressOutcome_ext _ _ _ _ _ t2 _ (files w')); auto.
        -- now rewrite filter_app, (Hquiet1 f Hne).
        -- apply Hout; [exact Hf|]. now rewrite Hframe1.
Qed.

(** The whole pass over the in-progress documents. *)
Lemma processInProgressDocuments_run p ctx instID w f doc :
  context p = Some ctx ->
  namedByID (files w instID appconfig.DefaultLocationOfCurrent) ->
  files w instID appconfig.DefaultLocationOfCurrent !! f = Some doc ->
  exists w' t,
    processInProgressDocuments p instID w = Some (tt, w') /\
    trace w' = trace w ++ t /\
    resChan w' = resChan w /\
    inProgressOutcome p ctx instID f doc t (files w').
Proof.
  intros Hctx Hnamed Hdoc.
  unfold processInProgressDocuments, bind, deref, gets. rewrite Hctx.
  unfold ret at 1. rewrite (IsDirEmpty_false _ _ _ Hdoc).
  destruct (forEach_processInProgressDocument p ctx instID
              (docmanager.ReadDir
                 (files w instID appconfig.DefaultLocationOfCurrent))
              Hctx (ReadDir_NoDup _) w)
    as (w' & t & Hrun & Htr & Hch & _ & _ & Hout).
  { intros g Hg. apply ReadDir_elem in Hg as [dg Hdg].
    exists dg. split; [exact Hdg | exact (Hnamed _ _ Hdg)]. }
  exists w', t. repeat split; auto.
  apply Hout; [|exact Hdoc]. apply ReadDir_elem. eauto.
Qed.

(** C2, as the code has it: on recovery, a document of a supported type
    found in current whose stored run count is below the retry limit is
    persisted in current with its run count incremented by exactly one and
    then offered to the command pool; one whose stored run count is at
    least the retry limit is moved to corrupt as it is, without increment,
    without being enqueued, and nothing is sent on the output channel. *)
Theorem recovery_increments_or_quarantines
  (p : EngineProcessor) (ctx : context_T) (instID : string) (w : World)
  (f : string) (doc : model.DocumentState) :
  let limit := appconfig.CommandRetryLimit (appconfig.Mds (AppConfig ctx)) in
  let runs := model.RunCount (model.DocumentInformation doc) in
  let doc' := model.setRunCount (runs + 1) doc in
  let toCorrupt :=
    EvMoveDocumentState f instID appconfig.DefaultLocationOfCurrent
      appconfig.DefaultLocationOfCorrupt in
  context p = Some ctx ->
  isInt64 limit -> isInt64 runs ->
  namedByID (files w instID appconfig.DefaultLocationOfCurrent) ->
  files w instID appconfig.DefaultLocationOfCurrent !! f = Some doc ->
  isSupportedDocumentType p (model.DocumentType' doc) = true ->
  exists w' t,
    processInProgressDocuments p instID w = Some (tt, w') /\
    trace w' = trace w ++ t /\
    resChan w' = resChan w /\
    (runs >= limit ->
       filter (concerns f) t = [toCorrupt] /\
       files w' instID appconfig.DefaultLocationOfCurrent !! f = None /\
       files w' instID appconfig.DefaultLocationOfCorrupt !! f = Some doc) /\
    (runs < limit ->
       model.RunCount (model.DocumentInformation doc') = runs + 1 /\
       exists err,
         filter (concerns f) t =
           EvPersistData f instID appconfig.DefaultLocationOfCurrent doc'
           :: EvPoolSubmit (sendCommandPool p) (jobIDOf doc')
                (ProcessCommandJob ctx (executerCreator p) doc') err
           :: match err with Some _ => [toCorrupt] | None => [] end /\
         match err with
         | None =>
             files w' instID appconfig.DefaultLocationOfCurrent !! f
             = Some doc'
         | Some _ =>
             files w' instID appconfig.DefaultLocationOfCurrent !! f = None /\
             files w' instID appconfig.DefaultLocationOfCorrupt !! f
             = Some doc'
         end).
Proof.
  intros limit runs doc' toCorrupt Hctx Hlimit Hruns Hnamed Hdoc Hsup.
  destruct (processInProgressDocuments_run p ctx instID w f doc
              Hctx Hnamed Hdoc) as (w' & t & Hrun & Htr & Hch & Hout).
  exists w', t. split; [exact Hrun|]. split; [exact Htr|].
  split; [exact Hch|].
  unfold inProgressOutcome in Hout. rewrite Hsup in Hout.
  fold limit runs toCorrupt in Hout.
  split; intros Hcmp.
  - now rewrite bool_decide_eq_true_2 in Hout by exact Hcmp.
  - rewrite bool_decide_eq_false_2 in Hout by lia.
    assert (Hwrap : wrap64 (runs + 1) = runs + 1).
    { unfold isInt64 in *. unfold wrap64. rewrite Z.mod_small; lia. }
    rewrite Hwrap in Hout. fold doc' in Hout.
    split; [reflexivity | exact Hout].
Qed.

(** *** More on [isSupportedDocumentType] and [handleCloudwatchPlugin] *)

(** The loop of [isSupportedDocumentType] is membership in
    [supportedDocTypes]; with no supported type nothing is supported. *)
Lemma isSupportedDocumentType_elem (p : EngineProcessor)
  (documentType : model.DocumentType) :
  (isSupportedDocumentType p documentType = true
   <-> documentType ∈ supportedDocTypes p)
  /\ (supportedDocTypes p = [] -> isSupportedDocumentType p documentType = false).
Proof.
  unfold isSupportedDocumentType. split.
  - induction (supportedDocTypes p) as [|d l IH]; cbn.
    + split; [discriminate | intros H; inversion H].
    + rewrite orb_true_iff, IH, bool_decide_eq_true, elem_of_cons.
      reflexivity.
  - intros ->. reflexivity.
Qed.

(** A loop whose body only adds to the trace adds the traces of its
    rounds. *)
Lemma forEach_addTrace_map {A} (body : A -> M unit) (ev : A -> list Event) l :
  (forall x w, body x w = Some (tt, addTrace (ev x) w)) ->
  forall w, forEach l body w = Some (tt, addTrace (concat (map ev l)) w).
Proof.
  intros Hbody. induction l as [|x l IH]; intros w.
  - cbn. unfold ret. now rewrite addTrace_nil.
  - cbn [forEach map concat]. unfold bind. rewrite Hbody, IH.
    now rewrite addTrace_addTrace.
Qed.

Lemma lrpmInvocations_app t1 t2 :
  lrpmInvocations (t1 ++ t2) = lrpmInvocations t1 ++ lrpmInvocations t2.
Proof. apply omap_app. Qed.

(** X1: [handleCloudwatchPlugin] hands a plugin result to the long-running
    plugin manager exactly when it carries the CloudWatch plugin name, under
    its id in the map and with the orchestration directory of the document
    and the plugin; it touches nothing but the log. *)
Theorem handleCloudwatchPlugin_invokes_cloudwatch_only
  (ctx : context_T) (prs : gmap string contracts.PluginResult)
  (documentID : string) (w : World) :
  let instanceID :=
    match platform_InstanceID with inl i => i | inr _ => "" end in
  let dirOf (res : contracts.PluginResult) :=
    fileutil_BuildPath
      (filepath_Join
         [DefaultDataStorePath; instanceID; DefaultDocumentRootDirName;
          appconfig.OrchestrationRootDir (appconfig.Agent (AppConfig ctx))])
      [documentID; contracts.PluginName res] in
  exists t,
    handleCloudwatchPlugin ctx prs documentID w = Some (tt, addTrace t w) /\
    coreEvents t = [] /\
    (forall ID res dir,
        (ID, res, dir) ∈ lrpmInvocations t <->
        prs !! ID = Some res /\
        contracts.PluginName res = PluginNameCloudWatch /\
        dir = dirOf res) /\
    NoDup (lrpmInvocations t).*1.*1.
Proof using Type.
  intros instanceID dirOf.
  set (ev := fun x : string * contracts.PluginResult =>
    if bool_decide (contracts.PluginName x.2 = PluginNameCloudWatch)
    then [EvLog LInfo "Found %v to invoke lrpm invoker"
            [VStr (contracts.PluginName x.2)];
          EvLrpmInvoke x.1 x.2 (dirOf x.2)]
    else []).
  assert (Hloop : forall l w0, exists t,
    forEach l (fun '(ID, pluginRes) =>
      if bool_decide (contracts.PluginName pluginRes = PluginNameCloudWatch)
      then
        logf LInfo "Found %v to invoke lrpm invoker"
          [VStr (contracts.PluginName pluginRes)] >>
        modify (record (EvLrpmInvoke ID pluginRes (dirOf pluginRes)))
      else ret tt) w0 = Some (tt, addTrace t w0) /\
    coreEvents t = [] /\
    lrpmInvocations t =
      omap (fun '(ID, res) =>
              if bool_decide (contracts.PluginName res = PluginNameCloudWatch)
              then Some (ID, res, dirOf res) else None) l).
  { intros l w0. exists (concat (map ev l)). split; [|split].
    - apply (forEach_addTrace_map _ ev). intros [ID res] w1. unfold ev. cbn.
      destruct (bool_decide (contracts.PluginName res = PluginNameCloudWatch)).
      + unfold bind, logf, modify, record, addTrace. cbn.
        now rewrite <- !app_assoc.
      + unfold ret. now rewrite addTrace_nil.
    - induction l as [|[ID res] l IH]; [reflexivity|]. cbn.
      rewrite coreEvents_app, IH, app_nil_r. unfold ev. cbn.
      now destruct (bool_decide _).
    - induction l as [|[ID res] l IH]; [reflexivity|]. cbn [map concat omap].
      rewrite lrpmInvocations_app, IH. unfold ev. cbn.
      now destruct (bool_decide _). }
  destruct (Hloop (map_to_list prs) w) as (t & Hrun & Hcore & Hinv).
  exists t. split; [exact Hrun|]. split; [exact Hcore|]. split.
  - intros ID res dir. rewrite Hinv, list_elem_of_omap. split.
    + intros ([ID' res'] & Hin & Hf).
      destruct (bool_decide (contracts.PluginName res' = PluginNameCloudWatch))
        eqn:E; [|discriminate].
      injection Hf as -> -> <-. apply bool_decide_eq_true in E.
      apply elem_of_map_to_list in Hin. auto.
    + intros (Hin & Hname & ->). exists (ID, res). split.
      * now apply elem_of_map_to_list.
      * now rewrite bool_decide_eq_true_2.
  - rewrite Hinv. clear Hrun Hcore Hinv.
    generalize (NoDup_fst_map_to_list prs). generalize (map_to_list prs).
    intros l. induction l as [|[ID res] l IH]; intros Hnd; cbn;
      [constructor|].
    cbn in Hnd. apply NoDup_cons in Hnd as [Hnotin Hnd].
    destruct (bool_decide (contracts.PluginName res = PluginNameCloudWatch));
      [|now apply IH].
    cbn. apply NoDup_cons. split; [|now apply IH].
    intros Hin. apply Hnotin.
    apply list_elem_of_fmap in Hin as ([ID' r'] & Heq & Hin).
    cbn in Heq. subst ID'.
    apply list_elem_of_fmap in Hin as ([[ID2 r2] d2] & Heq & Hin).
    cbn in Heq. injection Heq as <- <-.
    apply list_elem_of_omap in Hin as ([ID3 r3] & Hin & Hf).
    destruct (bool_decide _); [|discriminate]. injection Hf as -> -> _.
    apply list_elem_of_fmap. now exists (ID, r').
Qed.


(** *** [Start] as a whole *)

Lemma recoveredFrom_refl sp w : recoveredFrom sp w w.
Proof.
  repeat split; auto. exists []. split; [now rewrite app_nil_r | constructor].
Qed.

Lemma recoveredFrom_trans sp w1 w2 w3 :
  recoveredFrom sp w1 w2 -> recoveredFrom sp w2 w3 -> recoveredFrom sp w1 w3.
Proof.
  intros (Hc1 & Hk1 & Hr1 & Hp1 & t1 & Ht1 & Hf1)
         (Hc2 & Hk2 & Hr2 & Hp2 & t2 & Ht2 & Hf2).
  repeat split; try congruence.
  - intros r Hr. now rewrite Hp2, Hp1.
  - exists (t1 ++ t2). split.
    + now rewrite Ht2, Ht1, app_assoc.
    + now apply Forall_app.
Qed.

Lemma recovers_ret {A} sp (a : A) : recovers sp (ret a).
Proof. intros w. exists a, w. split; [reflexivity | apply recoveredFrom_refl]. Qed.

Lemma recovers_bind {A B} sp (m : M A) (k : A -> M B) :
  recovers sp m -> (forall a, recovers sp (k a)) -> recovers sp (bind m k).
Proof.
  intros Hm Hk w. destruct (Hm w) as (a & w1 & Hrun1 & H1).
  destruct (Hk a w1) as (b & w2 & Hrun2 & H2).
  exists b, w2. unfold bind. rewrite Hrun1. split; [exact Hrun2|].
  eapply recoveredFrom_trans; eassumption.
Qed.

Lemma recovers_gets {A} sp (f : World -> A) : recovers sp (gets f).
Proof. intros w. exists (f w), w. split; [reflexivity | apply recoveredFrom_refl]. Qed.

Lemma recovers_record sp (e : Event) (f : docmanager.Files -> docmanager.Files) :
  isRecoveryEvent sp e = true ->
  recovers sp (modify (fun w => record e (setFiles (f (files w)) w))).
Proof.
  intros He w. eexists tt, _. split; [reflexivity|].
  repeat split; auto. exists [e]. split; [reflexivity | now constructor].
Qed.

Lemma recovers_logf sp lvl fmt args : recovers sp (logf lvl fmt args).
Proof.
  intros w. eexists tt, _. split; [reflexivity|].
  repeat split; auto. eexists [_]. split; [reflexivity | now constructor].
Qed.

Lemma recovers_PersistData sp docID instID loc d :
  recovers sp (PersistData docID instID loc d).
Proof.
  apply (recovers_record sp _ (docmanager.PersistData docID instID loc d)).
  reflexivity.
Qed.

Lemma recovers_MoveDocumentState sp docID instID src dst :
  recovers sp (MoveDocumentState docID instID src dst).
Proof.
  apply (recovers_record sp _
           (docmanager.MoveDocumentState docID instID src dst)).
  reflexivity.
Qed.

Lemma recovers_poolSubmit sp id b : recovers sp (poolSubmit sp id b).
Proof.
  intros w. rewrite poolSubmit_run. eexists _, _. split; [reflexivity|].
  repeat split; auto.
  - intros r Hr. cbn. now rewrite decide_False.
  - eexists [_]. split; [reflexivity|]. constructor; [|constructor].
    cbn. now apply bool_decide_eq_true_2.
Qed.

Lemma recovers_forEach {A} sp (l : list A) (body : A -> M unit) :
  (forall x, recovers sp (body x)) -> recovers sp (forEach l body).
Proof.
  intros Hbody. induction l as [|x l IH]; cbn [forEach].
  - apply recovers_ret.
  - apply recovers_bind; [apply Hbody | intros _; exact IH].
Qed.

Lemma recovers_submit p ctx d :
  context p = Some ctx -> recovers (sendCommandPool p) (submit p d).
Proof.
  intros Hctx. unfold submit. rewrite Hctx.
  apply recovers_bind; [apply recovers_ret | intros c].
  apply recovers_poolSubmit.
Qed.

Lemma recovers_Submit p ctx d :
  context p = Some ctx -> recovers (sendCommandPool p) (Submit p d).
Proof.
  intros Hctx. unfold Submit. rewrite Hctx.
  apply recovers_bind; [apply recovers_ret | intros _].
  apply recovers_bind; [apply recovers_PersistData | intros _].
  apply recovers_bind; [now apply (recovers_submit p ctx) | intros [e|]].
  - apply recovers_bind; [apply recovers_logf | intros _].
    apply recovers_bind; [apply recovers_MoveDocumentState | intros _].
    apply recovers_ret.
  - apply recovers_ret.
Qed.

Lemma recovers_processInProgressDocuments p ctx instID :
  context p = Some ctx ->
  recovers (sendCommandPool p) (processInProgressDocuments p instID).
Proof.
  intros Hctx. unfold processInProgressDocuments. rewrite Hctx.
  apply recovers_bind; [apply recovers_ret | intros c].
  apply recovers_bind; [apply recovers_gets | intros dir].
  destruct (docmanager.IsDirEmpty dir); [apply recovers_logf|].
  apply recovers_forEach. intros f. unfold processInProgressDocument.
  apply recovers_bind; [apply recovers_logf | intros _].
  apply recovers_bind; [apply recovers_gets | intros doc].
  destruct (bool_decide _); [apply recovers_MoveDocumentState|].
  apply recovers_bind; [apply recovers_PersistData | intros _].
  destruct (isSupportedDocumentType _ _); [|apply recovers_ret].
  apply recovers_bind; [apply recovers_logf | intros _].
  apply recovers_bind; [now apply (recovers_submit p ctx) | intros [e|]].
  - apply recovers_bind; [apply recovers_logf | intros _].
    apply recovers_MoveDocumentState.
  - apply recovers_ret.
Qed.

Lemma recovers_processPendingDocuments p ctx instID :
  context p = Some ctx ->
  recovers (sendCommandPool p) (processPendingDocuments p instID).
Proof.
  intros Hctx. unfold processPendingDocuments. rewrite Hctx.
  apply recovers_bind; [apply recovers_ret | intros c].
  apply recovers_bind; [apply recovers_gets | intros dir].
  destruct (docmanager.IsDirEmpty dir); [apply recovers_logf|].
  apply recovers_forEach. intros f.
  apply recovers_bind; [apply recovers_logf | intros _].
  apply recovers_bind; [apply recovers_gets | intros doc].
  destruct (isSupportedDocumentType _ _); [|apply recovers_ret].
  apply recovers_bind; [apply recovers_logf | intros _].
  now apply (recovers_Submit p ctx).
Qed.

(** X2: [Start] never panics, whatever is on disk and in the pools and even
    on a closed channel.  It hands out the channel without an error exactly
    when the processor has a context and the platform knows the instance
    id; otherwise store and pools are as before.  In any case it only
    logs, writes and moves document files and submits to the command pool:
    it sends no result, closes nothing, asks for no reboot and leaves the
    cancel pool alone. *)
Theorem Start_outcome (p : EngineProcessor) (w : World) :
  exists r w',
    Start p w = Some (r, w') /\
    recoveredFrom (sendCommandPool p) w w' /\
    (r = (true, None) <->
     is_Some (context p) /\ exists instanceID, platform_InstanceID = inl instanceID) /\
    (r <> (true, None) ->
     r.1 = false /\ is_Some r.2 /\ files w' = files w /\ pools w' = pools w).
Proof using Type.
  unfold Start. destruct (context p) as [ctx|] eqn:Hctx.
  - destruct platform_InstanceID as [instanceID|msg] eqn:Hinst.
    + assert (Hrec : recovers (sendCommandPool p)
        (processInProgressDocuments p instanceID >>
         processPendingDocuments p instanceID >>
         ret (true, @None StartError))).
      { apply recovers_bind;
          [now apply (recovers_processInProgressDocuments p ctx) | intros _].
        apply recovers_bind;
          [now apply (recovers_processPendingDocuments p ctx) | intros _].
        apply recovers_ret. }
      destruct (Hrec w) as (r & w' & Hrun & Hw').
      assert (r = (true, None)) as ->.
      { unfold bind, ret in Hrun.
        destruct (processInProgressDocuments p instanceID w) as [[[] w1]|];
          [|discriminate].
        destruct (processPendingDocuments p instanceID w1) as [[[] w2]|];
          [|discriminate].
        now injection Hrun as <- _. }
      exists (true, None), w'. split; [exact Hrun|]. split; [exact Hw'|].
      split; [|congruence]. split; eauto.
    + eexists _, _. split; [reflexivity|]. split.
      * destruct (recovers_logf (sendCommandPool p) LError
                    "no instanceID provided, %v" [VStr msg] w)
          as ([] & w' & Hrun & Hw').
        now injection Hrun as <-.
      * split; [|intros _; cbn; eauto].
        split; [discriminate | intros (_ & i & Hi); discriminate].
  - exists (false, Some ErrNotInitialized), w.
    split; [reflexivity|]. split; [apply recoveredFrom_refl|].
    split; [|intros _; cbn; eauto].
    split; [discriminate | intros ([c Hc] & _); discriminate].
Qed.


(** *** Recovery of the pending documents *)

Lemma processPendingDocument_run p ctx instID f doc w :
  context p = Some ctx ->
  files w instID appconfig.DefaultLocationOfPending !! f = Some doc ->
  model.DocumentID (model.DocumentInformation doc) = f ->
  exists w' t,
    processPendingDocument p instID f w = Some (tt, w') /\
    trace w' = trace w ++ t /\
    (forall k, k <> f -> filter (concerns k) t = []) /\
    (forall i l k, k <> f -> files w' i l !! k = files w i l !! k) /\
    pendingOutcome p ctx f doc t (files w) (files w').
Proof.
  intros Hctx Hfile Hid.
  unfold processPendingDocument, pendingOutcome, Submit, submit, bind, logf,
    gets, modify, MoveDocumentState, PersistData, deref, ret,
    docmanager.GetDocumentInterimState, modify.
  rewrite Hctx.
  cbn -[docmanager.MoveDocumentState docmanager.PersistData task.Submit
        filter poolSubmit].
  rewrite Hfile.
  cbn -[docmanager.MoveDocumentState docmanager.PersistData task.Submit
        filter poolSubmit].
  rewrite ?Hid.
  destruct (isSupportedDocumentType p (model.DocumentType' doc)).
  - rewrite poolSubmit_run.
    cbn -[docmanager.MoveDocumentState docmanager.PersistData task.Submit
          filter].
    destruct (task.Submit _ _ _).1 as [e|] eqn:Hv.
    + eexists; eexists. split; [reflexivity|].
      cbn -[docmanager.MoveDocumentState docmanager.PersistData filter].
      split; [rewrite <- !app_assoc; reflexivity|].
      split; [intros k Hk; now concerns_filter|].
      split.
      { intros i l k Hk.
        rewrite MoveDocumentState_other by (left; congruence).
        rewrite PersistData_lookup.
        now rewrite decide_False by (intros (_ & _ & ?); congruence). }
      exists (Some e). split; [now concerns_filter|].
      split; [apply MoveDocumentState_source; discriminate|].
      apply MoveDocumentState_target. rewrite PersistData_lookup.
      now rewrite decide_True.
    + eexists; eexists. split; [reflexivity|].
      cbn -[docmanager.MoveDocumentState docmanager.PersistData filter].
      split; [rewrite <- !app_assoc; reflexivity|].
      split; [intros k Hk; now concerns_filter|].
      split.
      { intros i l k Hk. rewrite PersistData_lookup.
        now rewrite decide_False by (intros (_ & _ & ?); congruence). }
      exists None. split; [now concerns_filter|].
      rewrite PersistData_lookup. now rewrite decide_True.
  - eexists; eexists. split; [reflexivity|].
    cbn -[filter]. split; [reflexivity|].
    split; [intros k Hk; now concerns_filter|].
    split; [reflexivity|].
    split; [now concerns_filter | reflexivity].
Qed.

(** The outcome for [f] looks at the calls that concern [f] and at the
    files named [f], and at nothing else. *)
Lemma pendingOutcome_ext p ctx f doc t t' fs fs' gs gs' :
  filter (concerns f) t = filter (concerns f) t' ->
  (forall i l, fs i l !! f = gs i l !! f) ->
  (forall i l, fs' i l !! f = gs' i l !! f) ->
  pendingOutcome p ctx f doc t fs fs' ->
  pendingOutcome p ctx f doc t' gs gs'.
Proof.
  intros Ht Hfs Hfs'. unfold pendingOutcome. rewrite <- Ht, <- !Hfs'.
  destruct (isSupportedDocumentType p (model.DocumentType' doc)); [auto|].
  intros [H1 H2]. split; [exact H1|]. intros i l.
  now rewrite <- Hfs', <- Hfs.
Qed.

Lemma forEach_processPendingDocument p ctx instID l :
  context p = Some ctx ->
  NoDup l ->
  forall w,
  (forall g, g ∈ l ->
     exists doc,
       files w instID appconfig.DefaultLocationOfPending !! g = Some doc /\
       model.DocumentID (model.DocumentInformation doc) = g) ->
  exists w' t,
    forEach l (processPendingDocument p instID) w = Some (tt, w') /\
    trace w' = trace w ++ t /\
    (forall k, k ∉ l -> filter (concerns k) t = []) /\
    (forall i loc k, k ∉ l -> files w' i loc !! k = files w i loc !! k) /\
    (forall f doc,
       f ∈ l ->
       files w instID appconfig.DefaultLocationOfPending !! f = Some doc ->
       pendingOutcome p ctx f doc t (files w) (files w')).
Proof.
  intros Hctx Hnodup. induction Hnodup as [|g l Hg Hnodup IH]; intros w Hpre.
  - exists w, []. cbn. unfold ret. rewrite app_nil_r.
    repeat split; auto. intros f doc Hf. inversion Hf.
  - destruct (Hpre g) as (docg & Hdocg & Hidg); [left|].
    destruct (processPendingDocument_run p ctx instID g docg w
                Hctx Hdocg Hidg)
      as (w1 & t1 & Hrun1 & Htr1 & Hquiet1 & Hframe1 & Hout1).
    destruct (IH w1) as (w' & t2 & Hrun & Htr & Hquiet & Hframe & Hout).
    { intros k Hk. destruct (Hpre k) as (dk & Hdk & Hidk); [now right|].
      exists dk. split; [|exact Hidk].
      rewrite Hframe1; [exact Hdk | intros ->; contradiction]. }
    exists w', (t1 ++ t2). cbn [forEach]. unfold bind. rewrite Hrun1.
    split; [exact Hrun|].
    split; [rewrite Htr, Htr1; now rewrite app_assoc|].
    split; [|split].
    + intros k Hk. apply not_elem_of_cons in Hk as [Hkg Hkl].
      now rewrite filter_app, Hquiet1, Hquiet.
    + intros i loc k Hk. apply not_elem_of_cons in Hk as [Hkg Hkl].
      now rewrite Hframe, Hframe1.
    + intros f doc Hf Hdoc. destruct (decide (f = g)) as [->|Hne].
      * assert (doc = docg) by congruence. subst doc.
        apply (pendingOutcome_ext _ _ _ _ t1 _ (files w) (files w1)).
        -- now rewrite filter_app, (Hquiet g Hg), app_nil_r.
        -- reflexivity.
        -- intros i loc. now rewrite Hframe.
        -- exact Hout1.
      * apply elem_of_cons in Hf as [Hf|Hf]; [contradiction|].
        apply (pendingOutcome_ext _ _ _ _ t2 _ (files w1) (files w')).
        -- now rewrite filter_app, (Hquiet1 f Hne).
        -- intros i loc. now apply Hframe1.
        -- reflexivity.
        -- apply Hout; [exact Hf|]. now rewrite Hframe1.
Qed.

(** The whole pass over the pending documents. *)
Lemma processPendingDocuments_run p ctx instID w f doc :
  context p = Some ctx ->
  namedByID (files w instID appconfig.DefaultLocationOfPending) ->
  files w instID appconfig.DefaultLocationOfPending !! f = Some doc ->
  exists w' t,
    processPendingDocuments p instID w = Some (tt, w') /\
    trace w' = trace w ++ t /\
    pendingOutcome p ctx f doc t (files w) (files w').
Proof.
  intros Hctx Hnamed Hdoc.
  unfold processPendingDocuments, bind, deref, gets. rewrite Hctx.
  unfold ret at 1. rewrite (IsDirEmpty_false _ _ _ Hdoc).
  destruct (forEach_processPendingDocument p ctx instID
              (docmanager.ReadDir
                 (files w instID appconfig.DefaultLocationOfPending))
              Hctx (ReadDir_NoDup _) w)
    as (w' & t & Hrun & Htr & _ & _ & Hout).
  { intros g Hg. apply ReadDir_elem in Hg as [dg Hdg].
    exists dg. split; [exact Hdg | exact (Hnamed _ _ Hdg)]. }
  exists w', t. split; [exact Hrun|]. split; [exact Htr|].
  apply Hout; [|exact Hdoc]. apply ReadDir_elem. eauto.
Qed.

(** X3: On recovery a pending document whose type is not supported is left
    alone: no file of that name is written or moved in any directory, and
    no job is submitted for it. *)
Theorem pending_unsupported_left_alone
  (p : EngineProcessor) (ctx : context_T) (instID : string) (w : World)
  (f : string) (doc : model.DocumentState) :
  context p = Some ctx ->
  namedByID (files w instID appconfig.DefaultLocationOfPending) ->
  files w instID appconfig.DefaultLocationOfPending !! f = Some doc ->
  isSupportedDocumentType p (model.DocumentType' doc) = false ->
  exists w' t,
    processPendingDocuments p instID w = Some (tt, w') /\
    trace w' = trace w ++ t /\
    filter (concerns f) t = [] /\
    forall i l, files w' i l !! f = files w i l !! f.
Proof.
  intros Hctx Hnamed Hdoc Hsup.
  destruct (processPendingDocuments_run p ctx instID w f doc
              Hctx Hnamed Hdoc) as (w' & t & Hrun & Htr & Hout).
  unfold pendingOutcome in Hout. rewrite Hsup in Hout.
  destruct Hout as [Hquiet Hsame]. exists w', t. auto.
Qed.

(** X4: On recovery a pending document of a supported type goes through
    [Submit] again: it is persisted in the pending directory of its own
    instance id and offered to the command pool under its job-id, with
    [processCommand] on that document as the job; if the pool refuses it,
    it is moved from pending to corrupt. *)
Theorem pending_supported_resubmitted
  (p : EngineProcessor) (ctx : context_T) (instID : string) (w : World)
  (f : string) (doc : model.DocumentState) :
  let docInst := model.InstanceID (model.DocumentInformation doc) in
  context p = Some ctx ->
  namedByID (files w instID appconfig.DefaultLocationOfPending) ->
  files w instID appconfig.DefaultLocationOfPending !! f = Some doc ->
  isSupportedDocumentType p (model.DocumentType' doc) = true ->
  exists w' t err,
    processPendingDocuments p instID w = Some (tt, w') /\
    trace w' = trace w ++ t /\
    filter (concerns f) t =
      EvPersistData f docInst appconfig.DefaultLocationOfPending doc
      :: EvPoolSubmit (sendCommandPool p) (jobIDOf doc)
           (ProcessCommandJob ctx (executerCreator p) doc) err
      :: match err with
         | Some _ =>
             [EvMoveDocumentState f docInst
                appconfig.DefaultLocationOfPending
                appconfig.DefaultLocationOfCorrupt]
         | None => []
         end /\
    match err with
    | None =>
        files w' docInst appconfig.DefaultLocationOfPending !! f = Some doc
    | Some _ =>
        files w' docInst appconfig.DefaultLocationOfPending !! f = None /\
        files w' docInst appconfig.DefaultLocationOfCorrupt !! f = Some doc
    end.
Proof.
  intros docInst Hctx Hnamed Hdoc Hsup.
  destruct (processPendingDocuments_run p ctx instID w f doc
              Hctx Hnamed Hdoc) as (w' & t & Hrun & Htr & Hout).
  unfold pendingOutcome in Hout. rewrite Hsup in Hout.
  destruct Hout as (err & Hevents & Hfiles).
  exists w', t, err. auto.
Qed.


(** *** Panics: a closed channel, a nil context *)

Lemma drain_silent ctx store docID acts b w :
  executer.emitted acts = [] ->
  exists w', drain ctx store docID acts b w = Some (b, w').
Proof.
  revert w. induction acts as [|[d|r] acts IH]; intros w Hnone.
  - eexists. reflexivity.
  - cbn [drain]. unfold bind at 1, PersistData at 1, modify. now apply IH.
  - discriminate Hnone.
Qed.

Lemma drain_closed ctx store docID acts b w :
  chanClosed w = true ->
  executer.emitted acts <> [] ->
  drain ctx store docID acts b w = None.
Proof.
  revert w. induction acts as [|[d|r] acts IH]; intros w Hclosed Hsome.
  - contradiction.
  - cbn [drain]. unfold bind at 1, PersistData at 1, modify.
    apply IH; [exact Hclosed | exact Hsome].
  - cbn [drain]. unfold bind at 1.
    assert (Hlog : exists e,
      (if bool_decide (contracts.LastPlugin r = "")
       then logf LInfo "sending document: %v complete response" [VStr docID]
       else logf LInfo "sending reply for plugin update: %v"
              [VStr (contracts.LastPlugin r)]) w
      = Some (tt, addTrace [e] w)).
    { destruct (bool_decide (contracts.LastPlugin r = ""));
        eexists (EvLog _ _ _); reflexivity. }
    destruct Hlog as (e & ->). unfold bind at 1.
    destruct (handleCloudwatchPlugin_run ctx (contracts.PluginResults r)
                docID (addTrace [e] w)) as (t1 & -> & _).
    unfold bind at 1, send at 1. cbn [chanClosed addTrace].
    now rewrite Hclosed.
Qed.

Lemma processCommand_silent ctx creator flag d w :
  executer.emitted
    (executer.Run (creator ctx) flag
       (executer.NewDocumentFileStore ctx
          (model.InstanceID (model.DocumentInformation d))
          (model.DocumentID (model.DocumentInformation d))
          appconfig.DefaultLocationOfCurrent d)) = [] ->
  exists w', processCommand ctx creator flag d w = Some (tt, w').
Proof using Type.
  intros Hem. unfold processCommand.
  unfold bind at 1, MoveDocumentState at 1, modify.
  unfold bind at 1, logf at 1, modify. unfold bind at 1.
  match goal with
  | |- context [drain ?c ?s ?i ?acts false ?w1] =>
      destruct (drain_silent c s i acts false w1 Hem) as (w' & ->)
  end.
  unfold bind, logf, MoveDocumentState, modify. eexists. reflexivity.
Qed.

Lemma processCommand_closed ctx creator flag d w :
  chanClosed w = true ->
  executer.emitted
    (executer.Run (creator ctx) flag
       (executer.NewDocumentFileStore ctx
          (model.InstanceID (model.DocumentInformation d))
          (model.DocumentID (model.DocumentInformation d))
          appconfig.DefaultLocationOfCurrent d)) <> [] ->
  processCommand ctx creator flag d w = None.
Proof using Type.
  intros Hclosed Hem. unfold processCommand.
  unfold bind at 1, MoveDocumentState at 1, modify.
  unfold bind at 1, logf at 1, modify. unfold bind at 1.
  rewrite drain_closed; [reflexivity | exact Hclosed | exact Hem].
Qed.

(** X5: A command job panics exactly when the output channel has been closed
    and its executer emits a result: the send on the closed channel is the
    only thing in [processCommand] that can go wrong. *)
Theorem processCommand_panics_iff_send_on_closed_channel
  (ctx : context_T) (creator : ExecuterCreator) (flag : task.CancelFlag)
  (d : model.DocumentState) (w : World) :
  let acts :=
    executer.Run (creator ctx) flag
      (executer.NewDocumentFileStore ctx
         (model.InstanceID (model.DocumentInformation d))
         (model.DocumentID (model.DocumentInformation d))
         appconfig.DefaultLocationOfCurrent d) in
  processCommand ctx creator flag d w = None
  <-> chanClosed w = true /\ executer.emitted acts <> [].
Proof using Type.
  intros acts. destruct (chanClosed w) eqn:Hclosed.
  - destruct (executer.emitted acts) as [|r rs] eqn:Hem.
    + split; [|intros [_ H]; contradiction].
      destruct (processCommand_silent ctx creator flag d w Hem) as (w' & ->).
      discriminate.
    + split; [intros _; split; [reflexivity | discriminate]|].
      intros _. apply processCommand_closed; [exact Hclosed|].
      fold acts. rewrite Hem. discriminate.
  - split; [|intros [? _]; discriminate].
    destruct (processCommand_run ctx creator flag d w Hclosed)
      as (t & Hrun & _).
    rewrite Hrun. discriminate.
Qed.



(** X6: [Stop] returns normally exactly when the channel is still open and,
    for a soft stop, the processor has a context: a second [Stop] panics on
    closing the closed channel, whatever the schedule. *)
Theorem Stop_panics_iff
  (sched : list bool) (p : EngineProcessor) (stopType : contracts.StopType)
  (w : World) :
  Stop sched p stopType w = None
  <-> chanClosed w = true
      \/ (stopType = contracts.StopTypeSoftStop /\ context p = None).
Proof.
  unfold Stop. unfold bind at 1.
  assert (Hsteps : forall t,
    (runSteps
       (interleave sched (shutdownAndWait (sendCommandPool p) t)
          (shutdownAndWait (cancelCommandPool p) t)) >> closeChan) w = None
    <-> chanClosed w = true).
  { intros t.
    destruct sched as [|[] [|[] [|[] sched]]];
      cbn [interleave shutdownAndWait app];
      rewrite ?interleave_nil_l, ?interleave_nil_r;
      unfold bind, closeChan, modify, record;
      cbn -[task.shutdownBegin task.shutdownEnd];
      destruct (chanClosed w); split; intros H; try reflexivity;
      discriminate. }
  destruct stopType.
  - destruct (context p) as [ctx|] eqn:Hctx.
    + assert (Hwait :
        (if bool_decide (contracts.StopTypeSoftStop
                         = contracts.StopTypeSoftStop)
         then let* ctx := deref (Some ctx) in
              ret (time.mul
                     (appconfig.StopTimeoutMillis
                        (appconfig.Mds (AppConfig ctx)))
                     time.Millisecond)
         else ret hardStopTimeout) w
        = Some (time.mul
                  (appconfig.StopTimeoutMillis (appconfig.Mds (AppConfig ctx)))
                  time.Millisecond, w)) by reflexivity.
      rewrite Hwait. cbv beta iota. rewrite Hsteps.
      split; [auto | intros [H|[_ H]]; [auto|discriminate]].
    + split; [intros _; right; split; reflexivity | reflexivity].
  - assert (Hwait :
      (if bool_decide (contracts.StopTypeHardStop
                       = contracts.StopTypeSoftStop)
       then let* ctx := deref (context p) in
            ret (time.mul
                   (appconfig.StopTimeoutMillis
                      (appconfig.Mds (AppConfig ctx)))
                   time.Millisecond)
       else ret hardStopTimeout) w
      = Some (hardStopTimeout, w)) by reflexivity.
    rewrite Hwait. cbv beta iota. rewrite Hsteps.
    split; [auto | intros [H|[H _]]; [auto|discriminate]].
Qed.


(** *** How the operations compose *)

Lemma Submit_run p ctx d w :
  context p = Some ctx -> Submit p d w = Some (tt, afterSubmit p ctx d w).
Proof.
  intros Hctx.
  unfold Submit, submit, afterSubmit, bind, logf, modify, PersistData,
    MoveDocumentState, ret, deref.
  rewrite Hctx.
  cbn -[docmanager.PersistData docmanager.MoveDocumentState task.Submit
        poolSubmit].
  rewrite poolSubmit_run.
  cbn -[docmanager.PersistData docmanager.MoveDocumentState task.Submit].
  now destruct (task.Submit _ _ _).1.
Qed.

(** X7: A submission followed by its job.  When the command pool takes the
    document, the job that [Submit] has queued, once run on an open channel,
    forwards all results and leaves the document in completed, as the
    executer last saved it, and in no other place; if the stream ends on a
    reboot request the document waits in current instead. *)
Theorem Submit_then_job_body
  (p : EngineProcessor) (ctx : context_T) (flag : task.CancelFlag)
  (d : model.DocumentState) (w : World) :
  let docID := model.DocumentID (model.DocumentInformation d) in
  let instID := model.InstanceID (model.DocumentInformation d) in
  let body := ProcessCommandJob ctx (executerCreator p) d in
  let acts :=
    executer.Run (executerCreator p ctx) flag
      (executer.NewDocumentFileStore ctx instID docID
         appconfig.DefaultLocationOfCurrent d) in
  let final := default d (last (executer.saved acts)) in
  context p = Some ctx ->
  chanClosed w = false ->
  (task.Submit (jobIDOf d) body (pools w (sendCommandPool p))).1 = None ->
  exists w',
    (Submit p d >> runJobBody body flag) w = Some (tt, w') /\
    resChan w' = resChan w ++ executer.emitted acts /\
    files w' instID appconfig.DefaultLocationOfPending !! docID = None /\
    (endsInReboot false acts = false ->
       files w' instID appconfig.DefaultLocationOfCurrent !! docID = None /\
       files w' instID appconfig.DefaultLocationOfCompleted !! docID
       = Some final) /\
    (endsInReboot false acts = true ->
       files w' instID appconfig.DefaultLocationOfCurrent !! docID
       = Some final /\
       pendingReboot w' = true /\
       files w' instID appconfig.DefaultLocationOfCompleted !! docID
       = files w instID appconfig.DefaultLocationOfCompleted !! docID).
Proof using Type.
  intros docID instID body acts final Hctx Hopen Haccept.
  unfold bind. rewrite (Submit_run p ctx d w Hctx).
  assert (Hw1 : exists t1,
    afterSubmit p ctx d w
    = {| files := docmanager.PersistData docID instID
                    appconfig.DefaultLocationOfPending d (files w);
         pools := pools (afterSubmit p ctx d w);
         resChan := resChan w; chanClosed := false;
         pendingReboot := pendingReboot w; trace := t1 |}).
  { unfold afterSubmit. fold docID instID body. rewrite Haccept.
    eexists. unfold record, setPool, setFiles. cbn. rewrite Hopen.
    reflexivity. }
  destruct Hw1 as (t1 & Hw1). rewrite Hw1. clear Hw1.
  cbn [runJobBody body].
  match goal with
  | |- context [processCommand _ _ _ _ ?w1] =>
      destruct (processCommand_run ctx (executerCreator p) flag d w1 eq_refl)
        as (t & Hrun & _)
  end.
  fold docID instID acts in Hrun.
  eexists. split; [exact Hrun|].
  unfold afterCommand.
  cbn [files resChan pendingReboot executer.documentID executer.instanceID
       executer.NewDocumentFileStore].
  set (fs0 := docmanager.PersistData docID instID
                appconfig.DefaultLocationOfPending d (files w)).
  assert (Hpending : fs0 instID appconfig.DefaultLocationOfPending !! docID
                     = Some d).
  { unfold fs0. rewrite PersistData_lookup. now rewrite decide_True. }
  set (store := executer.NewDocumentFileStore ctx instID docID
                  appconfig.DefaultLocationOfCurrent d) in *.
  assert (Hcur : applySaves store acts
      (docmanager.MoveDocumentState docID instID
         appconfig.DefaultLocationOfPending
         appconfig.DefaultLocationOfCurrent fs0)
      instID appconfig.DefaultLocationOfCurrent !! docID = Some final).
  { rewrite applySaves_lookup, decide_True by auto.
    rewrite (MoveDocumentState_target _ _ _ _ _ d Hpending).
    unfold final. now destruct (last (executer.saved acts)). }
  assert (Hpend : applySaves store acts
      (docmanager.MoveDocumentState docID instID
         appconfig.DefaultLocationOfPending
         appconfig.DefaultLocationOfCurrent fs0)
      instID appconfig.DefaultLocationOfPending !! docID = None).
  { rewrite applySaves_lookup.
    rewrite decide_False by (intros (_ & ? & _); discriminate).
    apply MoveDocumentState_source. discriminate. }
  split; [reflexivity|].
  destruct (endsInReboot false acts).
  - split; [exact Hpend|]. split; [discriminate|]. intros _.
    split; [exact Hcur|]. split; [reflexivity|].
    rewrite applySaves_lookup.
    rewrite decide_False by (intros (_ & ? & _); discriminate).
    rewrite MoveDocumentState_other by (right; split; discriminate).
    unfold fs0. rewrite PersistData_lookup.
    now rewrite decide_False by (intros (_ & ? & _); discriminate).
  - split.
    { rewrite MoveDocumentState_other by (right; split; discriminate).
      exact Hpend. }
    split; [|discriminate]. intros _.
    split; [apply MoveDocumentState_source; discriminate|].
    now apply MoveDocumentState_target.
Qed.


Lemma Submit_accepted_hasJob (id : string) (b : JobBody)
  (pl : task.Pool JobBody) :
  (task.Submit id b pl).1 = None ->
  task.hasJob id (task.Submit id b pl).2 = true.
Proof.
  intros H. unfold task.hasJob. rewrite (Submit_accepted_jobs _ _ _ H).
  rewrite existsb_app. cbn. rewrite bool_decide_eq_true_2 by reflexivity.
  now rewrite orb_true_r.
Qed.

(** X8: Submitting a document a second time while its first job is still in
    the command pool quarantines the document: the pool refuses the second
    job as a duplicate, and [Submit] moves the file it has just rewritten
    from pending to corrupt, although the first job stays queued. *)
Theorem Submit_twice_quarantines
  (p : EngineProcessor) (ctx : context_T) (d : model.DocumentState)
  (w : World) :
  let docID := model.DocumentID (model.DocumentInformation d) in
  let instID := model.InstanceID (model.DocumentInformation d) in
  let body := ProcessCommandJob ctx (executerCreator p) d in
  context p = Some ctx ->
  (task.Submit (jobIDOf d) body (pools w (sendCommandPool p))).1 = None ->
  exists w',
    (Submit p d >> Submit p d) w = Some (tt, w') /\
    files w' instID appconfig.DefaultLocationOfPending !! docID = None /\
    files w' instID appconfig.DefaultLocationOfCorrupt !! docID = Some d /\
    task.jobs (pools w' (sendCommandPool p)) =
      task.jobs (pools w (sendCommandPool p)) ++
      [ {| task.jobID := jobIDOf d; task.jobBody := body;
           task.jobFlag := task.Active; task.jobRunning := false |} ] /\
    last (trace w')
    = Some (EvMoveDocumentState docID instID
              appconfig.DefaultLocationOfPending
              appconfig.DefaultLocationOfCorrupt).
Proof.
  intros docID instID body Hctx Haccept.
  unfold bind. rewrite (Submit_run p ctx d w Hctx).
  rewrite (Submit_run p ctx d _ Hctx).
  eexists. split; [reflexivity|].
  assert (Hpool : pools (afterSubmit p ctx d w) (sendCommandPool p)
                  = (task.Submit (jobIDOf d) body
                       (pools w (sendCommandPool p))).2).
  { unfold afterSubmit. fold docID instID body. rewrite Haccept.
    cbn. now rewrite decide_True. }
  assert (Hdup : task.Submit (jobIDOf d) body
                   (pools (afterSubmit p ctx d w) (sendCommandPool p))
                 = (Some task.DuplicateJobId,
                    pools (afterSubmit p ctx d w) (sendCommandPool p))).
  { rewrite Hpool. unfold task.Submit at 1.
    now rewrite (Submit_accepted_hasJob _ _ _ Haccept). }
  set (w1 := afterSubmit p ctx d w) in *.
  unfold afterSubmit. fold docID instID body. rewrite Hdup.
  cbn -[docmanager.PersistData docmanager.MoveDocumentState w1].
  split; [apply MoveDocumentState_source; discriminate|].
  split.
  { apply MoveDocumentState_target. rewrite PersistData_lookup.
    now rewrite decide_True. }
  split.
  - rewrite decide_True by reflexivity. rewrite Hpool.
    now apply Submit_accepted_jobs.
  - apply last_snoc.
Qed.

Lemma processCancelCommand_run ctx sendPool c w :
  let cancelInfo := model.CancelInformation c in
  let docID := model.DocumentID (model.DocumentInformation c) in
  let instID := model.InstanceID (model.DocumentInformation c) in
  let verdict :=
    task.Cancel (model.CancelMessageID cancelInfo) (pools w sendPool) in
  let c' :=
    if verdict.1
    then model.setDocumentStatus contracts.ResultStatusSuccess
           (model.setDebugInfo
              ("Command " +:+ model.CancelCommandID cancelInfo +:+ " cancelled")
              c)
    else model.setDocumentStatus contracts.ResultStatusFailed
           (model.setDebugInfo
              ("Command " +:+ model.CancelCommandID cancelInfo
               +:+ " couldn't be cancelled") c) in
  exists t,
    processCancelCommand ctx sendPool c w
    = Some (tt,
            {| files :=
                 docmanager.MoveDocumentState docID instID
                   appconfig.DefaultLocationOfCurrent
                   appconfig.DefaultLocationOfCompleted
                   (docmanager.PersistData docID instID
                      appconfig.DefaultLocationOfCurrent c' (files w));
               pools := pools (setPool sendPool verdict.2 w);
               resChan := resChan w; chanClosed := chanClosed w;
               pendingReboot := pendingReboot w;
               trace := trace w ++ t |}).
Proof.
  intros cancelInfo docID instID verdict c'.
  unfold processCancelCommand, bind, logf, modify, PersistData,
    MoveDocumentState, ret.
  rewrite poolCancel_run. subst c' verdict. fold cancelInfo.
  cbn -[docmanager.MoveDocumentState docmanager.PersistData String.append
        task.Cancel].
  destruct (task.Cancel (model.CancelMessageID cancelInfo) (pools w sendPool)).1;
    unfold modify, record, setFiles, setPool;
    cbn -[docmanager.MoveDocumentState docmanager.PersistData String.append
          task.Cancel];
    eexists; rewrite <- !app_assoc; reflexivity.
Qed.

(** X9: A cancel document after [Cancel] and its job: the outcome is recorded
    in the copy that ends in completed, nothing is left in current, and
    the copy [Cancel] persisted in pending is still there, as submitted.
    The copy in completed says in its debug information whether the
    command was cancelled, has the status [Success] or [Failed] to match,
    and every other field as submitted. *)
Theorem Cancel_then_job_body
  (p : EngineProcessor) (ctx : context_T) (flag : task.CancelFlag)
  (c : model.DocumentState) (w : World) :
  let docID := model.DocumentID (model.DocumentInformation c) in
  let instID := model.InstanceID (model.DocumentInformation c) in
  let cancelInfo := model.CancelInformation c in
  let body := ProcessCancelCommandJob ctx (sendCommandPool p) c in
  let outcome (found : bool) :=
    if found
    then model.setDocumentStatus contracts.ResultStatusSuccess
           (model.setDebugInfo
              ("Command " +:+ model.CancelCommandID cancelInfo +:+ " cancelled")
              c)
    else model.setDocumentStatus contracts.ResultStatusFailed
           (model.setDebugInfo
              ("Command " +:+ model.CancelCommandID cancelInfo
               +:+ " couldn't be cancelled") c) in
  context p = Some ctx ->
  (task.Submit (jobIDOf c) body (pools w (cancelCommandPool p))).1 = None ->
  exists w' found,
    (Cancel p c >> runJobBody body flag) w = Some (tt, w') /\
    (sendCommandPool p <> cancelCommandPool p ->
     found = (task.Cancel (model.CancelMessageID cancelInfo)
                (pools w (sendCommandPool p))).1) /\
    files w' instID appconfig.DefaultLocationOfPending !! docID = Some c /\
    files w' instID appconfig.DefaultLocationOfCurrent !! docID = None /\
    files w' instID appconfig.DefaultLocationOfCompleted !! docID
    = Some (outcome found) /\
    model.DebugInfo (model.CancelInformation (outcome found))
    = (if found
       then "Command " +:+ model.CancelCommandID cancelInfo +:+ " cancelled"
       else "Command " +:+ model.CancelCommandID cancelInfo
            +:+ " couldn't be cancelled") /\
    model.DocumentStatus (model.DocumentInformation (outcome found))
    = (if found then contracts.ResultStatusSuccess
       else contracts.ResultStatusFailed) /\
    model.CancelMessageID (model.CancelInformation (outcome found))
    = model.CancelMessageID cancelInfo /\
    model.CancelCommandID (model.CancelInformation (outcome found))
    = model.CancelCommandID cancelInfo /\
    model.DocumentID (model.DocumentInformation (outcome found)) = docID /\
    model.InstanceID (model.DocumentInformation (outcome found)) = instID /\
    model.MessageID (model.DocumentInformation (outcome found))
    = model.MessageID (model.DocumentInformation c) /\
    model.AssociationID (model.DocumentInformation (outcome found))
    = model.AssociationID (model.DocumentInformation c) /\
    model.RunCount (model.DocumentInformation (outcome found))
    = model.RunCount (model.DocumentInformation c) /\
    model.DocumentType' (outcome found) = model.DocumentType' c /\
    model.InstancePluginsInformation (outcome found)
    = model.InstancePluginsInformation c.
Proof using Type.
  intros docID instID cancelInfo body outcome Hctx Haccept.
  assert (Hfields : forall found,
    model.DebugInfo (model.CancelInformation (outcome found))
    = (if found
       then "Command " +:+ model.CancelCommandID cancelInfo +:+ " cancelled"
       else "Command " +:+ model.CancelCommandID cancelInfo
            +:+ " couldn't be cancelled") /\
    model.DocumentStatus (model.DocumentInformation (outcome found))
    = (if found then contracts.ResultStatusSuccess
       else contracts.ResultStatusFailed) /\
    model.CancelMessageID (model.CancelInformation (outcome found))
    = model.CancelMessageID cancelInfo /\
    model.CancelCommandID (model.CancelInformation (outcome found))
    = model.CancelCommandID cancelInfo /\
    model.DocumentID (model.DocumentInformation (outcome found)) = docID /\
    model.InstanceID (model.DocumentInformation (outcome found)) = instID /\
    model.MessageID (model.DocumentInformation (outcome found))
    = model.MessageID (model.DocumentInformation c) /\
    model.AssociationID (model.DocumentInformation (outcome found))
    = model.AssociationID (model.DocumentInformation c) /\
    model.RunCount (model.DocumentInformation (outcome found))
    = model.RunCount (model.DocumentInformation c) /\
    model.DocumentType' (outcome found) = model.DocumentType' c /\
    model.InstancePluginsInformation (outcome found)
    = model.InstancePluginsInformation c).
  { intros found. unfold outcome. destruct found; repeat split; reflexivity. }
  unfold Cancel, bind, logf, modify, PersistData, ret, deref.
  rewrite Hctx.
  cbn -[docmanager.PersistData task.Submit poolSubmit runJobBody].
  rewrite poolSubmit_run.
  cbn -[docmanager.PersistData task.Submit runJobBody].
  fold body docID instID. rewrite Haccept.
  cbn [runJobBody body].
  match goal with
  | |- context [processCancelCommand _ _ _ ?w1] =>
      destruct (processCancelCommand_run ctx (sendCommandPool p) c w1)
        as (t & Hrun)
  end.
  fold docID instID cancelInfo in Hrun. rewrite Hrun. clear Hrun.
  eexists.
  exists (task.Cancel (model.CancelMessageID cancelInfo)
            (pools
               (setPool (cancelCommandPool p)
                  (task.Submit (jobIDOf c) body
                     (pools w (cancelCommandPool p))).2 w)
               (sendCommandPool p))).1.
  split; [reflexivity|].
  cbn -[docmanager.PersistData docmanager.MoveDocumentState task.Cancel
        task.Submit String.append].
  split.
  { intros Hne. now rewrite decide_False. }
  split; [|split].
  - rewrite MoveDocumentState_other by (right; split; discriminate).
    rewrite PersistData_lookup.
    rewrite decide_False by (intros (_ & ? & _); discriminate).
    rewrite PersistData_lookup. now rewrite decide_True.
  - apply MoveDocumentState_source. discriminate.
  - split; [|apply Hfields].
    apply MoveDocumentState_target. rewrite PersistData_lookup.
    rewrite decide_True by auto. unfold outcome.
    now destruct (task.Cancel _ _).1.
Qed.


Lemma Stop_run sched p ctx stopType w :
  context p = Some ctx ->
  chanClosed w = false ->
  exists w',
    Stop sched p stopType w = Some (tt, w') /\
    files w' = files w /\
    chanClosed w' = true /\
    task.isShutdown (pools w' (sendCommandPool p)) = true /\
    task.jobs (pools w' (sendCommandPool p)) = [] /\
    task.isShutdown (pools w' (cancelCommandPool p)) = true /\
    task.jobs (pools w' (cancelCommandPool p)) = [].
Proof.
  intros Hctx Hopen. unfold Stop. unfold bind at 1.
  assert (Hwait : exists t,
    (if bool_decide (stopType = contracts.StopTypeSoftStop)
     then let* ctx := deref (context p) in
          ret (time.mul
                 (appconfig.StopTimeoutMillis (appconfig.Mds (AppConfig ctx)))
                 time.Millisecond)
     else ret hardStopTimeout) w = Some (t, w)).
  { rewrite Hctx. destruct stopType; eexists; reflexivity. }
  destruct Hwait as (t & ->).
  destruct (sendCommandPool p), (cancelCommandPool p);
    destruct sched as [|[] [|[] [|[] sched]]];
    cbn [interleave shutdownAndWait shutdownEvents app];
    rewrite ?interleave_nil_l, ?interleave_nil_r;
    unfold bind, closeChan, modify, record;
    cbn -[task.shutdownBegin task.shutdownEnd];
    rewrite Hopen; (eexists; split; [reflexivity|]);
    cbn; repeat split.
Qed.

(** X10: After [Stop] nothing more is taken on.  A document submitted then is
    persisted, refused by the command pool and moved to corrupt; a cancel
    document is persisted in pending and stays there, with no job for it. *)
Theorem after_Stop_nothing_is_enqueued
  (sched : list bool) (p : EngineProcessor) (ctx : context_T)
  (stopType : contracts.StopType) (d : model.DocumentState) (w : World) :
  let docID := model.DocumentID (model.DocumentInformation d) in
  let instID := model.InstanceID (model.DocumentInformation d) in
  context p = Some ctx ->
  chanClosed w = false ->
  (exists w',
      (Stop sched p stopType >> Submit p d) w = Some (tt, w') /\
      files w' instID appconfig.DefaultLocationOfPending !! docID = None /\
      files w' instID appconfig.DefaultLocationOfCorrupt !! docID = Some d /\
      task.jobs (pools w' (sendCommandPool p)) = []) /\
  (exists w',
      (Stop sched p stopType >> Cancel p d) w = Some (tt, w') /\
      files w' instID appconfig.DefaultLocationOfPending !! docID = Some d /\
      (forall i k, files w' i appconfig.DefaultLocationOfCorrupt !! k
                   = files w i appconfig.DefaultLocationOfCorrupt !! k) /\
      task.jobs (pools w' (cancelCommandPool p)) = []).
Proof.
  intros docID instID Hctx Hopen.
  destruct (Stop_run sched p ctx stopType w Hctx Hopen)
    as (w1 & Hstop & Hfiles & _ & Hs & Hsj & Hc & Hcj).
  assert (Hrefused : forall (r : PoolRef) id (b : JobBody),
    task.isShutdown (pools w1 r) = true -> task.jobs (pools w1 r) = [] ->
    task.Submit id b (pools w1 r) = (Some task.PoolShutdown, pools w1 r)).
  { intros r id b Hshut Hjobs. unfold task.Submit, task.hasJob.
    now rewrite Hjobs, Hshut. }
  split.
  - unfold bind. rewrite Hstop, (Submit_run p ctx d w1 Hctx).
    eexists. split; [reflexivity|].
    unfold afterSubmit. fold docID instID.
    rewrite (Hrefused _ _ _ Hs Hsj).
    cbn -[docmanager.PersistData docmanager.MoveDocumentState].
    split; [apply MoveDocumentState_source; discriminate|].
    split.
    + apply MoveDocumentState_target. rewrite PersistData_lookup.
      now rewrite decide_True.
    + now rewrite decide_True.
  - unfold bind. rewrite Hstop.
    unfold Cancel, bind, logf, modify, PersistData, ret, deref.
    rewrite Hctx.
    cbn -[docmanager.PersistData task.Submit poolSubmit].
    rewrite poolSubmit_run.
    cbn -[docmanager.PersistData task.Submit].
    rewrite (Hrefused _ _ _ Hc Hcj).
    cbn -[docmanager.PersistData].
    eexists. split; [reflexivity|].
    cbn -[docmanager.PersistData]. rewrite Hfiles.
    split; [rewrite PersistData_lookup; now rewrite decide_True|].
    split.
    + intros i k. rewrite PersistData_lookup.
      now rewrite decide_False by (intros (_ & ? & _); discriminate).
    + now rewrite decide_True.
Qed.

(** X11: An in-progress document whose type is not supported is never offered
    to the command pool; the loop has by then counted the run all the same:
    below the retry limit the document is rewritten in current with one
    more run, at the limit it is moved to corrupt. *)
Theorem in_progress_unsupported_not_enqueued
  (p : EngineProcessor) (ctx : context_T) (instID : string) (w : World)
  (f : string) (doc : model.DocumentState) :
  let limit := appconfig.CommandRetryLimit (appconfig.Mds (AppConfig ctx)) in
  let runs := model.RunCount (model.DocumentInformation doc) in
  let doc' := model.setRunCount (wrap64 (runs + 1)) doc in
  context p = Some ctx ->
  namedByID (files w instID appconfig.DefaultLocationOfCurrent) ->
  files w instID appconfig.DefaultLocationOfCurrent !! f = Some doc ->
  isSupportedDocumentType p (model.DocumentType' doc) = false ->
  exists w' t,
    processInProgressDocuments p instID w = Some (tt, w') /\
    trace w' = trace w ++ t /\
    (forall pool id body err,
        EvPoolSubmit pool id body err ∈ t ->
        model.DocumentID (model.DocumentInformation (bodyDocument body)) <> f) /\
    (runs >= limit ->
       filter (concerns f) t =
         [EvMoveDocumentState f instID appconfig.DefaultLocationOfCurrent
            appconfig.DefaultLocationOfCorrupt] /\
       files w' instID appconfig.DefaultLocationOfCorrupt !! f = Some doc) /\
    (runs < limit ->
       filter (concerns f) t =
         [EvPersistData f instID appconfig.DefaultLocationOfCurrent doc'] /\
       files w' instID appconfig.DefaultLocationOfCurrent !! f = Some doc').
Proof.
  intros limit runs doc' Hctx Hnamed Hdoc Hsup.
  destruct (processInProgressDocuments_run p ctx instID w f doc
              Hctx Hnamed Hdoc) as (w' & t & Hrun & Htr & _ & Hout).
  unfold inProgressOutcome in Hout. rewrite Hsup in Hout.
  fold limit runs doc' in Hout.
  exists w', t. split; [exact Hrun|]. split; [exact Htr|].
  assert (Hnosubmit : forall pool id body err,
    EvPoolSubmit pool id body err ∈ filter (concerns f) t -> False).
  { intros pool id body err Hin.
    destruct (bool_decide (runs >= limit)); destruct Hout as [Hev _];
      rewrite Hev in Hin; apply list_elem_of_singleton in Hin; discriminate. }
  split.
  - intros pool id body err Hin Hid.
    apply (Hnosubmit pool id body err).
    apply (list_elem_of_filter (concerns f)).
    split; [|exact Hin]. cbn. apply bool_decide_pack. exact Hid.
  - split; intros Hcmp.
    + rewrite bool_decide_eq_true_2 in Hout by exact Hcmp.
      destruct Hout as (Hev & _ & Hc). auto.
    + rewrite bool_decide_eq_false_2 in Hout by lia. exact Hout.
Qed.


(** *** The order of recovery *)

Lemma keeps_ret {A} loc (a : A) : keeps loc (ret a).
Proof. intros w a' w' H. now injection H as _ <-. Qed.

Lemma keeps_bind {A B} loc (m : M A) (k : A -> M B) :
  keeps loc m -> (forall a, keeps loc (k a)) -> keeps loc (bind m k).
Proof.
  intros Hm Hk w b w' H. unfold bind in H.
  destruct (m w) as [[a w1]|] eqn:E; [|discriminate].
  intros i x. rewrite (Hk a w1 b w' H), (Hm w a w1 E). reflexivity.
Qed.

Lemma keeps_gets {A} loc (f : World -> A) : keeps loc (gets f).
Proof. intros w a w' H. now injection H as _ <-. Qed.

Lemma keeps_logf loc lvl fmt args : keeps loc (logf lvl fmt args).
Proof. intros w a w' H. now injection H as _ <-. Qed.

Lemma keeps_PersistData loc docID instID l d :
  l <> loc -> keeps loc (PersistData docID instID l d).
Proof.
  intros Hne w a w' H. injection H as _ <-. intros i k. cbn.
  rewrite PersistData_lookup.
  now rewrite decide_False by (intros (_ & ? & _); congruence).
Qed.

Lemma keeps_MoveDocumentState loc docID instID src dst :
  src <> loc -> dst <> loc -> keeps loc (MoveDocumentState docID instID src dst).
Proof.
  intros Hs Hd w a w' H. injection H as _ <-. intros i k. cbn.
  apply MoveDocumentState_other. right. split; congruence.
Qed.

Lemma keeps_poolSubmit loc r id b : keeps loc (poolSubmit r id b).
Proof.
  intros w a w' H. rewrite poolSubmit_run in H. now injection H as _ <-.
Qed.

Lemma keeps_forEach {A} loc (l : list A) (body : A -> M unit) :
  (forall x, keeps loc (body x)) -> keeps loc (forEach l body).
Proof.
  intros Hbody. induction l as [|x l IH]; cbn [forEach].
  - apply keeps_ret.
  - apply keeps_bind; [apply Hbody | intros _; exact IH].
Qed.

(** The pass over the in-progress documents never touches a pending
    directory. *)
Lemma processInProgressDocuments_keeps_pending p instID :
  keeps appconfig.DefaultLocationOfPending
    (processInProgressDocuments p instID).
Proof.
  unfold processInProgressDocuments.
  apply keeps_bind.
  { destruct (context p); [apply keeps_ret | intros w a w' H; discriminate]. }
  intros c. apply keeps_bind; [apply keeps_gets | intros dir].
  destruct (docmanager.IsDirEmpty dir); [apply keeps_logf|].
  apply keeps_forEach. intros f. unfold processInProgressDocument.
  apply keeps_bind; [apply keeps_logf | intros _].
  apply keeps_bind; [apply keeps_gets | intros doc].
  destruct (bool_decide _);
    [apply keeps_MoveDocumentState; discriminate|].
  apply keeps_bind; [apply keeps_PersistData; discriminate | intros _].
  destruct (isSupportedDocumentType _ _); [|apply keeps_ret].
  apply keeps_bind; [apply keeps_logf | intros _].
  apply keeps_bind.
  { unfold submit. apply keeps_bind.
    - destruct (context p); [apply keeps_ret | intros w a w' H; discriminate].
    - intros c'. apply keeps_poolSubmit. }
  intros [e|]; [|apply keeps_ret].
  apply keeps_bind; [apply keeps_logf | intros _].
  apply keeps_MoveDocumentState; discriminate.
Qed.

(** X12: [Start] gives precedence to the documents that were in progress: the
    job of an in-progress document is offered to the command pool before
    the job of any pending document, and nothing is done about a pending
    document before all in-progress documents have been seen to. *)
Theorem Start_in_progress_before_pending
  (p : EngineProcessor) (ctx : context_T) (instID : string) (w : World)
  (f g : string) (docf docg : model.DocumentState) :
  let limit := appconfig.CommandRetryLimit (appconfig.Mds (AppConfig ctx)) in
  let docf' :=
    model.setRunCount
      (wrap64 (model.RunCount (model.DocumentInformation docf) + 1)) docf in
  platform_InstanceID = inl instID ->
  context p = Some ctx ->
  namedByID (files w instID appconfig.DefaultLocationOfCurrent) ->
  namedByID (files w instID appconfig.DefaultLocationOfPending) ->
  files w instID appconfig.DefaultLocationOfCurrent !! f = Some docf ->
  files w instID appconfig.DefaultLocationOfPending !! f = None ->
  isSupportedDocumentType p (model.DocumentType' docf) = true ->
  model.RunCount (model.DocumentInformation docf) < limit ->
  files w instID appconfig.DefaultLocationOfPending !! g = Some docg ->
  files w instID appconfig.DefaultLocationOfCurrent !! g = None ->
  isSupportedDocumentType p (model.DocumentType' docg) = true ->
  exists w' t1 t2 ef eg,
    Start p w = Some ((true, None), w') /\
    trace w' = trace w ++ t1 ++ t2 /\
    EvPoolSubmit (sendCommandPool p) (jobIDOf docf')
      (ProcessCommandJob ctx (executerCreator p) docf') ef ∈ t1 /\
    EvPoolSubmit (sendCommandPool p) (jobIDOf docg)
      (ProcessCommandJob ctx (executerCreator p) docg) eg ∈ t2 /\
    filter (concerns g) t1 = [] /\
    filter (concerns f) t2 = [].
Proof using Type.
  intros limit docf' Hinst Hctx Hcur Hpend Hf Hfp Hfsup Hflim Hg Hgc Hgsup.
  unfold Start. rewrite Hctx, Hinst.
  (* the in-progress pass *)
  assert (Hpass1 : exists w1 t1,
    processInProgressDocuments p instID w = Some (tt, w1) /\
    trace w1 = trace w ++ t1 /\
    filter (concerns g) t1 = [] /\
    inProgressOutcome p ctx instID f docf t1 (files w1)).
  { unfold processInProgressDocuments, bind, deref, gets. rewrite Hctx.
    unfold ret at 1. rewrite (IsDirEmpty_false _ _ _ Hf).
    destruct (forEach_processInProgressDocument p ctx instID
                (docmanager.ReadDir
                   (files w instID appconfig.DefaultLocationOfCurrent))
                Hctx (ReadDir_NoDup _) w)
      as (w1 & t1 & Hrun & Htr & _ & Hquiet & _ & Hout).
    { intros k Hk. apply ReadDir_elem in Hk as [dk Hdk].
      exists dk. split; [exact Hdk | exact (Hcur _ _ Hdk)]. }
    exists w1, t1. split; [exact Hrun|]. split; [exact Htr|]. split.
    - apply Hquiet. rewrite ReadDir_elem, Hgc. intros [? ?]; discriminate.
    - apply Hout; [|exact Hf]. apply ReadDir_elem. eauto. }
  destruct Hpass1 as (w1 & t1 & Hrun1 & Htr1 & Hquiet1 & Hout1).
  pose proof (processInProgressDocuments_keeps_pending p instID w tt w1 Hrun1)
    as Hkeep.
  (* the pending pass *)
  assert (Hpass2 : exists w2 t2,
    processPendingDocuments p instID w1 = Some (tt, w2) /\
    trace w2 = trace w1 ++ t2 /\
    filter (concerns f) t2 = [] /\
    pendingOutcome p ctx g docg t2 (files w1) (files w2)).
  { assert (Hg1 : files w1 instID appconfig.DefaultLocationOfPending !! g
                  = Some docg) by now rewrite Hkeep.
    unfold processPendingDocuments, bind, deref, gets. rewrite Hctx.
    unfold ret at 1. rewrite (IsDirEmpty_false _ _ _ Hg1).
    destruct (forEach_processPendingDocument p ctx instID
                (docmanager.ReadDir
                   (files w1 instID appconfig.DefaultLocationOfPending))
                Hctx (ReadDir_NoDup _) w1)
      as (w2 & t2 & Hrun & Htr & Hquiet & _ & Hout).
    { intros k Hk. apply ReadDir_elem in Hk as [dk Hdk].
      exists dk. split; [exact Hdk|]. rewrite Hkeep in Hdk.
      exact (Hpend _ _ Hdk). }
    exists w2, t2. split; [exact Hrun|]. split; [exact Htr|]. split.
    - apply Hquiet. rewrite ReadDir_elem, Hkeep, Hfp.
      intros [? ?]; discriminate.
    - apply Hout; [|exact Hg1]. apply ReadDir_elem. eauto. }
  destruct Hpass2 as (w2 & t2 & Hrun2 & Htr2 & Hquiet2 & Hout2).
  unfold inProgressOutcome in Hout1. rewrite Hfsup in Hout1.
  rewrite bool_decide_eq_false_2 in Hout1 by (fold limit; lia).
  destruct Hout1 as (ef & Hevf & _).
  unfold pendingOutcome in Hout2. rewrite Hgsup in Hout2.
  destruct Hout2 as (eg & Hevg & _).
  exists w2, t1, t2, ef, eg.
  unfold bind, ret. rewrite Hrun1, Hrun2.
  split; [reflexivity|].
  split; [rewrite Htr2, Htr1; now rewrite app_assoc|].
  split; [|split; [|split; [exact Hquiet1 | exact Hquiet2]]].
  - assert (Hin : EvPoolSubmit (sendCommandPool p) (jobIDOf docf')
                    (ProcessCommandJob ctx (executerCreator p) docf') ef
                  ∈ filter (concerns f) t1).
    { rewrite Hevf. right. left. }
    apply (list_elem_of_filter (concerns f)) in Hin. apply Hin.
  - assert (Hin : EvPoolSubmit (sendCommandPool p) (jobIDOf docg)
                    (ProcessCommandJob ctx (executerCreator p) docg) eg
                  ∈ filter (concerns g) t2).
    { rewrite Hevg. right. left. }
    apply (list_elem_of_filter (concerns g)) in Hin. apply Hin.
Qed.



(** *** A crash loop *)

Lemma processPendingDocuments_keeps_current p instID :
  keeps appconfig.DefaultLocationOfCurrent
    (processPendingDocuments p instID).
Proof.
  unfold processPendingDocuments.
  apply keeps_bind.
  { destruct (context p); [apply keeps_ret | intros w a w' H; discriminate]. }
  intros c. apply keeps_bind; [apply keeps_gets | intros dir].
  destruct (docmanager.IsDirEmpty dir); [apply keeps_logf|].
  apply keeps_forEach. intros f.
  apply keeps_bind; [apply keeps_logf | intros _].
  apply keeps_bind; [apply keeps_gets | intros doc].
  destruct (isSupportedDocumentType _ _); [|apply keeps_ret].
  apply keeps_bind; [apply keeps_logf | intros _].
  unfold Submit.
  apply keeps_bind.
  { destruct (context p); [apply keeps_ret | intros w a w' H; discriminate]. }
  intros _.
  apply keeps_bind; [apply keeps_PersistData; discriminate | intros _].
  apply keeps_bind.
  { unfold submit. destruct (context p);
      [apply keeps_poolSubmit | intros w a w' H; discriminate]. }
  intros [e|]; [|apply keeps_ret].
  apply keeps_bind; [apply keeps_logf | intros _].
  apply keeps_bind; [|intros _; apply keeps_ret].
  apply keeps_MoveDocumentState; discriminate.
Qed.

Lemma setRunCount_setRunCount n m d :
  model.setRunCount n (model.setRunCount m d) = model.setRunCount n d.
Proof. reflexivity. Qed.

Lemma setRunCount_same d :
  model.setRunCount (model.RunCount (model.DocumentInformation d)) d = d.
Proof. now destruct d as [[] ? ? ?]. Qed.

(** What a crash loop keeps true of the document [doc] found in current
    under the name [f]: after [j] restarts it is still there with [j] more
    runs, which then are within the limit, or it is gone from current. *)
Lemma restart_step (ctx : context_T) (commandWorkerLimit cancelWorkerLimit : Z)
  (supportedDocs : list model.DocumentType) (instID f : string)
  (doc : model.DocumentState) (j : nat) (w : World) :
  let limit := appconfig.CommandRetryLimit (appconfig.Mds (AppConfig ctx)) in
  let runs := model.RunCount (model.DocumentInformation doc) in
  let inv (j : nat) (w : World) :=
    namedByID (files w instID appconfig.DefaultLocationOfCurrent) /\
    (files w instID appconfig.DefaultLocationOfCurrent !! f = None
     \/ (files w instID appconfig.DefaultLocationOfCurrent !! f
         = Some (model.setRunCount (runs + Z.of_nat j) doc)
         /\ runs + Z.of_nat j <= Z.max runs limit)) in
  platform_InstanceID = inl instID ->
  isInt64 limit -> isInt64 runs ->
  model.DocumentID (model.DocumentInformation doc) = f ->
  inv j w ->
  exists r w',
    restart ctx commandWorkerLimit cancelWorkerLimit supportedDocs w
    = Some (r, w') /\
    inv (S j) w' /\
    (runs + Z.of_nat j >= limit ->
     files w' instID appconfig.DefaultLocationOfCurrent !! f = None).
Proof.
  intros limit runs inv Hplatform Hlimit Hruns Hid [Hnamed Hf].
  unfold restart, NewEngineProcessor, bind, modify, ret.
  set (p := {| context := Some (context_With "[EngineProcessor]" ctx);
               executerCreator := _ |}).
  set (w0 := {| files := _; pools := _; resChan := []; chanClosed := false;
                pendingReboot := _; trace := _ |}).
  assert (Hfiles0 : files w0 = files w) by reflexivity.
  assert (Hctx : context p = Some (context_With "[EngineProcessor]" ctx))
    by reflexivity.
  unfold Start. rewrite Hctx, Hplatform. unfold bind.
  (* the documents in progress *)
  assert (Hpass : exists w1,
             processInProgressDocuments p instID w0 = Some (tt, w1) /\
             inv (S j) w1 /\
             (runs + Z.of_nat j >= limit ->
              files w1 instID appconfig.DefaultLocationOfCurrent !! f = None)).
  { unfold processInProgressDocuments, bind, deref, gets. rewrite Hctx.
    unfold ret at 1. rewrite Hfiles0.
    destruct (docmanager.IsDirEmpty
                (files w instID appconfig.DefaultLocationOfCurrent)) eqn:Hempty.
    - apply bool_decide_eq_true in Hempty.
      eexists. split; [reflexivity|]. unfold inv. cbn [files record].
      rewrite Hfiles0, Hempty. split; [|intros _; apply lookup_empty].
      split; [|left; apply lookup_empty].
      intros k d Hk. rewrite lookup_empty in Hk. discriminate Hk.
    - destruct (forEach_processInProgressDocument p
                  (context_With "[EngineProcessor]" ctx) instID
                  (docmanager.ReadDir
                     (files w instID appconfig.DefaultLocationOfCurrent))
                  Hctx (ReadDir_NoDup _) w0)
        as (w1 & t & Hrun & _ & _ & _ & Hframe & Hout).
      { intros g Hg. apply ReadDir_elem in Hg as [dg Hdg].
        exists dg. rewrite Hfiles0. split; [exact Hdg | exact (Hnamed _ _ Hdg)]. }
      exists w1. split; [exact Hrun|].
      assert (Hcases : forall k dk,
                 files w instID appconfig.DefaultLocationOfCurrent !! k
                 = Some dk ->
                 let dk' :=
                   model.setRunCount
                     (wrap64 (model.RunCount (model.DocumentInformation dk) + 1))
                     dk in
                 (files w1 instID appconfig.DefaultLocationOfCurrent !! k = None
                  \/ (files w1 instID appconfig.DefaultLocationOfCurrent !! k
                      = Some dk'
                      /\ model.RunCount (model.DocumentInformation dk) < limit))
                 /\ (model.RunCount (model.DocumentInformation dk) >= limit ->
                     files w1 instID appconfig.DefaultLocationOfCurrent !! k
                     = None)).
      { intros k dk Hk dk'.
        assert (Hin : k ∈ docmanager.ReadDir
                        (files w instID appconfig.DefaultLocationOfCurrent))
          by (apply ReadDir_elem; eauto).
        rewrite <- Hfiles0 in Hk.
        specialize (Hout k dk Hin Hk). unfold inProgressOutcome in Hout.
        change (appconfig.CommandRetryLimit
                  (appconfig.Mds
                     (AppConfig (context_With "[EngineProcessor]" ctx))))
          with limit in Hout.
        fold dk' in Hout.
        destruct (bool_decide
                    (model.RunCount (model.DocumentInformation dk) >= limit))
          eqn:Hge.
        - destruct Hout as (_ & Hnone & _). auto.
        - apply bool_decide_eq_false in Hge.
          split; [|intros; contradiction].
          destruct (isSupportedDocumentType p (model.DocumentType' dk)).
          + destruct Hout as ([e|] & _ & Hfs).
            * left. exact (proj1 Hfs).
            * right. split; [exact Hfs | lia].
          + right. split; [exact (proj2 Hout) | lia]. }
      split; [split|].
      + intros k d Hk.
        destruct (files w instID appconfig.DefaultLocationOfCurrent !! k)
          as [dk|] eqn:Hold.
        * destruct (Hcases k dk Hold) as [[Hnone|[Hsome _]] _].
          -- rewrite Hnone in Hk. discriminate Hk.
          -- rewrite Hsome in Hk. injection Hk as <-. cbn.
             exact (Hnamed _ _ Hold).
        * rewrite Hframe in Hk.
          -- rewrite Hfiles0, Hold in Hk. discriminate Hk.
          -- intros [? Hd]%ReadDir_elem. rewrite Hold in Hd. discriminate Hd.
      + destruct Hf as [Hnone|[Hsome Hle]].
        * left. rewrite Hframe; [now rewrite Hfiles0|].
          intros [? Hd]%ReadDir_elem. rewrite Hnone in Hd. discriminate Hd.
        * destruct (Hcases f _ Hsome) as [[Hgone|[Hnew Hlt]] _];
            [now left|]. cbn in Hnew, Hlt. right.
          rewrite Hnew, setRunCount_setRunCount.
          assert (Hwrap : wrap64 (runs + Z.of_nat j + 1)
                          = runs + Z.of_nat (S j)).
          { unfold wrap64, isInt64 in *.
            rewrite Z.mod_small by lia. lia. }
          rewrite Hwrap. split; [reflexivity | lia].
      + intros Hge. destruct Hf as [Hnone|[Hsome Hle]].
        * rewrite Hframe; [now rewrite Hfiles0|].
          intros [? Hd]%ReadDir_elem. rewrite Hnone in Hd. discriminate Hd.
        * apply (Hcases f _ Hsome). cbn. exact Hge. }
  destruct Hpass as (w1 & -> & [Hnamed1 Hf1] & Hgone1).
  (* the pending documents *)
  destruct (recovers_processPendingDocuments p _ instID Hctx w1)
    as ([] & w2 & Hrun2 & _).
  pose proof (processPendingDocuments_keeps_current p instID w1 tt w2 Hrun2
                instID) as Hkeep.
  rewrite Hrun2. eexists _, w2. split; [reflexivity|].
  split; [split|].
  - intros k d Hk. rewrite Hkeep in Hk. exact (Hnamed1 _ _ Hk).
  - rewrite Hkeep. exact Hf1.
  - rewrite Hkeep. exact Hgone1.
Qed.

(** X13: However often the agent crashes and comes up again, a document found
    in current is taken up again at most as often as its retry limit
    allows: after [n] restarts it is still in current with exactly [n]
    more runs, never beyond the limit, or it has left current; and it has
    left current as soon as [n] exceeds what the limit had left. *)
Theorem restarts_retry_within_the_limit
  (ctx : context_T) (commandWorkerLimit cancelWorkerLimit : Z)
  (supportedDocs : list model.DocumentType) (instID f : string)
  (doc : model.DocumentState) (n : nat) (w : World) :
  let limit := appconfig.CommandRetryLimit (appconfig.Mds (AppConfig ctx)) in
  let runs := model.RunCount (model.DocumentInformation doc) in
  platform_InstanceID = inl instID ->
  isInt64 limit -> isInt64 runs ->
  namedByID (files w instID appconfig.DefaultLocationOfCurrent) ->
  files w instID appconfig.DefaultLocationOfCurrent !! f = Some doc ->
  exists w',
    restarts n ctx commandWorkerLimit cancelWorkerLimit supportedDocs w
    = Some (tt, w') /\
    (files w' instID appconfig.DefaultLocationOfCurrent !! f = None
     \/ (files w' instID appconfig.DefaultLocationOfCurrent !! f
         = Some (model.setRunCount (runs + Z.of_nat n) doc)
         /\ runs + Z.of_nat n <= Z.max runs limit)) /\
    (Z.max 0 (limit - runs) < Z.of_nat n ->
     files w' instID appconfig.DefaultLocationOfCurrent !! f = None).
Proof.
  intros limit runs Hplatform Hlimit Hruns Hnamed Hdoc.
  assert (Hid : model.DocumentID (model.DocumentInformation doc) = f)
    by exact (Hnamed _ _ Hdoc).
  set (inv := fun (j : nat) (w : World) =>
    namedByID (files w instID appconfig.DefaultLocationOfCurrent) /\
    (files w instID appconfig.DefaultLocationOfCurrent !! f = None
     \/ (files w instID appconfig.DefaultLocationOfCurrent !! f
         = Some (model.setRunCount (runs + Z.of_nat j) doc)
         /\ runs + Z.of_nat j <= Z.max runs limit))).
  assert (Hloop : forall n j w,
             inv j w ->
             exists w',
               restarts n ctx commandWorkerLimit cancelWorkerLimit
                 supportedDocs w = Some (tt, w') /\
               inv (j + n)%nat w').
  { clear w Hnamed Hdoc. intros n'.
    induction n' as [|n' IH]; intros j w Hinv.
    - exists w. split; [reflexivity|]. now rewrite Nat.add_0_r.
    - destruct (restart_step ctx commandWorkerLimit cancelWorkerLimit
                  supportedDocs instID f doc j w Hplatform Hlimit Hruns Hid
                  Hinv) as (r & w1 & Hrun1 & Hinv1 & _).
      destruct (IH (S j) w1 Hinv1) as (w' & Hrun & Hinv').
      exists w'. cbn [restarts]. unfold bind. rewrite Hrun1.
      split; [exact Hrun|].
      now replace (j + S n')%nat with (S j + n')%nat by lia. }
  destruct (Hloop n 0%nat w) as (w' & Hrun & _ & Hf).
  { split; [exact Hnamed|]. right. cbn [Z.of_nat]. rewrite Z.add_0_r.
    fold runs. unfold runs at 1. rewrite setRunCount_same.
    split; [exact Hdoc | lia]. }
  exists w'. split; [exact Hrun|]. cbn [Nat.add] in Hf.
  split; [exact Hf|].
  intros Hover. destruct Hf as [Hnone|[_ Hle]]; [exact Hnone | lia].
Qed.

(** *** A job that outlives [Stop] *)

(** X14: A command job that is still at work when [Stop] has returned panics
    as soon as its executer emits a result, since [Stop] has closed the
    channel; a job that emits nothing runs to its end. *)
Theorem job_outliving_Stop_panics_on_its_first_result
  (sched : list bool) (p : EngineProcessor) (pctx : context_T)
  (stopType : contracts.StopType) (ctx : context_T)
  (creator : ExecuterCreator) (flag : task.CancelFlag)
  (d : model.DocumentState) (w : World) :
  let acts :=
    executer.Run (creator ctx) flag
      (executer.NewDocumentFileStore ctx
         (model.InstanceID (model.DocumentInformation d))
         (model.DocumentID (model.DocumentInformation d))
         appconfig.DefaultLocationOfCurrent d) in
  context p = Some pctx ->
  chanClosed w = false ->
  (Stop sched p stopType >> processCommand ctx creator flag d) w = None
  <-> executer.emitted acts <> [].
Proof.
  intros acts Hctx Hopen.
  destruct (Stop_run sched p pctx stopType w Hctx Hopen)
    as (w' & Hstop & _ & Hclosed & _).
  unfold bind. rewrite Hstop. split.
  - intros Hnone Hem.
    destruct (processCommand_silent ctx creator flag d w' Hem) as (w2 & Hrun).
    rewrite Hrun in Hnone. discriminate Hnone.
  - intros Hem. now apply processCommand_closed.
Qed.

End Processor.

(** ** The properties at work on the sample documents *)

Abbreviation run_processCommand :=
  (processCommand Samples.platform Samples.cloudWatch Samples.dataStore
     Samples.documentRoot Samples.join Samples.buildPath).

Abbreviation run_workerRun :=
  (workerRun Samples.platform Samples.cloudWatch Samples.dataStore
     Samples.documentRoot Samples.join Samples.buildPath).

Abbreviation pending := appconfig.DefaultLocationOfPending.
Abbreviation current := appconfig.DefaultLocationOfCurrent.
Abbreviation completed := appconfig.DefaultLocationOfCompleted.
Abbreviation corrupt := appconfig.DefaultLocationOfCorrupt.

(** The happy path: [d1] is pending, its two plugins succeed. *)
Lemma processCommand_moves_forwards_completes_witness :
  chanClosed Samples.pendingD1 = false /\
  exists w',
    run_processCommand Samples.ctx Samples.succeeding task.Active
      Samples.d1 Samples.pendingD1 = Some (tt, w') /\
    resChan w' =
      [ Samples.result "A" contracts.ResultStatusSuccess;
        Samples.result "B" contracts.ResultStatusSuccess;
        Samples.result "" contracts.ResultStatusSuccess ] /\
    files w' "i-0abc" pending !! "d1" = None /\
    files w' "i-0abc" current !! "d1" = None /\
    files w' "i-0abc" completed !! "d1" = Some Samples.d1.
Proof.
  split; [reflexivity|].
  destruct (processCommand_moves_forwards_completes
              Samples.platform Samples.cloudWatch Samples.dataStore
              Samples.documentRoot Samples.join Samples.buildPath
              Samples.ctx Samples.succeeding task.Active Samples.d1
              Samples.pendingD1 eq_refl)
    as (w' & t & final & Hrun & _ & _ & Hchan & Hdone).
  destruct Hdone as (_ & Hp & Hc & Hcompleted).
  { repeat constructor; discriminate. }
  exists w'. split; [exact Hrun|]. split; [exact Hchan|].
  split; [exact Hp|]. split; [exact Hc|].
  exact (Hcompleted Samples.d1 eq_refl).
Defined.



(** A second submission under a job-id that is still queued. *)
Lemma Submit_persists_then_enqueues_or_quarantines_witness :
  context (Samples.processor Samples.idle) = Some Samples.ctx /\
  exists w',
    Submit Samples.isAssociation (Samples.processor Samples.idle)
      Samples.d1 Samples.busyD1 = Some (tt, w') /\
    files w' "i-0abc" pending !! "d1" = None /\
    files w' "i-0abc" corrupt !! "d1" = Some Samples.d1 /\
    last (trace w') = Some (EvMoveDocumentState "d1" "i-0abc" pending corrupt).
Proof.
  split; [reflexivity|].
  destruct (Submit_persists_then_enqueues_or_quarantines
              Samples.isAssociation (Samples.processor Samples.idle)
              Samples.ctx Samples.d1 Samples.busyD1 eq_refl)
    as (w' & Hrun & _ & Hout).
  vm_compute in Hout. destruct Hout as (Htrace & Hp & Hc & _).
  exists w'. split; [exact Hrun|]. split; [exact Hp|]. split; [exact Hc|].
  apply (f_equal last) in Htrace. exact Htrace.
Defined.

(** C4 as stated fails: what [Submit] returns is the same whether the pool
    took the job or refused it, so no reading of it gives the caller the
    pool's error. *)
Lemma Submit_result_carries_no_error :
  ~ exists asError : unit -> option task.PoolError,
      forall (w : World) (r : unit) (w' : World),
        Submit Samples.isAssociation (Samples.processor Samples.idle)
          Samples.d1 w = Some (r, w') ->
        asError r =
          (task.Submit (jobIDOf Samples.isAssociation Samples.d1)
             (ProcessCommandJob Samples.ctx Samples.idle Samples.d1)
             (pools w SendCommandPoolRef)).1.
Proof.
  intros [asError H].
  destruct (Submit Samples.isAssociation (Samples.processor Samples.idle)
              Samples.d1 Samples.emptyWorld)
    as [[[] w1]|] eqn:H1; [|vm_compute in H1; discriminate].
  destruct (Submit Samples.isAssociation (Samples.processor Samples.idle)
              Samples.d1 Samples.busyD1)
    as [[[] w2]|] eqn:H2; [|vm_compute in H2; discriminate].
  pose proof (H _ _ _ H1) as Haccepted.
  pose proof (H _ _ _ H2) as Hrefused.
  vm_compute in Haccepted, Hrefused. congruence.
Qed.

(** A cancel document whose job-id is already in the cancel pool. *)
Lemma Cancel_rejected_stays_pending_witness :
  context (Samples.processor Samples.idle) = Some Samples.ctx /\
  (task.Submit (jobIDOf Samples.isAssociation Samples.c3)
     (ProcessCancelCommandJob Samples.ctx SendCommandPoolRef Samples.c3)
     (pools Samples.busyC3 CancelCommandPoolRef)).1
  = Some task.DuplicateJobId /\
  exists w',
    Cancel Samples.isAssociation (Samples.processor Samples.idle)
      Samples.c3 Samples.busyC3 = Some (tt, w') /\
    files w' "i-0abc" pending !! "c3" = Some Samples.c3 /\
    files w' "i-0abc" corrupt !! "c3" = None /\
    task.jobs (pools w' CancelCommandPoolRef)
    = task.jobs (pools Samples.busyC3 CancelCommandPoolRef).
Proof.
  split; [reflexivity|]. split; [reflexivity|].
  destruct (Cancel_rejected_stays_pending
              Samples.isAssociation (Samples.processor Samples.idle)
              Samples.ctx Samples.c3 Samples.busyC3 task.DuplicateJobId
              eq_refl eq_refl)
    as (w' & Hrun & _ & _ & Hp & Hcorrupt & Hpools & _).
  exists w'. split; [exact Hrun|]. split; [exact Hp|].
  split; [rewrite Hcorrupt; reflexivity|]. now rewrite Hpools.
Defined.

(** The job-id of a plain command is its message id. *)
Lemma job_id_and_targeted_cancel_witness :
  context (Samples.processor Samples.idle) = Some Samples.ctx /\
  jobIDOf Samples.isAssociation Samples.d1 = "m-d1" /\
  exists w' t,
    processCancelCommand Samples.ctx SendCommandPoolRef Samples.c3
      Samples.busyD1 = Some (tt, w') /\
    trace w' = trace Samples.busyD1 ++ t /\
    filter isPoolEvent t = [EvPoolCancel SendCommandPoolRef "m-d1" true] /\
    pools w' CancelCommandPoolRef = pools Samples.busyD1 CancelCommandPoolRef.
Proof.
  split; [reflexivity|].
  destruct (job_id_and_targeted_cancel
              Samples.isAssociation (Samples.processor Samples.idle)
              Samples.ctx Samples.c3 Samples.busyD1 eq_refl)
    as (_ & _ & _ & Hcancel).
  split; [reflexivity|].
  destruct (Hcancel SendCommandPoolRef)
    as (w' & t & found & js' & Hrun & Htrace & Hevents & Hother & _).
  exists w', t. split; [exact Hrun|]. split; [exact Htrace|].
  split.
  - clear -Hrun Htrace.
    vm_compute in Hrun. injection Hrun as <-.
    vm_compute in Htrace. subst t. reflexivity.
  - apply Hother. discriminate.
Defined.

(** Recovery after a crash: [d4] has run once, [d5] is at the limit of
    three. *)
Lemma recovery_increments_or_quarantines_witness :
  context (Samples.processor Samples.idle) = Some Samples.ctx /\
  isInt64 3 /\ isInt64 1 /\
  namedByID (files Samples.crashed "i-0abc" current) /\
  files Samples.crashed "i-0abc" current !! "d4" = Some Samples.d4 /\
  isSupportedDocumentType (Samples.processor Samples.idle)
    (model.DocumentType' Samples.d4) = true /\
  exists w',
    processInProgressDocuments Samples.isAssociation
      (Samples.processor Samples.idle) "i-0abc" Samples.crashed
    = Some (tt, w') /\
    resChan w' = [] /\
    files w' "i-0abc" current !! "d4" = Some (model.setRunCount 2 Samples.d4).
Proof.
  assert (Hnamed : namedByID (files Samples.crashed "i-0abc" current)).
  { apply (bool_decide_unpack _). vm_compute. exact I. }
  assert (Hlimit : isInt64 3) by (unfold isInt64; lia).
  assert (Hruns : isInt64 1) by (unfold isInt64; lia).
  split; [reflexivity|]. split; [exact Hlimit|]. split; [exact Hruns|].
  split; [exact Hnamed|].
  split; [reflexivity|]. split; [reflexivity|].
  destruct (recovery_increments_or_quarantines
              Samples.isAssociation (Samples.processor Samples.idle)
              Samples.ctx "i-0abc" Samples.crashed "d4" Samples.d4
              eq_refl Hlimit Hruns Hnamed eq_refl eq_refl)
    as (w' & t & Hrun & _ & Hchan & _ & Hbelow).
  exists w'. split; [exact Hrun|]. split; [exact Hchan|].
  destruct Hbelow as (_ & [e|] & Hevents & Hfiles); [reflexivity | |].
  - exfalso. clear -Hrun Hfiles. vm_compute in Hrun. injection Hrun as <-.
    destruct Hfiles as [Hcur _]. vm_compute in Hcur. discriminate Hcur.
  - exact Hfiles.
Defined.

(** C2 as stated fails: a document found in current at its retry limit is
    nowhere persisted with one more run. *)
Lemma recovery_at_the_limit_does_not_increment :
  ~ (forall (p : EngineProcessor) (ctx : context_T) (instID : string)
       (w w' : World) (f : string) (doc : model.DocumentState),
       context p = Some ctx ->
       namedByID (files w instID current) ->
       files w instID current !! f = Some doc ->
       processInProgressDocuments Samples.isAssociation p instID w
       = Some (tt, w') ->
       exists loc,
         files w' instID loc !! f
         = Some (model.setRunCount
                   (model.RunCount (model.DocumentInformation doc) + 1) doc)).
Proof.
  intros H.
  destruct (processInProgressDocuments Samples.isAssociation
              (Samples.processor Samples.idle) "i-0abc" Samples.crashed)
    as [[[] w']|] eqn:Hrun; [|vm_compute in Hrun; discriminate].
  destruct (H (Samples.processor Samples.idle) Samples.ctx "i-0abc"
              Samples.crashed w' "d5" Samples.d5) as [loc Hloc];
    [reflexivity | apply (bool_decide_unpack _); vm_compute; exact I
    | reflexivity | exact Hrun |].
  vm_compute in Hrun. injection Hrun as <-.
  destruct loc; vm_compute in Hloc; discriminate Hloc.
Qed.

(** A soft stop of an idle processor. *)
Lemma Stop_shuts_both_pools_then_closes_witness :
  context (Samples.processor Samples.idle) = Some Samples.ctx /\
  chanClosed Samples.emptyWorld = false /\
  exists w',
    Stop [true; false] (Samples.processor Samples.idle)
      contracts.StopTypeSoftStop Samples.emptyWorld = Some (tt, w') /\
    last (trace w') = Some EvClose /\
    chanClosed w' = true /\
    task.isShutdown (pools w' SendCommandPoolRef) = true /\
    task.isShutdown (pools w' CancelCommandPoolRef) = true.
Proof.
  split; [reflexivity|]. split; [reflexivity|].
  destruct (Stop_shuts_both_pools_then_closes [true; false]
              (Samples.processor Samples.idle) Samples.ctx
              contracts.StopTypeSoftStop Samples.emptyWorld eq_refl eq_refl)
    as (w' & shutdowns & Hrun & Htrace & _ & Hclosed & _ & Hs & Hc).
  exists w'. split; [exact Hrun|].
  split; [rewrite Htrace, app_assoc; apply last_snoc|].
  split; [exact Hclosed|]. split; [exact Hs | exact Hc].
Defined.

(** *** Where the code leaves the specification *)

(** C6: on [Start], a document of an unsupported type found in current is
    rewritten with one more run... *)
Lemma Start_rewrites_unsupported_in_progress_document :
  isSupportedDocumentType (Samples.processor Samples.idle)
    (model.DocumentType' Samples.d6) = false /\
  exists w',
    Start Samples.isAssociation Samples.platform
      (Samples.processor Samples.idle) Samples.foreignCurrent
    = Some ((true, None), w') /\
    files Samples.foreignCurrent "i-0abc" current !! "d6" = Some Samples.d6 /\
    files w' "i-0abc" current !! "d6" = Some (model.setRunCount 1 Samples.d6) /\
    trace w' =
      [ EvLog LDebug "processing previously unexecuted document - %v"
          [VStr "d6"];
        EvPersistData "d6" "i-0abc" current (model.setRunCount 1 Samples.d6);
        EvLog LDebug "No documents to process from %v"
          [VDir "i-0abc" pending] ].
Proof.
  split; [reflexivity|]. eexists. split; [vm_compute; reflexivity|].
  repeat split.
Qed.

(** ... whereas the same document found in pending is left as it is. *)
Lemma Start_leaves_unsupported_pending_document :
  exists w',
    Start Samples.isAssociation Samples.platform
      (Samples.processor Samples.idle) Samples.foreignPending
    = Some ((true, None), w') /\
    files w' "i-0abc" pending !! "d6" = Some Samples.d6 /\
    Forall (fun e => isCore e = false) (trace w').
Proof.
  eexists. split; [vm_compute; reflexivity|].
  split; [reflexivity|]. repeat constructor.
Qed.

(** C9: a cancel document that went through [Cancel] and its cancel job
    is in pending and in completed at once. *)
Lemma cancel_document_ends_in_two_locations :
  exists w',
    (Cancel Samples.isAssociation (Samples.processor Samples.idle)
       Samples.c3 >>
     run_workerRun CancelCommandPoolRef) Samples.emptyWorld
    = Some (tt, w') /\
    files w' "i-0abc" pending !! "c3" = Some Samples.c3 /\
    files w' "i-0abc" completed !! "c3"
    = Some (model.setDocumentStatus contracts.ResultStatusFailed
              (model.setDebugInfo "Command cmd-d1 couldn't be cancelled"
                 Samples.c3)) /\
    task.jobs (pools w' CancelCommandPoolRef) = [].
Proof.
  eexists. split; [vm_compute; reflexivity|]. repeat split.
Qed.

(** *** Further properties at work *)

Abbreviation run_jobBody :=
  (runJobBody Samples.platform Samples.cloudWatch Samples.dataStore
     Samples.documentRoot Samples.join Samples.buildPath).

(** A foreign document in pending survives a recovery untouched. *)
Lemma pending_unsupported_left_alone_witness :
  context (Samples.processor Samples.idle) = Some Samples.ctx /\
  isSupportedDocumentType (Samples.processor Samples.idle)
    (model.DocumentType' Samples.d6) = false /\
  exists w',
    processPendingDocuments Samples.isAssociation
      (Samples.processor Samples.idle) "i-0abc" Samples.foreignPending
    = Some (tt, w') /\
    files w' "i-0abc" pending !! "d6" = Some Samples.d6 /\
    files w' "i-0abc" corrupt !! "d6" = None.
Proof.
  split; [reflexivity|]. split; [reflexivity|].
  destruct (pending_unsupported_left_alone
              Samples.isAssociation (Samples.processor Samples.idle)
              Samples.ctx "i-0abc" Samples.foreignPending "d6" Samples.d6
              eq_refl)
    as (w' & t & Hrun & _ & _ & Hsame);
    [apply (bool_decide_unpack _); vm_compute; exact I
    | reflexivity | reflexivity |].
  exists w'. split; [exact Hrun|].
  split; rewrite Hsame; reflexivity.
Defined.

(** [d1] found in pending after a restart is queued again. *)
Lemma pending_supported_resubmitted_witness :
  context (Samples.processor Samples.idle) = Some Samples.ctx /\
  files Samples.pendingD1 "i-0abc" pending !! "d1" = Some Samples.d1 /\
  exists w',
    processPendingDocuments Samples.isAssociation
      (Samples.processor Samples.idle) "i-0abc" Samples.pendingD1
    = Some (tt, w') /\
    files w' "i-0abc" pending !! "d1" = Some Samples.d1 /\
    map task.jobID (task.jobs (pools w' SendCommandPoolRef)) = ["m-d1"].
Proof.
  split; [reflexivity|]. split; [reflexivity|].
  destruct (pending_supported_resubmitted
              Samples.isAssociation (Samples.processor Samples.idle)
              Samples.ctx "i-0abc" Samples.pendingD1 "d1" Samples.d1
              eq_refl)
    as (w' & t & [e|] & Hrun & _ & _ & Hfiles);
    [apply (bool_decide_unpack _); vm_compute; exact I
    | reflexivity | reflexivity | |].
  - exfalso. clear -Hrun Hfiles. vm_compute in Hrun. injection Hrun as <-.
    destruct Hfiles as [Hp _]. vm_compute in Hp. discriminate Hp.
  - exists w'. split; [exact Hrun|]. split; [exact Hfiles|].
    clear -Hrun. vm_compute in Hrun. injection Hrun as <-. reflexivity.
Defined.

(** [d1] from submission to completion. *)
Lemma Submit_then_job_body_witness :
  context (Samples.processor Samples.succeeding) = Some Samples.ctx /\
  chanClosed Samples.emptyWorld = false /\
  exists w',
    (Submit Samples.isAssociation (Samples.processor Samples.succeeding)
       Samples.d1 >>
     run_jobBody
       (ProcessCommandJob Samples.ctx Samples.succeeding Samples.d1)
       task.Active) Samples.emptyWorld = Some (tt, w') /\
    length (resChan w') = 3%nat /\
    files w' "i-0abc" pending !! "d1" = None /\
    files w' "i-0abc" current !! "d1" = None /\
    files w' "i-0abc" completed !! "d1" = Some Samples.d1.
Proof.
  split; [reflexivity|]. split; [reflexivity|].
  destruct (Submit_then_job_body
              Samples.isAssociation Samples.platform Samples.cloudWatch
              Samples.dataStore Samples.documentRoot Samples.join
              Samples.buildPath (Samples.processor Samples.succeeding)
              Samples.ctx task.Active Samples.d1 Samples.emptyWorld
              eq_refl eq_refl eq_refl)
    as (w' & Hrun & Hchan & Hp & Hdone & _).
  destruct Hdone as [Hcur Hcompleted]; [reflexivity|].
  exists w'. split; [exact Hrun|].
  split; [rewrite Hchan; reflexivity|]. split; [exact Hp|].
  split; [exact Hcur | exact Hcompleted].
Defined.

(** [d1] submitted twice in a row. *)
Lemma Submit_twice_quarantines_witness :
  context (Samples.processor Samples.idle) = Some Samples.ctx /\
  exists w',
    (Submit Samples.isAssociation (Samples.processor Samples.idle)
       Samples.d1 >>
     Submit Samples.isAssociation (Samples.processor Samples.idle)
       Samples.d1) Samples.emptyWorld = Some (tt, w') /\
    files w' "i-0abc" pending !! "d1" = None /\
    files w' "i-0abc" corrupt !! "d1" = Some Samples.d1 /\
    map task.jobID (task.jobs (pools w' SendCommandPoolRef)) = ["m-d1"].
Proof.
  split; [reflexivity|].
  destruct (Submit_twice_quarantines
              Samples.isAssociation (Samples.processor Samples.idle)
              Samples.ctx Samples.d1 Samples.emptyWorld eq_refl eq_refl)
    as (w' & Hrun & Hp & Hc & Hjobs & _).
  exists w'. split; [exact Hrun|]. split; [exact Hp|]. split; [exact Hc|].
  apply (f_equal (map task.jobID)) in Hjobs. exact Hjobs.
Defined.

(** [c3] aimed at the queued job of [d1]. *)
Lemma Cancel_then_job_body_witness :
  context (Samples.processor Samples.idle) = Some Samples.ctx /\
  exists w',
    (Cancel Samples.isAssociation (Samples.processor Samples.idle)
       Samples.c3 >>
     run_jobBody
       (ProcessCancelCommandJob Samples.ctx SendCommandPoolRef Samples.c3)
       task.Active) Samples.busyD1 = Some (tt, w') /\
    files w' "i-0abc" pending !! "c3" = Some Samples.c3 /\
    files w' "i-0abc" current !! "c3" = None /\
    files w' "i-0abc" completed !! "c3"
    = Some (model.setDocumentStatus contracts.ResultStatusSuccess
              (model.setDebugInfo "Command cmd-d1 cancelled" Samples.c3)).
Proof.
  split; [reflexivity|].
  destruct (Cancel_then_job_body
              Samples.isAssociation Samples.platform Samples.cloudWatch
              Samples.dataStore Samples.documentRoot Samples.join
              Samples.buildPath (Samples.processor Samples.idle)
              Samples.ctx task.Active Samples.c3 Samples.busyD1
              eq_refl eq_refl)
    as (w' & found & Hrun & Hfound & Hp & Hcur & Hcompleted & _).
  exists w'. split; [exact Hrun|]. split; [exact Hp|]. split; [exact Hcur|].
  rewrite (Hfound ltac:(discriminate)) in Hcompleted. exact Hcompleted.
Defined.

(** [d1] and [c3] arrive after a hard stop. *)
Lemma after_Stop_nothing_is_enqueued_witness :
  context (Samples.processor Samples.idle) = Some Samples.ctx /\
  chanClosed Samples.emptyWorld = false /\
  (exists w',
      (Stop [false] (Samples.processor Samples.idle)
         contracts.StopTypeHardStop >>
       Submit Samples.isAssociation (Samples.processor Samples.idle)
         Samples.d1) Samples.emptyWorld = Some (tt, w') /\
      files w' "i-0abc" corrupt !! "d1" = Some Samples.d1) /\
  (exists w',
      (Stop [false] (Samples.processor Samples.idle)
         contracts.StopTypeHardStop >>
       Cancel Samples.isAssociation (Samples.processor Samples.idle)
         Samples.c3) Samples.emptyWorld = Some (tt, w') /\
      files w' "i-0abc" pending !! "c3" = Some Samples.c3 /\
      task.jobs (pools w' CancelCommandPoolRef) = []).
Proof.
  split; [reflexivity|]. split; [reflexivity|]. split.
  - destruct (after_Stop_nothing_is_enqueued
                Samples.isAssociation [false]
                (Samples.processor Samples.idle) Samples.ctx
                contracts.StopTypeHardStop Samples.d1 Samples.emptyWorld
                eq_refl eq_refl)
      as [(w' & Hrun & _ & Hc & _) _].
    exists w'. split; [exact Hrun | exact Hc].
  - destruct (after_Stop_nothing_is_enqueued
                Samples.isAssociation [false]
                (Samples.processor Samples.idle) Samples.ctx
                contracts.StopTypeHardStop Samples.c3 Samples.emptyWorld
                eq_refl eq_refl)
      as [_ (w' & Hrun & Hp & _ & Hjobs)].
    exists w'. split; [exact Hrun|]. split; [exact Hp | exact Hjobs].
Defined.

(** The foreign document [d6] found in current. *)
Lemma in_progress_unsupported_not_enqueued_witness :
  context (Samples.processor Samples.idle) = Some Samples.ctx /\
  isSupportedDocumentType (Samples.processor Samples.idle)
    (model.DocumentType' Samples.d6) = false /\
  exists w',
    processInProgressDocuments Samples.isAssociation
      (Samples.processor Samples.idle) "i-0abc" Samples.foreignCurrent
    = Some (tt, w') /\
    files w' "i-0abc" current !! "d6" = Some (model.setRunCount 1 Samples.d6) /\
    task.jobs (pools w' SendCommandPoolRef) = [].
Proof.
  split; [reflexivity|]. split; [reflexivity|].
  destruct (in_progress_unsupported_not_enqueued
              Samples.isAssociation (Samples.processor Samples.idle)
              Samples.ctx "i-0abc" Samples.foreignCurrent "d6" Samples.d6
              eq_refl)
    as (w' & t & Hrun & _ & _ & _ & Hbelow);
    [apply (bool_decide_unpack _); vm_compute; exact I
    | reflexivity | reflexivity |].
  destruct Hbelow as [_ Hcur]; [reflexivity|].
  exists w'. split; [exact Hrun|]. split; [exact Hcur|].
  clear -Hrun. vm_compute in Hrun. injection Hrun as <-. reflexivity.
Defined.

(** A restart with [d4] in progress and [d1] pending. *)
Lemma Start_in_progress_before_pending_witness :
  context (Samples.processor Samples.idle) = Some Samples.ctx /\
  files Samples.restarted "i-0abc" current !! "d4" = Some Samples.d4 /\
  files Samples.restarted "i-0abc" pending !! "d1" = Some Samples.d1 /\
  exists w',
    Start Samples.isAssociation Samples.platform
      (Samples.processor Samples.idle) Samples.restarted
    = Some ((true, None), w') /\
    map task.jobID (task.jobs (pools w' SendCommandPoolRef))
    = ["m-d4"; "m-d1"].
Proof.
  assert (Hcur : namedByID (files Samples.restarted "i-0abc" current)).
  { apply (bool_decide_unpack _). vm_compute. exact I. }
  assert (Hpen : namedByID (files Samples.restarted "i-0abc" pending)).
  { apply (bool_decide_unpack _). vm_compute. exact I. }
  split; [reflexivity|]. split; [reflexivity|]. split; [reflexivity|].
  destruct (Start_in_progress_before_pending
              Samples.isAssociation Samples.platform
              (Samples.processor Samples.idle) Samples.ctx "i-0abc"
              Samples.restarted "d4" "d1" Samples.d4 Samples.d1
              eq_refl eq_refl Hcur Hpen eq_refl eq_refl eq_refl eq_refl
              eq_refl eq_refl eq_refl)
    as (w' & t1 & t2 & ef & eg & Hrun & _).
  exists w'. split; [exact Hrun|].
  clear -Hrun. vm_compute in Hrun. injection Hrun as <-. reflexivity.
Defined.

(** Three crashes in a row with [d4], which has run once, in progress. *)
Lemma restarts_retry_within_the_limit_witness :
  files Samples.crashed "i-0abc" current !! "d4" = Some Samples.d4 /\
  exists w',
    restarts Samples.isAssociation Samples.platform Samples.idle 3
      Samples.ctx 1 1 ["SendCommand"] Samples.crashed = Some (tt, w') /\
    files w' "i-0abc" current !! "d4" = None.
Proof.
  split; [reflexivity|].
  destruct (restarts_retry_within_the_limit
              Samples.isAssociation Samples.platform Samples.idle
              Samples.ctx 1 1 ["SendCommand"] "i-0abc" "d4" Samples.d4 3
              Samples.crashed eq_refl)
    as (w' & Hrun & _ & Hgone);
    [unfold isInt64; cbn; lia | unfold isInt64; cbn; lia
    | apply (bool_decide_unpack _); vm_compute; exact I | reflexivity |].
  exists w'. split; [exact Hrun|]. apply Hgone. cbn. lia.
Defined.

(** [d1]'s job is still running when a hard stop has returned. *)
Lemma job_outliving_Stop_panics_on_its_first_result_witness :
  context (Samples.processor Samples.succeeding) = Some Samples.ctx /\
  chanClosed Samples.pendingD1 = false /\
  (Stop [true] (Samples.processor Samples.succeeding)
     contracts.StopTypeHardStop >>
   run_processCommand Samples.ctx Samples.succeeding task.ShutDown Samples.d1)
    Samples.pendingD1 = None.
Proof.
  split; [reflexivity|]. split; [reflexivity|].
  apply (job_outliving_Stop_panics_on_its_first_result
           Samples.platform Samples.cloudWatch Samples.dataStore
           Samples.documentRoot Samples.join Samples.buildPath [true]
           (Samples.processor Samples.succeeding) Samples.ctx
           contracts.StopTypeHardStop Samples.ctx Samples.succeeding
           task.ShutDown Samples.d1 Samples.pendingD1 eq_refl eq_refl).
  discriminate.
Defined.

(** ** Properties of package [inventory] *)

(** Below 2^24 the conversion to [float32] is exact... *)
Lemma float32_small (n : Z) : 0 <= n < 2 ^ 24 -> inventory.float32 n = n.
Proof.
  intros [Hn Hlt]. unfold inventory.float32.
  rewrite Z.abs_eq by exact Hn.
  destruct (Z.eq_dec n 0) as [->|Hne]; [reflexivity|].
  assert (Hlog : Z.log2 n < 24) by (apply Z.log2_lt_pow2; lia).
  apply Z.ltb_lt in Hlog. now rewrite Hlog.
Qed.

(** ... and from 2^24 on it stays at or above 2^24. *)
Lemma float32_large (n : Z) : 2 ^ 24 <= n -> 2 ^ 24 <= inventory.float32 n.
Proof.
  intros Hn. unfold inventory.float32.
  assert (Hpos : 0 < n) by lia.
  rewrite Z.abs_eq by lia.
  assert (Hlog : 24 <= Z.log2 n) by (apply Z.log2_le_pow2; lia).
  destruct (Z.ltb_spec (Z.log2 n) 24) as [?|_]; [lia|].
  rewrite Z.sgn_pos by exact Hpos. rewrite Z.mul_1_l.
  set (e := Z.log2 n) in *. set (sh := e - 23).
  assert (Hsh : 0 < sh) by (unfold sh; lia).
  assert (Hq : 2 ^ 23 <= Z.shiftr n sh).
  { rewrite Z.shiftr_div_pow2 by lia.
    apply Z.div_le_lower_bound; [apply Z.pow_pos_nonneg; lia|].
    rewrite Z.mul_comm, <- Z.pow_add_r by lia.
    replace (23 + sh) with e by (unfold sh; lia).
    apply Z.log2_spec. exact Hpos. }
  assert (Hpow : 2 ^ 24 <= 2 ^ 23 * 2 ^ sh).
  { rewrite <- Z.pow_add_r by lia. apply Z.pow_le_mono_r; lia. }
  assert (H2 : 0 < 2 ^ sh) by (apply Z.pow_pos_nonneg; lia).
  destruct (_ || _); rewrite Z.shiftl_mul_pow2 by lia; nia.
Qed.

(** Against a limit below 2^24, rounding to [float32] does not change the
    comparison. *)
Lemma float32_compare (limit n : Z) :
  0 <= limit < 2 ^ 24 -> 0 <= n ->
  (limit <? inventory.float32 n)%Z = (limit <? n)%Z.
Proof.
  intros Hlimit Hn.
  destruct (Z.lt_ge_cases n (2 ^ 24)) as [Hsmall|Hbig].
  - now rewrite float32_small by lia.
  - pose proof (float32_large n Hbig).
    rewrite (proj2 (Z.ltb_lt _ _)) by lia.
    now rewrite (proj2 (Z.ltb_lt _ _)) by lia.
Qed.

Section InventoryProperties.
Context {T : Type} `{Countable T} {Config Item SsmItem : Type}.
Variable gatherer_Name : T -> string.
Variable gatherer_Run : T -> Config -> list Item * option inventory.error.
Variable item_Name : Item -> string.
Variable json_Marshal_item : Item -> string.
Variable json_Marshal_items : list Item -> string.
Variables SizeLimitKBPerInventoryType TotalSizeLimitKB : Z.
Variable InventoryPolicyDocName : string.
Variable path_Join : list string -> string.
Variable fileutil_Exists : string -> bool.
Variable fileutil_ReadAllText : string -> string * option inventory.error.
Variable json_Unmarshal :
  string -> inventory.Policy Config * option inventory.error.
Variable ConvertToSsmInventoryItems :
  list Item -> list SsmItem * option inventory.error.
Variable rangePolicy : gmap string Config -> list (string * Config).
Variable rangeGatherers : gmap T Config -> list (T * Config).

Set Default Proof Using "Type".

Local Abbreviation Plugin := (inventory.Plugin (T:=T)).
Local Abbreviation Event := (@inventory.Event T Config SsmItem).
Local Abbreviation VerifyInventoryDataSize :=
  (inventory.VerifyInventoryDataSize (T:=T) (Config:=Config)
     (SsmItem:=SsmItem) item_Name json_Marshal_item json_Marshal_items
     SizeLimitKBPerInventoryType TotalSizeLimitKB).
Local Abbreviation ValidateGatherers_range :=
  (inventory.ValidateGatherers_range (Config:=Config) (SsmItem:=SsmItem)).
Local Abbreviation ValidateGatherers :=
  (inventory.ValidateGatherers (SsmItem:=SsmItem) rangePolicy).
Local Abbreviation RunGatherers_sizes :=
  (inventory.RunGatherers_sizes (T:=T) (Config:=Config) (SsmItem:=SsmItem)
     item_Name json_Marshal_item json_Marshal_items
     SizeLimitKBPerInventoryType TotalSizeLimitKB).
Local Abbreviation RunGatherers_range :=
  (inventory.RunGatherers_range (SsmItem:=SsmItem)
     gatherer_Name gatherer_Run item_Name json_Marshal_item
     json_Marshal_items SizeLimitKBPerInventoryType TotalSizeLimitKB).
Local Abbreviation RunGatherers :=
  (inventory.RunGatherers (SsmItem:=SsmItem)
     gatherer_Name gatherer_Run item_Name json_Marshal_item
     json_Marshal_items SizeLimitKBPerInventoryType TotalSizeLimitKB
     rangeGatherers).
Local Abbreviation ApplyInventoryPolicy :=
  (inventory.ApplyInventoryPolicy
     gatherer_Name gatherer_Run item_Name json_Marshal_item
     json_Marshal_items SizeLimitKBPerInventoryType TotalSizeLimitKB
     InventoryPolicyDocName path_Join fileutil_Exists fileutil_ReadAllText
     json_Unmarshal ConvertToSsmInventoryItems
     rangePolicy rangeGatherers).

(** X15: The size check is the comparison of the two encoded lengths, in bytes,
    with the limits in KiB: the detour through [float32] loses nothing as
    long as the limits stay below 16 MiB. *)
Theorem VerifyInventoryDataSize_exact (item : Item) (items : list Item) :
  0 <= SizeLimitKBPerInventoryType -> 1024 * SizeLimitKBPerInventoryType < 2 ^ 24 ->
  0 <= TotalSizeLimitKB -> 1024 * TotalSizeLimitKB < 2 ^ 24 ->
  (VerifyInventoryDataSize item items).1 = true
  <-> Z.of_nat (String.length (json_Marshal_item item))
      <= 1024 * SizeLimitKBPerInventoryType
      /\ Z.of_nat (String.length (json_Marshal_items items))
         <= 1024 * TotalSizeLimitKB.
Proof.
  intros H1 H1' H2 H2'. unfold inventory.VerifyInventoryDataSize. cbn [fst].
  rewrite !(float32_small SizeLimitKBPerInventoryType),
          !(float32_small TotalSizeLimitKB) by lia.
  rewrite !float32_compare by lia.
  rewrite negb_true_iff, orb_false_iff, !Z.ltb_ge. reflexivity.
Qed.


(** *** [ValidateGatherers] *)

Lemma ValidateGatherers_range_spec (p : Plugin) (l : list (string * Config)) :
  forall ex : gmap T Config,
  exists ex' err t,
    ValidateGatherers_range p l ex = ((ex', err), t) /\
    (err = None <->
     forall name c, (name, c) ∈ l ->
       is_Some (inventory.supportedGatherers p !! name)
       \/ is_Some (inventory.installedGathereres p !! name)) /\
    (forall g c, ex' !! g = Some c ->
       ex !! g = Some c
       \/ exists name, (name, c) ∈ l
                       /\ inventory.supportedGatherers p !! name = Some g) /\
    (forall g, is_Some (ex !! g) -> is_Some (ex' !! g)) /\
    (err = None -> forall name c g, (name, c) ∈ l ->
       inventory.supportedGatherers p !! name = Some g -> is_Some (ex' !! g)) /\
    (forall e, err = Some e ->
       exists name c, (name, c) ∈ l
         /\ inventory.supportedGatherers p !! name = None
         /\ inventory.installedGathereres p !! name = None
         /\ e = "Unrecognized inventory gatherer - " +:+ name +:+ " ") /\
    (forall ev, ev ∈ t ->
       exists name c, (name, c) ∈ l
         /\ inventory.supportedGatherers p !! name = None
         /\ is_Some (inventory.installedGathereres p !! name)
         /\ ev = inventory.Log LInfo
                   "Installed but unsupported gatherer on this platform - %v"
                   [inventory.AStr name]).
Proof.
  induction l as [|[name config] rest IH]; intros ex.
  - exists ex, None, []. split; [reflexivity|].
    split; [split; [intros _ ? ? Hin; inversion Hin | reflexivity]|].
    split; [auto|]. split; [auto|].
    split; [intros ? ? ? ? Hin; inversion Hin|].
    split; [discriminate | intros ? Hin; inversion Hin].
  - cbn [inventory.ValidateGatherers_range].
    destruct (inventory.supportedGatherers p !! name) as [g0|] eqn:Hsup.
    + destruct (IH (<[g0 := config]> ex))
        as (ex' & err & t & -> & Hok & Hfrom & Hkeep & Hall & Herr & Hlog).
      exists ex', err, t. split; [reflexivity|].
      split; [|split; [|split; [|split; [|split]]]].
      * rewrite Hok. split.
        -- intros Hrec n c [[= -> ->]|Hin]%elem_of_cons; [left; eauto|eauto].
        -- intros Hrec n c Hin. apply (Hrec n c). now right.
      * intros g c [Hex|(n & Hin & Hn)]%Hfrom.
        -- destruct (decide (g0 = g)) as [->|Hne].
           ++ rewrite lookup_insert_eq in Hex. injection Hex as ->.
              right. exists name. split; [left|exact Hsup].
           ++ rewrite lookup_insert_ne in Hex by exact Hne. now left.
        -- right. exists n. split; [now right | exact Hn].
      * intros g Hg. apply Hkeep.
        destruct (decide (g0 = g)) as [->|Hne].
        -- rewrite lookup_insert_eq. eauto.
        -- now rewrite lookup_insert_ne.
      * intros Hnone n c g [[= -> ->]|Hin]%elem_of_cons Hn.
        -- rewrite Hsup in Hn. injection Hn as ->.
           apply Hkeep. rewrite lookup_insert_eq. eauto.
        -- eapply Hall; eauto.
      * intros e (n & c & Hin & Hrest)%Herr.
        exists n, c. split; [now right | exact Hrest].
      * intros ev (n & c & Hin & Hrest)%Hlog.
        exists n, c. split; [now right | exact Hrest].
    + destruct (inventory.installedGathereres p !! name) as [g0|] eqn:Hins.
      * destruct (IH ex)
          as (ex' & err & t & -> & Hok & Hfrom & Hkeep & Hall & Herr & Hlog).
        eexists ex', err, _. split; [reflexivity|].
        split; [|split; [|split; [|split; [|split]]]].
        -- rewrite Hok. split.
           ++ intros Hrec n c [[= -> ->]|Hin]%elem_of_cons;
                [right; rewrite Hins; eauto|eauto].
           ++ intros Hrec n c Hin. apply (Hrec n c). now right.
        -- intros g c [Hex|(n & Hin & Hn)]%Hfrom; [now left|].
           right. exists n. split; [now right | exact Hn].
        -- exact Hkeep.
        -- intros Hnone n c g [[= -> ->]|Hin]%elem_of_cons Hn.
           ++ rewrite Hsup in Hn. discriminate Hn.
           ++ eapply Hall; eauto.
        -- intros e (n & c & Hin & Hrest)%Herr.
           exists n, c. split; [now right | exact Hrest].
        -- intros ev [->|(n & c & Hin & Hrest)%Hlog]%elem_of_cons.
           ++ exists name, config. split; [left|].
              split; [exact Hsup|]. split; [rewrite Hins; eauto | reflexivity].
           ++ exists n, c. split; [now right | exact Hrest].
      * eexists ex, _, []. split; [reflexivity|].
        split; [|split; [|split; [|split; [|split]]]].
        -- split; [discriminate|]. intros Hrec.
           destruct (Hrec name config) as [[? Hs]|[? Hi]]; [left|congruence..].
        -- intros g c Hg. now left.
        -- auto.
        -- discriminate.
        -- intros e [= <-]. exists name, config. split; [left|auto].
        -- intros ev Hin. inversion Hin.
Qed.

(** What [ValidateGatherers] logs: one line for each name it skips, in
    the order in which it meets them.  The names skipped are among those
    of the policy, each as often as it is met; once the whole policy has
    been gone through, they are all the names that are not supported. *)
Lemma ValidateGatherers_range_log (p : Plugin) (l : list (string * Config)) :
  forall ex : gmap T Config,
  exists skipped : list string,
    (ValidateGatherers_range p l ex).2
    = map (fun name =>
             inventory.Log LInfo
               "Installed but unsupported gatherer on this platform - %v"
               [inventory.AStr name]) skipped /\
    skipped `sublist_of` l.*1 /\
    (forall name, name ∈ skipped ->
       inventory.supportedGatherers p !! name = None
       /\ is_Some (inventory.installedGathereres p !! name)) /\
    ((ValidateGatherers_range p l ex).1.2 = None ->
     forall name c, (name, c) ∈ l ->
       inventory.supportedGatherers p !! name = None -> name ∈ skipped).
Proof.
  induction l as [|[name config] rest IH]; intros ex.
  - exists []. split; [reflexivity|]. split; [constructor|].
    split; [intros ? Hin; inversion Hin | intros _ ? ? Hin; inversion Hin].
  - cbn [inventory.ValidateGatherers_range].
    destruct (inventory.supportedGatherers p !! name) as [g0|] eqn:Hsup.
    + destruct (IH (<[g0 := config]> ex)) as (skipped & -> & Hsub & Hwhy & Hall).
      exists skipped. split; [reflexivity|].
      split; [now apply sublist_cons|]. split; [exact Hwhy|].
      intros Hnone n c [[= -> ->]|Hin]%elem_of_cons Hn.
      * rewrite Hsup in Hn. discriminate Hn.
      * eapply Hall; eauto.
    + destruct (inventory.installedGathereres p !! name) as [g0|] eqn:Hins.
      * destruct (IH ex) as (skipped & Ht & Hsub & Hwhy & Hall).
        destruct (ValidateGatherers_range p rest ex) as [r t].
        cbn [fst snd] in *. subst t.
        exists (name :: skipped). split; [reflexivity|].
        split; [now apply sublist_skip|]. split.
        -- intros n [->|Hin]%elem_of_cons; [|auto].
           split; [exact Hsup | rewrite Hins; eauto].
        -- intros Hnone n c [[= -> ->]|Hin]%elem_of_cons Hn; [left|].
           right. eapply Hall; eauto.
      * exists []. split; [reflexivity|]. split; [apply sublist_nil_l|].
        split; [intros ? Hin; inversion Hin | discriminate].
Qed.

(** X16: [ValidateGatherers] fails exactly when the policy names a gatherer that
    is neither supported nor installed, and the error names such a
    gatherer.  Whatever it returns, every gatherer handed out is the
    supported gatherer of some name of the policy, with that name's
    configuration; on success every name of the policy that is supported
    has its gatherer in the result.  Names that are installed without being
    supported are skipped with one line each in the log, which holds
    nothing else: on success there is a line for every such name of the
    policy, on failure for those met before the failure.  All this holds
    in whatever order the policy is gone through. *)
Theorem ValidateGatherers_spec (p : Plugin) (policy : inventory.Policy Config) :
  let names := inventory.InventoryPolicy policy in
  rangePolicy names ≡ₚ map_to_list names ->
  exists executors err t,
    ValidateGatherers p policy = ((executors, err), t) /\
    (err = None <->
     forall name, is_Some (names !! name) ->
       is_Some (inventory.supportedGatherers p !! name)
       \/ is_Some (inventory.installedGathereres p !! name)) /\
    (forall g c, executors !! g = Some c ->
       exists name, names !! name = Some c
                    /\ inventory.supportedGatherers p !! name = Some g) /\
    (err = None -> forall name g, is_Some (names !! name) ->
       inventory.supportedGatherers p !! name = Some g ->
       is_Some (executors !! g)) /\
    (forall e, err = Some e ->
       exists name, is_Some (names !! name)
         /\ inventory.supportedGatherers p !! name = None
         /\ inventory.installedGathereres p !! name = None
         /\ e = "Unrecognized inventory gatherer - " +:+ name +:+ " ") /\
    (exists skipped : list string,
       t = map (fun name =>
                  inventory.Log LInfo
                    "Installed but unsupported gatherer on this platform - %v"
                    [inventory.AStr name]) skipped /\
       NoDup skipped /\
       (forall name, name ∈ skipped ->
          is_Some (names !! name)
          /\ inventory.supportedGatherers p !! name = None
          /\ is_Some (inventory.installedGathereres p !! name)) /\
       (err = None ->
        forall name, is_Some (names !! name) ->
          inventory.supportedGatherers p !! name = None ->
          name ∈ skipped)).
Proof.
  intros names Hperm.
  assert (Hin : forall name c,
             (name, c) ∈ rangePolicy names <-> names !! name = Some c).
  { intros name c. rewrite Hperm. apply elem_of_map_to_list. }
  unfold inventory.ValidateGatherers. fold names.
  destruct (ValidateGatherers_range_log p (rangePolicy names) ∅)
    as (skipped & Ht & Hsub & Hwhy & Hevery).
  destruct (ValidateGatherers_range_spec p (rangePolicy names) ∅)
    as (ex' & err & t & Hrun & Hok & Hfrom & _ & Hall & Herr & _).
  rewrite Hrun in Ht, Hevery. cbn [fst snd] in Ht, Hevery. rewrite Hrun.
  exists ex', err, t. split; [reflexivity|].
  split; [|split; [|split; [|split]]].
  - rewrite Hok. split.
    + intros Hrec name [c Hc]. apply (Hrec name c), Hin, Hc.
    + intros Hrec name c Hc%Hin. apply Hrec. eauto.
  - intros g c [Hex|(name & Hc%Hin & Hn)]%Hfrom.
    + rewrite lookup_empty in Hex. discriminate Hex.
    + eauto.
  - intros Hnone name g [c Hc%Hin] Hn. eapply Hall; eauto.
  - intros e (name & c & Hc%Hin & Hrest)%Herr. exists name. eauto.
  - exists skipped. split; [exact Ht|]. split; [|split].
    + apply (sublist_NoDup skipped (rangePolicy names).*1); [|exact Hsub].
      rewrite Hperm. apply NoDup_fst_map_to_list.
    + intros name Hname. split; [|now apply Hwhy].
      apply (elem_of_sublist _ _ _ Hname) in Hsub.
      apply list_elem_of_fmap in Hsub as ([name' c] & -> & Hc%Hin). eauto.
    + intros Hnone name [c Hc%Hin] Hn. eapply Hevery; eauto.
Qed.

(** *** [RunGatherers] *)

Lemma RunGatherers_sizes_spec (gItems items : list Item)
  (err : option inventory.error) :
  exists t,
    RunGatherers_sizes gItems items err =
      (if forallb (fun v => (VerifyInventoryDataSize v items).1) gItems
       then err
       else Some "Size limit exceeded for collected data.", t) /\
    Forall (fun ev : Event => exists lvl fmt args,
                ev = inventory.Log lvl fmt args) t.
Proof.
  induction gItems as [|v rest IH].
  - exists []. split; [reflexivity | constructor].
  - cbn [inventory.RunGatherers_sizes forallb].
    destruct (VerifyInventoryDataSize v items) as [ok t0] eqn:Hv.
    assert (Ht0 : Forall (fun ev : Event => exists lvl fmt args,
                              ev = inventory.Log lvl fmt args) t0).
    { unfold inventory.VerifyInventoryDataSize in Hv. injection Hv as _ <-.
      repeat constructor; eauto. }
    cbn [fst]. destruct ok; cbn [andb].
    + destruct IH as (t & -> & Ht). eexists. split; [reflexivity|].
      apply Forall_app. auto.
    + eexists. split; [reflexivity|].
      apply Forall_app. split; [exact Ht0|]. repeat constructor. eauto.
Qed.

Lemma logs_run_and_upload_nothing (t : list Event) :
  Forall (fun ev : Event => exists lvl fmt args,
              ev = inventory.Log lvl fmt args) t ->
  inventory.gathererRuns t = [] /\ inventory.uploads t = [].
Proof.
  induction 1 as [|ev t (lvl & fmt & args & ->) _ [IHruns IHuploads]].
  - split; reflexivity.
  - split; [exact IHruns | exact IHuploads].
Qed.

Lemma RunGatherers_range_ok (l : list (T * Config)) :
  forall (items0 : list Item) (err0 : option inventory.error),
  Forall (fun gc => (gatherer_Run gc.1 gc.2).2 = None) l ->
  let items := items0 ++ concat (map (fun gc => (gatherer_Run gc.1 gc.2).1) l) in
  exists t,
    RunGatherers_range l items0 err0 =
      ((items,
        match last l with
        | None => err0
        | Some gc =>
            if forallb (fun v => (VerifyInventoryDataSize v items).1)
                 (gatherer_Run gc.1 gc.2).1
            then None
            else Some "Size limit exceeded for collected data."
        end), t) /\
    (forall g c, inventory.GathererRun g c ∈ t <-> (g, c) ∈ l) /\
    (forall x, inventory.SendDataToSSM x ∉ t).
Proof.
  induction l as [|[g c] rest IH]; intros items0 err0 Hok items.
  - exists []. subst items. cbn. rewrite app_nil_r.
    split; [reflexivity|]. split; [|intros x Hin; inversion Hin].
    intros g c. split; intros Hin; inversion Hin.
  - apply Forall_cons in Hok as [Hgc Hrest]. cbn [fst snd] in Hgc.
    cbn [inventory.RunGatherers_range].
    destruct (gatherer_Run g c) as [gItems oe] eqn:Hrun.
    cbn [snd] in Hgc. subst oe.
    destruct (RunGatherers_sizes_spec gItems (items0 ++ gItems) None)
      as (t1 & -> & Ht1).
    destruct (IH (items0 ++ gItems)
                (if forallb (fun v => (VerifyInventoryDataSize v
                                         (items0 ++ gItems)).1) gItems
                 then None
                 else Some "Size limit exceeded for collected data.") Hrest)
      as (t2 & -> & Hruns & Hsend).
    eexists. split.
    + subst items. cbn [map concat fst snd]. rewrite Hrun. cbn [fst].
      rewrite <- !app_assoc. do 2 f_equal.
      destruct rest as [|gc' rest'].
      * cbn. now rewrite Hrun, !app_nil_r.
      * rewrite (last_cons (g, c)).
        destruct (last (gc' :: rest')) eqn:Hlast; [reflexivity|].
        now apply last_None in Hlast.
    + assert (Hlog : forall ev, ev ∈ t1 -> exists lvl fmt args,
                  ev = inventory.Log lvl fmt args).
      { intros ev Hin. exact (proj1 (Forall_forall _ _) Ht1 ev Hin). }
      split.
      * intros g' c'. cbn [app].
        rewrite !elem_of_cons, elem_of_app, Hruns. split.
        -- intros [Hd|[[= -> ->]|[(? & ? & ? & Hd)%Hlog|Hin]]];
             [discriminate Hd | now left | discriminate Hd | now right].
        -- intros [[= -> ->]|Hin]; [right; now left|].
           right. right. now right.
      * intros x. cbn [app].
        rewrite !elem_of_cons, elem_of_app.
        intros [Hd|[Hd|[(? & ? & ? & Hd)%Hlog|Hin]]];
          [discriminate Hd | discriminate Hd | discriminate Hd|].
        exact (Hsend x Hin).
Qed.

Lemma RunGatherers_range_fail (l1 l2 : list (T * Config)) (g : T)
  (c : Config) (gItems : list Item) (e : inventory.error) :
  forall (items0 : list Item) (err0 : option inventory.error),
  Forall (fun gc => (gatherer_Run gc.1 gc.2).2 = None) l1 ->
  gatherer_Run g c = (gItems, Some e) ->
  exists t,
    RunGatherers_range (l1 ++ (g, c) :: l2) items0 err0 =
      ((items0 ++ concat (map (fun gc => (gatherer_Run gc.1 gc.2).1) l1),
        Some ("Encountered error while executing " +:+ gatherer_Name g
              +:+ ". Error - " +:+ e)), t) /\
    (forall g' c', inventory.GathererRun g' c' ∈ t
                   <-> (g', c') ∈ l1 ++ [(g, c)]) /\
    (forall x, inventory.SendDataToSSM x ∉ t).
Proof.
  induction l1 as [|[g1 c1] rest IH]; intros items0 err0 Hok Hfail.
  - cbn [app inventory.RunGatherers_range]. rewrite Hfail.
    eexists. split; [cbn; now rewrite app_nil_r|]. split.
    + intros g' c'. rewrite !elem_of_cons. split.
      * intros [Hd|[[= -> ->]|Hin]];
          [discriminate Hd | now left | inversion Hin].
      * intros [[= -> ->]|Hin]; [right; now left | inversion Hin].
    + intros x. rewrite !elem_of_cons.
      intros [Hd|[Hd|Hin]];
        [discriminate Hd | discriminate Hd | inversion Hin].
  - apply Forall_cons in Hok as [Hgc Hrest]. cbn [fst snd] in Hgc.
    rewrite <- app_comm_cons. cbn [inventory.RunGatherers_range].
    destruct (gatherer_Run g1 c1) as [gItems1 oe] eqn:Hrun.
    cbn [snd] in Hgc. subst oe.
    destruct (RunGatherers_sizes_spec gItems1 (items0 ++ gItems1) None)
      as (t1 & -> & Ht1).
    destruct (IH (items0 ++ gItems1)
                (if forallb (fun v => (VerifyInventoryDataSize v
                                         (items0 ++ gItems1)).1) gItems1
                 then None
                 else Some "Size limit exceeded for collected data.")
                Hrest Hfail)
      as (t2 & -> & Hruns & Hsend).
    eexists. split.
    + f_equal. cbn [map concat fst snd]. rewrite Hrun. cbn [fst].
      now rewrite <- app_assoc.
    + assert (Hlog : forall ev, ev ∈ t1 -> exists lvl fmt args,
                  ev = inventory.Log lvl fmt args).
      { intros ev Hin. exact (proj1 (Forall_forall _ _) Ht1 ev Hin). }
      split.
      * intros g' c'. cbn [app].
        rewrite !elem_of_cons, elem_of_app, Hruns. split.
        -- intros [Hd|[[= -> ->]|[(? & ? & ? & Hd)%Hlog|Hin]]];
             [discriminate Hd | now left | discriminate Hd | now right].
        -- intros [[= -> ->]|Hin]; [right; now left|].
           right. right. now right.
      * intros x. cbn [app].
        rewrite !elem_of_cons, elem_of_app.
        intros [Hd|[Hd|[(? & ? & ? & Hd)%Hlog|Hin]]];
          [discriminate Hd | discriminate Hd | discriminate Hd|].
        exact (Hsend x Hin).
Qed.

(** The gatherers are run one after the other, each once for each time
    the iteration yields it. *)
Lemma RunGatherers_range_runs (l : list (T * Config)) :
  forall (items0 : list Item) (err0 : option inventory.error),
  Forall (fun gc => (gatherer_Run gc.1 gc.2).2 = None) l ->
  inventory.gathererRuns (RunGatherers_range l items0 err0).2 = l.
Proof.
  induction l as [|[g c] rest IH]; intros items0 err0 Hok.
  - reflexivity.
  - apply Forall_cons in Hok as [Hgc Hrest]. cbn [fst snd] in Hgc.
    cbn [inventory.RunGatherers_range].
    destruct (gatherer_Run g c) as [gItems oe] eqn:Hrun.
    cbn [snd] in Hgc. subst oe.
    destruct (RunGatherers_sizes_spec gItems (items0 ++ gItems) None)
      as (t1 & -> & [Ht1 _]%logs_run_and_upload_nothing).
    specialize (IH (items0 ++ gItems)
                  (if forallb (fun v => (VerifyInventoryDataSize v
                                           (items0 ++ gItems)).1) gItems
                   then None
                   else Some "Size limit exceeded for collected data.")
                  Hrest).
    destruct (RunGatherers_range rest _ _) as [r t2]. cbn [snd] in *.
    unfold inventory.gathererRuns in *.
    rewrite !omap_app, Ht1, IH. reflexivity.
Qed.

(** X17: The first gatherer that fails ends [RunGatherers]: the error names it,
    the items are those of the gatherers before it, and no gatherer after
    it in the order of the iteration is run. *)
Theorem RunGatherers_stops_at_first_failure
  (gatherers : gmap T Config) (l1 l2 : list (T * Config)) (g : T)
  (c : Config) (gItems : list Item) (e : inventory.error) :
  rangeGatherers gatherers = l1 ++ (g, c) :: l2 ->
  Forall (fun gc => (gatherer_Run gc.1 gc.2).2 = None) l1 ->
  gatherer_Run g c = (gItems, Some e) ->
  exists t,
    RunGatherers gatherers =
      ((concat (map (fun gc => (gatherer_Run gc.1 gc.2).1) l1),
        Some ("Encountered error while executing " +:+ gatherer_Name g
              +:+ ". Error - " +:+ e)), t) /\
    (forall g' c', inventory.GathererRun g' c' ∈ t
                   <-> (g', c') ∈ l1 ++ [(g, c)]).
Proof.
  intros Hrange Hok Hfail. unfold inventory.RunGatherers. rewrite Hrange.
  destruct (RunGatherers_range_fail l1 l2 g c gItems e [] None Hok Hfail)
    as (t & Hrun & Hruns & _).
  exists t. split; [exact Hrun | exact Hruns].
Qed.

(** X18: When no gatherer fails, [RunGatherers] runs them all, one after the
    other in the order of the iteration and none more often than the
    iteration yields it, and returns all their items in that order.  The
    size error it returns
    is the verdict on the items of the gatherer that came last: a breach
    of the limit noticed after an earlier gatherer is forgotten when the
    next gatherer is run. *)
Theorem RunGatherers_size_error_is_of_last_gatherer
  (gatherers : gmap T Config) :
  let l := rangeGatherers gatherers in
  let items := concat (map (fun gc => (gatherer_Run gc.1 gc.2).1) l) in
  Forall (fun gc => (gatherer_Run gc.1 gc.2).2 = None) l ->
  exists t,
    RunGatherers gatherers =
      ((items,
        match last l with
        | None => None
        | Some gc =>
            if forallb (fun v => (VerifyInventoryDataSize v items).1)
                 (gatherer_Run gc.1 gc.2).1
            then None
            else Some "Size limit exceeded for collected data."
        end), t) /\
    inventory.gathererRuns t = l /\
    (forall g c, inventory.GathererRun g c ∈ t <-> (g, c) ∈ l).
Proof.
  intros l items Hok. unfold inventory.RunGatherers. fold l.
  pose proof (RunGatherers_range_runs l [] None Hok) as Honce.
  destruct (RunGatherers_range_ok l [] None Hok) as (t & Hrun & Hruns & _).
  rewrite Hrun in Honce. cbn [snd] in Honce.
  exists t. split; [exact Hrun|]. split; [exact Honce | exact Hruns].
Qed.

(** *** [ApplyInventoryPolicy] *)

Lemma ValidateGatherers_no_send (p : Plugin) (l : list (string * Config)) :
  forall (ex : gmap T Config) (x : list SsmItem),
    inventory.SendDataToSSM x ∉ (ValidateGatherers_range p l ex).2.
Proof.
  intros ex x Hin.
  destruct (ValidateGatherers_range_spec p l ex)
    as (ex' & err & t & Heq & _ & _ & _ & _ & _ & Hlog).
  rewrite Heq in Hin. cbn [snd] in Hin.
  destruct (Hlog _ Hin) as (? & ? & _ & _ & _ & Hd). discriminate Hd.
Qed.

Lemma RunGatherers_range_no_send (l : list (T * Config)) :
  forall (items0 : list Item) (err0 : option inventory.error)
         (x : list SsmItem),
    inventory.SendDataToSSM x ∉ (RunGatherers_range l items0 err0).2.
Proof.
  induction l as [|[g c] rest IH]; intros items0 err0 x.
  - intros Hin. inversion Hin.
  - cbn [inventory.RunGatherers_range].
    destruct (gatherer_Run g c) as [gItems [e|]].
    + cbn [snd]. rewrite !elem_of_cons.
      intros [Hd|[Hd|Hin]];
        [discriminate Hd | discriminate Hd | inversion Hin].
    + destruct (RunGatherers_sizes_spec gItems (items0 ++ gItems) None)
        as (t1 & -> & Ht1).
      specialize (IH (items0 ++ gItems)
                    (if forallb (fun v => (VerifyInventoryDataSize v
                                             (items0 ++ gItems)).1) gItems
                     then None
                     else Some "Size limit exceeded for collected data.") x).
      destruct (RunGatherers_range rest _ _) as [r t2]. cbn [snd app] in *.
      rewrite !elem_of_cons, elem_of_app.
      intros [Hd|[Hd|[Hin|Hin]]];
        [discriminate Hd | discriminate Hd | | exact (IH Hin)].
      destruct (proj1 (Forall_forall _ _) Ht1 _ Hin) as (? & ? & ? & Hd).
      discriminate Hd.
Qed.

Lemma ValidateGatherers_only_logs (p : Plugin)
  (policy : inventory.Policy Config) (ev : Event) :
  ev ∈ (ValidateGatherers p policy).2 ->
  exists lvl fmt args, ev = inventory.Log lvl fmt args.
Proof.
  unfold inventory.ValidateGatherers. intros Hin.
  destruct (ValidateGatherers_range_spec p
              (rangePolicy (inventory.InventoryPolicy policy)) ∅)
    as (ex' & err & t & Heq & _ & _ & _ & _ & _ & Hlog).
  rewrite Heq in Hin. cbn [snd] in Hin.
  destruct (Hlog _ Hin) as (? & ? & _ & _ & _ & ->). eauto.
Qed.

Lemma RunGatherers_no_send (gatherers : gmap T Config) (x : list SsmItem) :
  inventory.SendDataToSSM x ∉ (RunGatherers gatherers).2.
Proof. apply RunGatherers_range_no_send. Qed.

Lemma uploads_app (t1 t2 : list Event) :
  inventory.uploads (t1 ++ t2) = inventory.uploads t1 ++ inventory.uploads t2.
Proof. apply omap_app. Qed.

Lemma uploads_none (t : list Event) :
  (forall x, inventory.SendDataToSSM x ∉ t) -> inventory.uploads t = [].
Proof.
  induction t as [|ev t IH]; intros Hno; [reflexivity|].
  assert (Ht : inventory.uploads t = []).
  { apply IH. intros x Hin. apply (Hno x). now right. }
  destruct ev as [lvl fmt args|g c|x]; [exact Ht | exact Ht |].
  destruct (Hno x). left.
Qed.

Ltac split_trace H :=
  repeat first [ apply elem_of_app in H as [H|H]
               | apply elem_of_cons in H as [H|H] ];
  try discriminate H; try (apply elem_of_nil in H; contradiction).

(** X19: [ApplyInventoryPolicy] uploads at most once, as the last thing it
    does, and only what the gatherers of a readable, well-formed policy
    have collected without an error: no gatherer is run when the policy
    names an unrecognized gatherer, and nothing is sent when a gatherer has
    failed.  An error of the conversion to SSM items does not hold back
    the upload. *)
Theorem ApplyInventoryPolicy_uploads (p : Plugin) :
  let doc := path_Join [inventory.location p; InventoryPolicyDocName] in
  let t := ApplyInventoryPolicy p in
  (forall x, inventory.uploads t = [x] <->
     fileutil_Exists doc = true /\
     exists content policy gatherers items t2 t3,
       fileutil_ReadAllText doc = (content, None) /\
       json_Unmarshal content = (policy, None) /\
       ValidateGatherers p policy = ((gatherers, None), t2) /\
       RunGatherers gatherers = ((items, None), t3) /\
       x = (ConvertToSsmInventoryItems items).1) /\
  (inventory.uploads t = []
   \/ exists x, inventory.uploads t = [x]
                /\ last t = Some (inventory.SendDataToSSM x)) /\
  (forall g c, inventory.GathererRun g c ∈ t ->
     exists content policy gatherers t2,
       fileutil_ReadAllText doc = (content, None) /\
       json_Unmarshal content = (policy, None) /\
       ValidateGatherers p policy = ((gatherers, None), t2)).
Proof.
  intros doc t. subst t. unfold inventory.ApplyInventoryPolicy. fold doc.
  destruct (fileutil_Exists doc) eqn:Hex.
  2: { split; [|split].
       - intros x. split; [discriminate|].
         intros [Hd _]. discriminate Hd.
       - now left.
       - intros g c Hin. split_trace Hin. }
  destruct (fileutil_ReadAllText doc) as [content [e|]] eqn:Hread.
  { split; [|split].
    - intros x. split; [discriminate|].
      intros (_ & ? & ? & ? & ? & ? & ? & [=] & _).
    - now left.
    - intros g c Hin. split_trace Hin. }
  destruct (json_Unmarshal content) as [policy [e|]] eqn:Hparse.
  { split; [|split].
    - intros x. split; [discriminate|].
      intros (_ & ? & ? & ? & ? & ? & ? & [= <-] & Hp & _). congruence.
    - now left.
    - intros g c Hin. split_trace Hin. }
  pose proof (ValidateGatherers_only_logs p policy) as Hlogs.
  destruct (ValidateGatherers p policy) as [[gatherers [e|]] t2] eqn:Hval;
    cbn [snd] in Hlogs.
  { assert (Hnone : forall t0 t1 : list Event,
               (forall x, inventory.SendDataToSSM x ∉ t0) ->
               (forall x, inventory.SendDataToSSM x ∉ t1) ->
               inventory.uploads (t0 ++ t2 ++ t1) = []).
    { intros t0 t1 H0 H1. apply uploads_none. intros x Hin.
      split_trace Hin; [exact (H0 x Hin) | | exact (H1 x Hin)].
      destruct (Hlogs _ Hin) as (? & ? & ? & Hd). discriminate Hd. }
    rewrite Hnone by (intros x Hin; split_trace Hin).
    split; [|split].
    - intros x. split; [discriminate|].
      intros (_ & ? & ? & ? & ? & ? & ? & [= <-] & Hp & Hv & _).
      rewrite Hparse in Hp. injection Hp as <-. congruence.
    - now left.
    - intros g c Hin. split_trace Hin.
      destruct (Hlogs _ Hin) as (? & ? & ? & Hd). discriminate Hd. }
  pose proof (RunGatherers_no_send gatherers) as Hnosend.
  assert (Hnone : forall t0 t1 : list Event,
             (forall x, inventory.SendDataToSSM x ∉ t0) ->
             (forall x, inventory.SendDataToSSM x ∉ t1) ->
             inventory.uploads
               (t0 ++ t2 ++ (RunGatherers gatherers).2 ++ t1) = []).
  { intros t0 t1 H0 H1. apply uploads_none. intros x Hin.
    split_trace Hin;
      [exact (H0 x Hin) | | exact (Hnosend x Hin) | exact (H1 x Hin)].
    destruct (Hlogs _ Hin) as (? & ? & ? & Hd). discriminate Hd. }
  destruct (RunGatherers gatherers) as [[items [e|]] t3] eqn:Hrun;
    cbn [snd] in Hnosend, Hnone.
  { rewrite Hnone by (intros x Hin; split_trace Hin).
    split; [|split].
    - intros x. split; [discriminate|].
      intros (_ & ? & ? & ? & ? & ? & ? & [= <-] & Hp & Hv & Hr & _).
      rewrite Hparse in Hp. injection Hp as <-.
      rewrite Hval in Hv. injection Hv as <- _. congruence.
    - now left.
    - intros g c Hin. eauto 10. }
  destruct (ConvertToSsmInventoryItems items) as [inventoryItems err]
    eqn:Hconv.
  match goal with
  | |- context [inventory.uploads ?t] =>
      assert (Hone : inventory.uploads t = [inventoryItems])
  end.
  { rewrite uploads_app.
    rewrite Hnone by (intros x Hin; split_trace Hin).
    destruct err; reflexivity. }
  rewrite Hone. split; [|split].
  - intros x. split.
    + intros [= <-]. split; [reflexivity|].
      exists content, policy, gatherers, items, t2, t3.
      rewrite Hconv. auto.
    + intros (_ & ? & ? & ? & ? & ? & ? & [= <-] & Hp & Hv & Hr & ->).
      rewrite Hparse in Hp. injection Hp as <-.
      rewrite Hval in Hv. injection Hv as <- _.
      rewrite Hrun in Hr. injection Hr as <- _.
      now rewrite Hconv.
  - right. exists inventoryItems. split; [reflexivity|].
    rewrite !app_assoc. apply last_snoc.
  - intros g c _. eauto 10.
Qed.

End InventoryProperties.

(** *** The inventory properties at work *)

(** An item of 9 bytes against limits of 200 KiB and 1 MiB. *)
Lemma VerifyInventoryDataSize_exact_witness :
  (inventory.VerifyInventoryDataSize (T:=string) (Config:=string)
     (SsmItem:=string) InventorySamples.Name InventorySamples.marshalItem
     InventorySamples.marshalItems 200 1024 "C:\Temp\a" ["C:\Temp\a"]).1
  = true.
Proof.
  apply (VerifyInventoryDataSize_exact (T:=string) (Config:=string)
           (SsmItem:=string) InventorySamples.Name
           InventorySamples.marshalItem InventorySamples.marshalItems
           200 1024 "C:\Temp\a" ["C:\Temp\a"]); [lia | lia | lia | lia |].
  vm_compute. split; discriminate.
Defined.

(** A policy with a supported gatherer and one of another platform. *)
Lemma ValidateGatherers_spec_witness :
  exists executors t,
    inventory.ValidateGatherers (SsmItem:=string) map_to_list
      InventorySamples.plugin InventorySamples.policy
    = ((executors, None), t) /\
    is_Some (executors !! "AWS:Application").
Proof.
  destruct (ValidateGatherers_spec (SsmItem:=string) map_to_list
              InventorySamples.plugin InventorySamples.policy
              (reflexivity _))
    as (executors & err & t & Hrun & Hok & _ & Hall & _).
  assert (Herr : err = None).
  { apply Hok. intros name [c Hc].
    unfold InventorySamples.policy in Hc.
    cbn [inventory.InventoryPolicy] in Hc.
    apply lookup_insert_Some in Hc as [[<- _]|[_ Hc]].
    - left. vm_compute. eauto.
    - apply lookup_singleton_Some in Hc as [<- _]. right. vm_compute. eauto. }
  subst err. exists executors, t. split; [exact Hrun|].
  apply (Hall eq_refl "AWS:Application"); [vm_compute; eauto | reflexivity].
Defined.

(** The network gatherer fails after the application gatherer. *)
Lemma RunGatherers_stops_at_first_failure_witness :
  exists t,
    inventory.RunGatherers (SsmItem:=string) InventorySamples.Name
      InventorySamples.Run InventorySamples.Name
      InventorySamples.marshalItem InventorySamples.marshalItems 200 1024
      (InventorySamples.inOrder
         ["AWS:Application"; "AWS:Network"; "AWS:InstanceInformation"])
      InventorySamples.gatherers
    = ((["all"; "app"],
        Some "Encountered error while executing AWS:Network. Error - no interface"),
       t) /\
    inventory.GathererRun "AWS:InstanceInformation" "all" ∉ t.
Proof.
  destruct (RunGatherers_stops_at_first_failure (SsmItem:=string)
              InventorySamples.Name InventorySamples.Run
              InventorySamples.Name InventorySamples.marshalItem
              InventorySamples.marshalItems 200 1024
              (InventorySamples.inOrder
                 ["AWS:Application"; "AWS:Network";
                  "AWS:InstanceInformation"])
              InventorySamples.gatherers
              [("AWS:Application", "all")]
              [("AWS:InstanceInformation", "all")]
              "AWS:Network" "all" [] "no interface")
    as (t & Hrun & Hruns).
  - vm_compute. reflexivity.
  - repeat constructor.
  - reflexivity.
  - exists t. split; [exact Hrun|].
    intros Hin%Hruns. cbn [app] in Hin.
    apply elem_of_cons in Hin as [Hd|Hin]; [discriminate Hd|].
    apply elem_of_cons in Hin as [Hd|Hin]; [discriminate Hd|].
    inversion Hin.
Defined.

(** Two gatherers that succeed, against a limit of no size at all for one
    item: the breach by the gatherer that comes last is the error. *)
Lemma RunGatherers_size_error_is_of_last_gatherer_witness :
  exists t,
    inventory.RunGatherers (SsmItem:=string) InventorySamples.Name
      InventorySamples.Run InventorySamples.Name
      InventorySamples.marshalItem InventorySamples.marshalItems 0 1024
      (InventorySamples.inOrder
         ["AWS:Application"; "AWS:InstanceInformation"])
      InventorySamples.gatherers
    = ((["all"; "app"; "AWS:InstanceInformation"],
        Some "Size limit exceeded for collected data."), t).
Proof.
  destruct (RunGatherers_size_error_is_of_last_gatherer (SsmItem:=string)
              InventorySamples.Name InventorySamples.Run
              InventorySamples.Name InventorySamples.marshalItem
              InventorySamples.marshalItems 0 1024
              (InventorySamples.inOrder
                 ["AWS:Application"; "AWS:InstanceInformation"])
              InventorySamples.gatherers)
    as (t & Hrun & _).
  - vm_compute. repeat constructor.
  - exists t. exact Hrun.
Defined.


(** ** Properties of package [updatessmagent] *)

(** [strconv.ParseBool] takes twelve spellings and nothing else. *)
Lemma ParseBool_cases (str : string) :
  (exists b, updatessmagent.ParseBool str = (b, None))
  \/ updatessmagent.ParseBool str
     = (false,
        Some (updatessmagent.NumError "ParseBool" str
                updatessmagent.ErrSyntax)).
Proof.
  unfold updatessmagent.ParseBool.
  repeat case_bool_decide; eauto.
Qed.

Lemma string_length_zero (s : string) :
  (String.length s =? 0)%nat = true <-> s = "".
Proof. destruct s; cbn; split; intros; (reflexivity || discriminate). Qed.

Section UpdateProperties.
Context {Ext InstanceContext Manifest Raw Time : Type}.
Variable Region : InstanceContext -> string.
Variable version_Version : string.
Variable strconv_Quote : string -> string.
Variable strings_Replace : string -> string -> string -> Z -> string.
Variable Remarshal :
  Raw -> updatessmagent.UpdatePluginInput * option updatessmagent.error.
Variable Sprint_raw : Raw -> string.
Variables RegionHolder UpdaterPackageNamePrefix HashType : string.
Variables SourceVersionCmd SourceLocationCmd SourceHashCmd : string.
Variables TargetVersionCmd TargetLocationCmd TargetHashCmd : string.
Variables PackageNameCmd MessageIDCmd : string.
Variables updateutil_StdoutFileName updateutil_StderrFileName : string.
Variables OutputKeyPrefixCmd OutputBucketNameCmd : string.
Variable UpdaterArtifactsRoot : string.
Variable BuildUpdateCommand : string -> string -> string -> string.
Variable UpdaterFilePath : string -> string -> string -> string.
Variable UpdateArtifactFolder : string -> string -> string -> string.
Variable BuildS3Path : string -> string -> string.
Variable LatestVersion :
  Manifest -> option InstanceContext -> string ->
  string * option updatessmagent.error.
Variable HasVersion :
  Manifest -> option InstanceContext -> string -> string -> bool.
Variable DownloadURLAndHash :
  Manifest -> option InstanceContext -> string -> string ->
  (string * string) * option updatessmagent.error.
Variable ParseManifest :
  string -> option InstanceContext -> string -> Ext ->
  (option Manifest * option updatessmagent.error) * Ext.
Variable fileDownload :
  updatessmagent.DownloadInput -> Ext ->
  (updatessmagent.DownloadOutput * option updatessmagent.error) * Ext.
Variable fileUncompress :
  string -> string -> Ext -> option updatessmagent.error * Ext.
Variable Stdout : list updatessmagent.OutCall -> string.

Set Default Proof Using "Type".

Local Abbreviation State := (updatessmagent.State (Ext:=Ext) (Time:=Time)).
Local Abbreviation Event := (updatessmagent.Event (Time:=Time)).
Local Abbreviation updateutil_T :=
  (updatessmagent.updateutil_T (Ext:=Ext) (InstanceContext:=InstanceContext)
     (Time:=Time)).
Local Abbreviation Error := (updatessmagent.Error strconv_Quote).
Local Abbreviation validateUpdate :=
  (updatessmagent.validateUpdate (Ext:=Ext) (Time:=Time) version_Version
     LatestVersion HasVersion).
Local Abbreviation downloadManifest :=
  (updatessmagent.downloadManifest (Time:=Time) ParseManifest fileDownload).
Local Abbreviation downloadUpdater :=
  (updatessmagent.downloadUpdater (Time:=Time) strconv_Quote HashType
     UpdaterArtifactsRoot UpdateArtifactFolder LatestVersion
     DownloadURLAndHash fileDownload fileUncompress).
Local Abbreviation generateUpdateCmd :=
  (updatessmagent.generateUpdateCmd (Ext:=Ext) (Time:=Time) version_Version
     SourceVersionCmd SourceLocationCmd SourceHashCmd TargetVersionCmd
     TargetLocationCmd TargetHashCmd PackageNameCmd MessageIDCmd
     updateutil_StdoutFileName updateutil_StderrFileName OutputKeyPrefixCmd
     OutputBucketNameCmd BuildUpdateCommand DownloadURLAndHash).
Local Abbreviation updateManager :=
  (updatessmagent.updateManager (Time:=Time) version_Version strconv_Quote
     HashType SourceVersionCmd SourceLocationCmd SourceHashCmd
     TargetVersionCmd TargetLocationCmd TargetHashCmd PackageNameCmd
     MessageIDCmd updateutil_StdoutFileName updateutil_StderrFileName
     OutputKeyPrefixCmd OutputBucketNameCmd UpdaterArtifactsRoot
     BuildUpdateCommand UpdateArtifactFolder LatestVersion HasVersion
     DownloadURLAndHash ParseManifest fileDownload fileUncompress).
Local Abbreviation runUpdateAgent :=
  (updatessmagent.runUpdateAgent Region version_Version strconv_Quote
     strings_Replace Remarshal Sprint_raw RegionHolder
     UpdaterPackageNamePrefix UpdaterArtifactsRoot UpdaterFilePath
     UpdateArtifactFolder BuildS3Path Stdout).
Local Abbreviation endsWithStatus :=
  (updatessmagent.endsWithStatus (Time:=Time) UpdaterArtifactsRoot).

Local Abbreviation nilDereference :=
  (updatessmagent.nilDereference (Time:=Time) Region version_Version
     strings_Replace Remarshal RegionHolder UpdaterPackageNamePrefix
     LatestVersion HasVersion ParseManifest fileDownload).
Local Abbreviation prepared :=
  (updatessmagent.prepared Region strings_Replace RegionHolder
     UpdaterPackageNamePrefix).
Local Abbreviation announced :=
  (updatessmagent.announced (Time:=Time) version_Version).

(** Proof steps for the cases of [validateUpdate]. *)
Ltac unpack :=
  repeat match goal with
         | H : _ /\ _ |- _ => destruct H
         | H : exists _, _ |- _ => destruct H
         | H : Some _ = Some _ |- _ => injection H; clear H; intros
         | H : (_, _) = (_, _) |- _ => injection H; clear H; intros
         | Hu : (forall p, ?r p -> p = _), H : ?r _ |- _ => apply Hu in H
         | Hn : (forall p, ~ ?r p), H : ?r _ |- _ => destruct (Hn _ H)
         end.

Ltac verdict_cases :=
  split;
  [ split; [intros Hpanic | intros [Hnilm Hwhy]]
  | split;
    [ intros pluginInput' noNeedToUpdate e' s' Hret
    | split;
      [ intros pluginInput' b e' Hresolved Hnoparse
      | split; intros pluginInput' s';
        (split; [intros Hret | intros Hcond]) ] ] ].

Ltac conclude :=
  unpack; subst; try discriminate; try contradiction; try congruence; auto.

(** *** [validateUpdate] *)


(** What [validateUpdate] calls: the two calls on the output that go with
    its success, or nothing at all.  It panics on a nil manifest only, and
    lets the update go ahead with a manifest only. *)
Lemma validateUpdate_calls
  (pluginInput : updatessmagent.UpdatePluginInput)
  (context : option InstanceContext) (manifest : option Manifest)
  (s : State) :
  (validateUpdate pluginInput context manifest s = None /\ manifest = None)
  \/ exists pluginInput' noNeedToUpdate err s',
       validateUpdate pluginInput context manifest s
       = Some ((pluginInput', (noNeedToUpdate, err)), s') /\
       ((noNeedToUpdate = true /\ err = None /\
         exists info,
           updatessmagent.calls s' =
             updatessmagent.calls s ++
             [ updatessmagent.CallOut info;
               updatessmagent.CallOut updatessmagent.MarkAsSucceeded ] /\
           updatessmagent.isMark info = false)
        \/ (updatessmagent.calls s' = updatessmagent.calls s /\
            (noNeedToUpdate = true -> is_Some err) /\
            (noNeedToUpdate = false -> is_Some manifest))).
Proof.
  remember (validateUpdate pluginInput context manifest s) as run eqn:Hrun.
  unfold updatessmagent.validateUpdate in Hrun.
  assert (Hquiet : forall (pluginInput' : updatessmagent.UpdatePluginInput)
             (noNeedToUpdate : bool) (err : option updatessmagent.error),
             run = Some ((pluginInput', (noNeedToUpdate, err)), s) ->
             (noNeedToUpdate = true -> is_Some err) ->
             (noNeedToUpdate = false -> is_Some manifest) ->
             exists pluginInput'0 noNeedToUpdate0 err0 s',
               run = Some ((pluginInput'0, (noNeedToUpdate0, err0)), s') /\
               ((noNeedToUpdate0 = true /\ err0 = None /\
                 exists info,
                   updatessmagent.calls s' =
                     updatessmagent.calls s ++
                     [ updatessmagent.CallOut info;
                       updatessmagent.CallOut updatessmagent.MarkAsSucceeded ] /\
                   updatessmagent.isMark info = false)
                \/ (updatessmagent.calls s' = updatessmagent.calls s /\
                    (noNeedToUpdate0 = true -> is_Some err0) /\
                    (noNeedToUpdate0 = false -> is_Some manifest)))).
  { intros pluginInput' noNeed err Hr H1 H2. eexists _, _, _, _.
    split; [exact Hr|]. right. auto. }
  set (first := if (_ =? 0)%nat then _ else _) in Hrun.
  assert (Hfirst : (first s = None /\ manifest = None)
                   \/ exists p e, first s = Some ((p, e), s)).
  { subst first.
    destruct (_ =? 0)%nat; [destruct manifest as [m|]|];
      cbv [updatessmagent.bind updatessmagent.onManifest
           updatessmagent.deref updatessmagent.ret updatessmagent.panic];
      eauto. }
  clearbody first. unfold updatessmagent.bind at 1 in Hrun.
  destruct Hfirst as [[Hf ->]|(pluginInput1 & e & Hf)]; rewrite Hf in Hrun;
    clear Hf first; [left; auto|].
  destruct e as [e|]; cbv beta iota in Hrun.
  { right. eapply Hquiet; [exact Hrun | eauto | discriminate]. }
  destruct (updatessmagent.ParseBool _) as [allowDowngrade [e|]].
  { right. eapply Hquiet; [exact Hrun | eauto | discriminate]. }
  destruct (String.eqb _ _).
  { right. subst run. eexists _, _, _, _. split; [reflexivity|]. left.
    split; [reflexivity|]. split; [reflexivity|].
    eexists. split; [cbn; now rewrite <- app_assoc | reflexivity]. }
  destruct (String.ltb _ _ && negb allowDowngrade).
  { right. eapply Hquiet; [exact Hrun | eauto | discriminate]. }
  destruct manifest as [m|]; [|left; auto].
  cbv [updatessmagent.bind updatessmagent.onManifest updatessmagent.deref
       updatessmagent.ret] in Hrun.
  repeat match type of Hrun with
         | context [if ?b then _ else _] => destruct b
         end;
    right; (eapply Hquiet; [exact Hrun | |]); first [discriminate | eauto].
Qed.

(** *** [downloadManifest] and [downloadUpdater] *)

(** X21: When the download of the manifest comes back without an error but
    with a hash that does not match, or without a local file,
    [downloadManifest] returns neither a manifest nor an error, and the
    manifest is not parsed. *)
Theorem downloadManifest_neither_manifest_nor_error
  (util : updateutil_T) (pluginInput : updatessmagent.UpdatePluginInput)
  (context : option InstanceContext) (s : State)
  (folder : string) (x1 x2 : Ext)
  (downloadOutput : updatessmagent.DownloadOutput) :
  let downloadInput :=
    {| updatessmagent.SourceURL := updatessmagent.Source pluginInput;
       updatessmagent.SourceChecksums := ∅;
       updatessmagent.DestinationDirectory := folder |} in
  updatessmagent.CreateUpdateDownloadFolder util (updatessmagent.ext s)
  = ((folder, None), x1) ->
  fileDownload downloadInput x1 = ((downloadOutput, None), x2) ->
  updatessmagent.IsHashMatched downloadOutput = false
  \/ updatessmagent.LocalFilePath downloadOutput = "" ->
  downloadManifest util pluginInput context s
  = Some ((pluginInput, (None, None)),
          {| updatessmagent.ext := x2;
             updatessmagent.calls :=
               updatessmagent.calls s ++
               [ updatessmagent.CallCreateUpdateDownloadFolder;
                 updatessmagent.CallDownload downloadInput ] |}).
Proof.
  intros downloadInput Hfolder Hdownload Hbad.
  unfold updatessmagent.downloadManifest, updatessmagent.bind,
    updatessmagent.call.
  rewrite Hfolder. cbn [updatessmagent.ext updatessmagent.calls].
  fold downloadInput. rewrite Hdownload.
  unfold updatessmagent.unreliable.
  rewrite bool_decide_eq_false_2 by (intros Hne; now apply Hne).
  cbn [orb].
  replace (negb (updatessmagent.IsHashMatched downloadOutput)
           || bool_decide (updatessmagent.LocalFilePath downloadOutput = ""))
    with true.
  - unfold updatessmagent.ret. cbn. now rewrite <- app_assoc.
  - symmetry. apply orb_true_iff. destruct Hbad as [->| ->].
    + now left.
    + right. now apply bool_decide_eq_true_2.
Qed.

(** X22: The same download for the updater is an error of [downloadUpdater],
    whose message names the source; the package is not uncompressed.  The
    manifest is one that can be asked for the version and the source. *)
Theorem downloadUpdater_unreliable_download_is_an_error
  (util : updateutil_T) (updaterPackageName : string)
  (manifest : Manifest) (context : option InstanceContext) (s : State)
  (version source hash folder : string) (x1 x2 : Ext)
  (downloadOutput : updatessmagent.DownloadOutput)
  (downloadErr : option updatessmagent.error) :
  let downloadInput :=
    {| updatessmagent.SourceURL := source;
       updatessmagent.SourceChecksums := {[ HashType := hash ]};
       updatessmagent.DestinationDirectory := folder |} in
  LatestVersion manifest context updaterPackageName = (version, None) ->
  DownloadURLAndHash manifest context updaterPackageName version
  = ((source, hash), None) ->
  updatessmagent.CreateUpdateDownloadFolder util (updatessmagent.ext s)
  = ((folder, None), x1) ->
  fileDownload downloadInput x1 = ((downloadOutput, downloadErr), x2) ->
  is_Some downloadErr
  \/ updatessmagent.IsHashMatched downloadOutput = false
  \/ updatessmagent.LocalFilePath downloadOutput = "" ->
  downloadUpdater util updaterPackageName (Some manifest) context s
  = Some ((version,
           Some (updatessmagent.errorString
                   (match downloadErr with
                    | Some e =>
                        ("failed to download file reliably, " +:+ source)
                        +:+ ", " +:+ Error e
                    | None => "failed to download file reliably, " +:+ source
                    end))),
          {| updatessmagent.ext := x2;
             updatessmagent.calls :=
               updatessmagent.calls s ++
               [ updatessmagent.CallCreateUpdateDownloadFolder;
                 updatessmagent.CallDownload downloadInput ] |}).
Proof.
  intros downloadInput Hlatest Hurl Hfolder Hdownload Hbad.
  unfold updatessmagent.downloadUpdater, updatessmagent.bind,
    updatessmagent.call.
  cbv [updatessmagent.onManifest updatessmagent.deref updatessmagent.bind
       updatessmagent.ret].
  rewrite Hlatest, Hurl, Hfolder.
  cbn [updatessmagent.ext updatessmagent.calls].
  fold downloadInput. rewrite Hdownload.
  replace (updatessmagent.unreliable downloadOutput downloadErr) with true.
  - cbn. now rewrite <- app_assoc.
  - symmetry. unfold updatessmagent.unreliable.
    rewrite !orb_true_iff. destruct Hbad as [[e ->]|[->| ->]].
    + left. left. now apply bool_decide_eq_true_2.
    + left. now right.
    + right. now apply bool_decide_eq_true_2.
Qed.

(** *** [runUpdateAgent] *)

Local Abbreviation quiet := (updatessmagent.quiet (Ext:=Ext) (Time:=Time)).
Local Abbreviation settles :=
  (updatessmagent.settles (Time:=Time) UpdaterArtifactsRoot).

Lemma forallb_silent_app (l1 l2 : list Event) :
  forallb updatessmagent.silent l1 = true ->
  forallb updatessmagent.silent l2 = true ->
  forallb updatessmagent.silent (l1 ++ l2) = true.
Proof. intros H1 H2. now rewrite forallb_app, H1, H2. Qed.

Lemma endsWithStatus_app (util : updateutil_T) (p : updatessmagent.Plugin)
  (l new : list Event) :
  forallb updatessmagent.silent l = true ->
  endsWithStatus util p new -> endsWithStatus util p (l ++ new).
Proof.
  intros Hl (pre & mark & -> & Hmark & Hpre).
  exists (l ++ pre), mark. split; [now rewrite app_assoc|].
  split; [exact Hmark|].
  destruct Hpre as [[Hsilent Hne]|(pre0 & cmd & wd & x & -> & Hs & Hne & Hexe)].
  - left. split; [now apply forallb_silent_app | exact Hne].
  - right. exists (l ++ pre0), cmd, wd, x.
    split; [now rewrite app_assoc|].
    split; [now apply forallb_silent_app|]. split; [exact Hne | exact Hexe].
Qed.

Lemma endsWithStatus_failed (util : updateutil_T) (p : updatessmagent.Plugin)
  (e : updatessmagent.error) :
  endsWithStatus util p
    [updatessmagent.CallOut (updatessmagent.MarkAsFailed e)].
Proof.
  exists [], (updatessmagent.MarkAsFailed e).
  split; [reflexivity|]. split; [reflexivity|]. left.
  split; [reflexivity | discriminate].
Qed.

Lemma settles_failed (util : updateutil_T) (p : updatessmagent.Plugin)
  (e : updatessmagent.error) :
  settles util p (updatessmagent.out (updatessmagent.MarkAsFailed e)).
Proof.
  intros s. eexists _, _. split; [reflexivity|].
  split; [reflexivity | apply endsWithStatus_failed].
Qed.

Lemma settles_bind {A} (util : updateutil_T) (p : updatessmagent.Plugin)
  (m : updatessmagent.U A) (Q : A -> Prop) (k : A -> updatessmagent.U unit) :
  quiet m Q -> (forall a, Q a -> settles util p (k a)) ->
  settles util p (updatessmagent.bind m k).
Proof.
  intros Hm Hk s. destruct (Hm s) as (a & s1 & new1 & Hrun & Hcalls & Hs & HQ).
  destruct (Hk a HQ s1) as (s2 & new2 & Hrun2 & Hcalls2 & Hend).
  exists s2, (new1 ++ new2). unfold updatessmagent.bind. rewrite Hrun.
  split; [exact Hrun2|].
  split; [now rewrite Hcalls2, Hcalls, app_assoc|].
  now apply endsWithStatus_app.
Qed.

Lemma quiet_ret {A} (a : A) (Q : A -> Prop) :
  Q a -> quiet (updatessmagent.ret a) Q.
Proof.
  intros HQ s. exists a, s, []. split; [reflexivity|].
  split; [now rewrite app_nil_r|]. split; [reflexivity | exact HQ].
Qed.

Lemma quiet_bind {A B} (m : updatessmagent.U A) (Q : A -> Prop)
  (k : A -> updatessmagent.U B) (R : B -> Prop) :
  quiet m Q -> (forall a, Q a -> quiet (k a) R) ->
  quiet (updatessmagent.bind m k) R.
Proof.
  intros Hm Hk s. destruct (Hm s) as (a & s1 & new1 & Hrun & Hcalls & Hs & HQ).
  destruct (Hk a HQ s1) as (b & s2 & new2 & Hrun2 & Hcalls2 & Hs2 & HR).
  exists b, s2, (new1 ++ new2). unfold updatessmagent.bind. rewrite Hrun.
  split; [exact Hrun2|].
  split; [now rewrite Hcalls2, Hcalls, app_assoc|].
  split; [now apply forallb_silent_app | exact HR].
Qed.

Lemma quiet_call {A} (e : Event) (f : Ext -> A * Ext) :
  updatessmagent.silent e = true ->
  quiet (updatessmagent.call e f) (fun a => exists x, a = (f x).1).
Proof.
  intros He s. unfold updatessmagent.call.
  destruct (f (updatessmagent.ext s)) as [a x] eqn:Hf.
  eexists a, _, [e]. split; [reflexivity|]. split; [reflexivity|].
  split; [cbn; now rewrite He|].
  exists (updatessmagent.ext s). now rewrite Hf.
Qed.

Lemma quiet_note (e : Event) :
  updatessmagent.silent e = true ->
  quiet (updatessmagent.note e) (fun _ => True).
Proof.
  intros He s. eexists tt, _, [e]. split; [reflexivity|].
  split; [reflexivity|]. split; [cbn; now rewrite He | exact I].
Qed.

Lemma quiet_weaken {A} (m : updatessmagent.U A) (Q R : A -> Prop) :
  quiet m Q -> (forall a, Q a -> R a) -> quiet m R.
Proof.
  intros Hm HQR s. destruct (Hm s) as (a & s1 & new1 & Hrun & Hcalls & Hs & HQ).
  exists a, s1, new1. auto.
Qed.


Lemma quiet_onManifest {A} (m : Manifest) (method : Manifest -> A) :
  quiet (updatessmagent.onManifest (Some m) method) (fun _ => True).
Proof. now apply quiet_ret. Qed.

Lemma downloadManifest_quiet (util : updateutil_T)
  (pluginInput : updatessmagent.UpdatePluginInput)
  (context : option InstanceContext) :
  quiet (downloadManifest util pluginInput context)
    (fun r => r.1 = pluginInput).
Proof.
  unfold updatessmagent.downloadManifest.
  eapply quiet_bind; [apply quiet_call; reflexivity|].
  intros [folder [e|]] _; [now apply quiet_ret|].
  eapply quiet_bind; [apply quiet_call; reflexivity|].
  intros [downloadOutput downloadErr] _.
  destruct (updatessmagent.unreliable downloadOutput downloadErr);
    [now apply quiet_ret|].
  eapply quiet_bind; [apply quiet_note; reflexivity|]. intros _ _.
  eapply quiet_bind; [apply quiet_call; reflexivity|]. intros r _.
  now apply quiet_ret.
Qed.

Lemma downloadUpdater_quiet (util : updateutil_T) (updaterPackageName : string)
  (manifest : Manifest) (context : option InstanceContext) :
  quiet (downloadUpdater util updaterPackageName (Some manifest) context)
    (fun _ => True).
Proof.
  unfold updatessmagent.downloadUpdater.
  eapply quiet_bind; [apply quiet_onManifest|].
  intros [version [e|]] _; [now apply quiet_ret|].
  eapply quiet_bind; [apply quiet_onManifest|].
  intros [[source hash] [e|]] _; [now apply quiet_ret|].
  eapply quiet_bind; [apply quiet_call; reflexivity|].
  intros [folder [e|]] _; [now apply quiet_ret|].
  eapply quiet_bind; [apply quiet_call; reflexivity|].
  intros [downloadOutput downloadErr] _.
  destruct (updatessmagent.unreliable downloadOutput downloadErr);
    [now apply quiet_ret|].
  eapply quiet_bind; [apply quiet_note; reflexivity|]. intros _ _.
  eapply quiet_bind; [apply quiet_call; reflexivity|].
  intros [e|] _; now apply quiet_ret.
Qed.

Lemma generateUpdateCmd_quiet (manifest : Manifest)
  (pluginInput : updatessmagent.UpdatePluginInput)
  (context : option InstanceContext)
  (updaterPath messageID stdout stderr keyPrefix bucketName : string) :
  quiet (generateUpdateCmd (Some manifest) pluginInput context updaterPath
           messageID
    stdout stderr keyPrefix bucketName)
    (fun r => r.1 = pluginInput).
Proof.
  unfold updatessmagent.generateUpdateCmd.
  eapply quiet_bind; [apply quiet_onManifest|].
  intros [[source hash] [e|]] _; [now apply quiet_ret|].
  eapply quiet_bind; [apply quiet_onManifest|].
  intros [[source' hash'] [e|]] _; now apply quiet_ret.
Qed.

(** A computation that settles the status does so after any silent calls. *)
Lemma settles_from (util : updateutil_T) (p : updatessmagent.Plugin)
  (m : updatessmagent.U unit) (s s1 : State) (pre : list Event) :
  settles util p m ->
  updatessmagent.calls s1 = updatessmagent.calls s ++ pre ->
  forallb updatessmagent.silent pre = true ->
  exists s' new,
    m s1 = Some (tt, s') /\
    updatessmagent.calls s' = updatessmagent.calls s ++ new /\
    endsWithStatus util p new.
Proof.
  intros Hm Hcalls Hpre.
  destruct (Hm s1) as (s' & new & Hrun & Hcalls' & Hend).
  exists s', (pre ++ new). split; [exact Hrun|].
  split; [now rewrite Hcalls', Hcalls, app_assoc|].
  now apply endsWithStatus_app.
Qed.


End UpdateProperties.



(** *** The update properties at work *)

(** A manifest whose download does not match its hash. *)
Lemma downloadManifest_neither_manifest_nor_error_witness :
  exists s',
    updatessmagent.downloadManifest UpdateSamples.ParseManifest
      UpdateSamples.fileDownload UpdateSamples.util UpdateSamples.pluginInput
      (Some "us-east-1") UpdateSamples.start
    = Some ((UpdateSamples.pluginInput, (None, None)), s') /\
    length (updatessmagent.calls s') = 2%nat.
Proof.
  eexists. split.
  - apply (downloadManifest_neither_manifest_nor_error
             UpdateSamples.ParseManifest UpdateSamples.fileDownload
             UpdateSamples.util UpdateSamples.pluginInput (Some "us-east-1")
             UpdateSamples.start "/var/lib/amazon/ssm/update" tt tt
             {| updatessmagent.LocalFilePath :=
                  "/var/lib/amazon/ssm/update/download";
                updatessmagent.IsUpdated := true;
                updatessmagent.IsHashMatched := false |});
      [reflexivity | reflexivity | left; reflexivity].
  - reflexivity.
Defined.

(** The same download, for the updater package. *)
Lemma downloadUpdater_unreliable_download_is_an_error_witness :
  exists s',
    updatessmagent.downloadUpdater (Manifest:=list string) id "sha256"
      "/var/lib/amazon/ssm/update" UpdateSamples.UpdateArtifactFolder
      UpdateSamples.LatestVersion UpdateSamples.DownloadURLAndHash
      UpdateSamples.fileDownload (fun _ _ x => (None, x))
      UpdateSamples.util "amazon-ssm-agent-updater"
      (Some ["1.0.0.0"; "2.0.0.0"]) (Some "us-east-1") UpdateSamples.start
    = Some (("2.0.0.0",
             Some (updatessmagent.errorString
                     "failed to download file reliably, https://s3.us-east-1.amazonaws.com/amazon-ssm-agent-updater/2.0.0.0")),
            s') /\
    length (updatessmagent.calls s') = 2%nat.
Proof.
  eexists. split.
  - apply (downloadUpdater_unreliable_download_is_an_error
             (Manifest:=list string) id "sha256"
             "/var/lib/amazon/ssm/update" UpdateSamples.UpdateArtifactFolder
             UpdateSamples.LatestVersion UpdateSamples.DownloadURLAndHash
             UpdateSamples.fileDownload (fun _ _ x => (None, x))
             UpdateSamples.util "amazon-ssm-agent-updater"
             ["1.0.0.0"; "2.0.0.0"] (Some "us-east-1") UpdateSamples.start
             "2.0.0.0"
             "https://s3.us-east-1.amazonaws.com/amazon-ssm-agent-updater/2.0.0.0"
             "6b86b273" "/var/lib/amazon/ssm/update" tt tt
             {| updatessmagent.LocalFilePath :=
                  "/var/lib/amazon/ssm/update/download";
                updatessmagent.IsUpdated := true;
                updatessmagent.IsHashMatched := false |} None);
      [reflexivity | reflexivity | reflexivity | reflexivity
      | right; left; reflexivity].
  - reflexivity.
Defined.
